(** * garrison: label-driven volume backups for docker containers

    A shallow embedding of [garrison/containers.py] and
    [garrison/__main__.py], and the properties of the backup run that the
    design document states about them.

    The docker daemon, the wall clock and the logger are the only effects
    of the program.  They are threaded explicitly: a [World] records the
    clock, every call made on the docker client and every log record; a
    [Daemon] answers each client call as a function of the world at the
    moment of the call, so that two successive calls may be answered
    differently.  Python exceptions are the [Raise] results of [Res];
    [while] loops take fuel and yield [None] when it runs out. *)

From Stdlib Require Import ZArith Ascii String List Lia.
From stdpp Require Import base option list strings gmap.

Local Open Scope string_scope.
Local Open Scope Z_scope.

(** ** Python strings *)

Module PyStr.

(** [s.startswith(p)] *)
Fixpoint startswith (s p : string) {struct p} : bool :=
  match p with
  | EmptyString => true
  | String a p' =>
      match s with
      | EmptyString => false
      | String b s' => if Ascii.eqb a b then startswith s' p' else false
      end
  end.

Fixpoint drop (n : nat) (s : string) : string :=
  match n with
  | O => s
  | S n' => match s with EmptyString => EmptyString | String _ s' => drop n' s' end
  end.

(** [s.removeprefix(p)] *)
Definition removeprefix (s p : string) : string :=
  if startswith s p then drop (String.length p) s else s.

(** [x in s] for two strings: [x] occurs in [s]. *)
Fixpoint contains (s x : string) : bool :=
  startswith s x ||
  match s with
  | EmptyString => false
  | String _ s' => contains s' x
  end.

(** [c in s] for one character. *)
Fixpoint has_char (c : ascii) (s : string) : bool :=
  match s with
  | EmptyString => false
  | String a s' => Ascii.eqb a c || has_char c s'
  end.

(** [s.split(sep)] for a separator of one character: never empty. *)
Fixpoint split (sep : ascii) (s : string) : list string :=
  match s with
  | EmptyString => [EmptyString]
  | String a s' =>
      if Ascii.eqb a sep then EmptyString :: split sep s'
      else match split sep s' with
           | [] => [String a EmptyString]
           | x :: xs => String a x :: xs
           end
  end.

(** [x in l] for a list of strings. *)
Definition mem (x : string) (l : list string) : bool :=
  existsb (String.eqb x) l.

(** Truth value of a string: the empty string is falsy. *)
Definition truthy (s : string) : bool :=
  match s with EmptyString => false | _ => true end.

End PyStr.

(** ** Exceptions and results *)

(** The exceptions the program can meet.  In docker-py [NotFound] is a
    subclass of [APIError] with status 404; it has a constructor of its
    own here, and [except APIError] handles both. *)
Inductive exn : Type :=
| ContainerNotStartedException (name : string)
| APIError (status_code : Z)
| NotFound
| NullResource
| KeyError (key : string)
| IndexError
| ValueError
| OtherError (msg : string).

Inductive Res (A : Type) : Type :=
| Ok (a : A)
| Raise (e : exn).
Arguments Ok {A} a.
Arguments Raise {A} e.

Definition is_not_found (e : exn) : bool :=
  match e with NotFound => true | _ => false end.

Definition is_container_not_started (e : exn) : bool :=
  match e with ContainerNotStartedException _ => true | _ => false end.

(** ** Data model *)

(** One entry of [attrs["Mounts"]]; the key ["Name"] may be missing. *)
Record Mount : Type := {
  mount_type : string;
  mount_name : option string;
  mount_source : string;
  mount_destination : string
}.

(** What the program reads of a docker-py container object; reading an
    attribute of the object is not counted as a call on the client. *)
Record Container : Type := {
  c_id : string;
  c_name : string;
  c_labels : gmap string string;
  c_image_tags : list string;        (* container.image.tags *)
  c_env : list string;               (* attrs["Config"]["Env"] *)
  c_status : string;                 (* attrs["State"]["Status"], also .status *)
  c_exit_code : Z;                   (* attrs["State"]["ExitCode"] *)
  c_mounts : list Mount              (* attrs["Mounts"] *)
}.

(** The typed dictionaries of [containers.py]; each lives in a module of
    its own so that the keys keep their names. *)
Module ContainerInfo.
Record t : Type := {
  id : string;
  name : string;
  labels : gmap string string;
  project : option string;
  image : string;
  environment : gmap string string
}.
End ContainerInfo.

Module VolumeInfo.
Record t : Type := {
  type : string;
  name : option string;
  source : string;
  destination : string
}.
End VolumeInfo.

(** A value of the [volumes] dictionary handed to the backup container. *)
Module Binding.
Record t : Type := {
  bind : string;
  mode : string
}.
End Binding.

(** The arguments of [client.containers.run]; the keys of [volumes] are
    Python values that may be [None]. *)
Record RunRequest : Type := {
  rq_image : string;
  rq_command : string;
  rq_name : string;
  rq_environment : gmap string string;
  rq_volumes : gmap (option string) Binding.t
}.

(** [garrison/constants.py] is not part of the sources at hand: its label
    names are parameters of the development. *)
Record Constants : Type := {
  COMPOSE_PROJECT_LABEL : string;
  ENABLE_LABEL : string;
  VOLUME_EXCLUDE_LABEL : string;
  VOLUME_INCLUDE_LABEL : string;
  INCLUDE_BIND_MOUNTS_LABEL : string
}.

(** The environment variables read when [__main__] is imported. *)
Record Config : Type := {
  BACKUP_CONTAINER_IMAGE : string;
  BACKUP_CONTAINER_COMMAND : string;
  BACKUP_CONTAINER_VOLUMES : string;
  REQUIRE_ENABLE : bool;
  environ : gmap string string
}.

(** ** The world: clock, docker calls, log *)

Inductive level : Type := DEBUG | INFO | WARNING | ERROR.

Inductive call : Type :=
| CInfo
| CGet (cid : option string)
| CList
| CRun (rq : RunRequest)
| CRemove (cid : string).

Record World : Type := {
  clock : Z;
  calls : list call;
  log : list (level * string)
}.

(** The docker daemon seen through the client.  Every answer depends on
    the world at the time of the call. *)
Record Daemon : Type := {
  info_name : World -> Res string;                      (* client.info()["Name"] *)
  gethostname : string;                                 (* socket.gethostname() *)
  containers_get : World -> option string -> Res Container;
  containers_list : World -> Res (list Container);
  containers_run : World -> RunRequest -> Res string;   (* id of the new container *)
  container_remove : World -> string -> Res unit
}.

(** ** The monad of the program: state, exceptions, fuel *)

Definition M (A : Type) : Type := World -> option (Res A * World).

Definition ret {A} (a : A) : M A := fun w => Some (Ok a, w).

Definition throw {A} (e : exn) : M A := fun w => Some (Raise e, w).

Definition out_of_fuel {A} : M A := fun _ => None.

Definition bind {A B} (m : M A) (k : A -> M B) : M B :=
  fun w =>
    match m w with
    | None => None
    | Some (Raise e, w') => Some (Raise e, w')
    | Some (Ok a, w') => k a w'
    end.

Definition lift {A} (r : Res A) : M A := fun w => Some (r, w).

(** [try: m  except <handles>: h] *)
Definition catch {A} (m : M A) (handles : exn -> bool) (h : exn -> M A) : M A :=
  fun w =>
    match m w with
    | Some (Raise e, w') => if handles e then h e w' else Some (Raise e, w')
    | r => r
    end.

Declare Scope py_scope.
Delimit Scope py_scope with py.
Notation "x <- m ;; k" := (bind m (fun x => k))
  (at level 100, m at next level, right associativity) : py_scope.
Notation "m ;;; k" := (bind m (fun _ => k))
  (at level 100, right associativity) : py_scope.
Local Open Scope py_scope.

(** The world after a call on the client, a log record, a delay. *)
Definition after (w : World) (c : call) : World :=
  {| clock := clock w; calls := calls w ++ [c]; log := log w |}.

Definition logged (w : World) (l : level) (msg : string) : World :=
  {| clock := clock w; calls := calls w; log := log w ++ [(l, msg)] |}.

Definition later (w : World) (d : Z) : World :=
  {| clock := clock w + d; calls := calls w; log := log w |}.

Definition logger (l : level) (msg : string) : M unit :=
  fun w => Some (Ok tt, logged w l msg).

(** [time.time()] *)
Definition time : M Z := fun w => Some (Ok (clock w), w).

(** [time.sleep(d)]: the clock advances by [d] time units; calls on the
    client take no time. *)
Definition sleep (d : Z) : M unit :=
  fun w => Some (Ok tt, later w d).

(** A call on the client: the daemon answers in the current world, and the
    call is recorded. *)
Definition client {A} (c : call) (answer : World -> Res A) : M A :=
  fun w => Some (answer w, after w c).

(** ** [str.format] with keyword arguments only

    The command template is rendered with [str.format] and keyword arguments.  The
    scanner below reads the template one character at a time, as the
    interpreter does: doubled braces are literal braces, a single brace
    opens a replacement field [{name!c:spec}], and the first error met from
    left to right is the one raised.  A field is rendered as soon as its
    closing brace is read.  The part of its name before the first [.] or
    [[] is looked up; an empty or numeric name indexes the positional
    arguments, of which there are none.  Attribute and index access,
    conversions and format specifications (with the replacement fields
    nested in them) are left to [format_field], a parameter. *)

Module PyFormat.

Inductive value : Type :=
| VStr (s : string)
| VNone.

(** [str(v)] *)
Definition str (v : value) : string :=
  match v with VStr s => s | VNone => "None" end.

Definition snoc (s : string) (c : ascii) : string := s ++ String c EmptyString.

Inductive mode : Type :=
| Text                                          (* literal text *)
| Open                                          (* a "{" was just read *)
| Close                                         (* a "}" was just read in literal text *)
| Name (name : string) (bracket : bool)         (* in a field name; inside [..] or not *)
| Conv (name : string)                          (* a "!" was just read *)
| ConvEnd (name : string) (c : ascii)           (* the conversion character was read *)
| Spec (name : string) (conv : option ascii) (spec : string) (depth : nat).

(** The part of a field name before the first [.] or [[], and the rest. *)
Fixpoint field_name_split (s : string) : string * string :=
  match s with
  | EmptyString => (EmptyString, EmptyString)
  | String c s' =>
      if Ascii.eqb c "." || Ascii.eqb c "[" then (EmptyString, s)
      else let '(first, rest) := field_name_split s' in (String c first, rest)
  end.

Inductive integer : Type :=
| NotInteger
| TooManyDigits
| Index (n : Z).

Definition PY_SSIZE_T_MAX : Z := 2 ^ 63 - 1.

Fixpoint get_integer_from (s : string) (accumulator : Z) : integer :=
  match s with
  | EmptyString => Index accumulator
  | String c s' =>
      let n := Z.of_nat (nat_of_ascii c) in
      if (48 <=? n) && (n <=? 57) then
        let digitval := n - 48 in
        if (PY_SSIZE_T_MAX - digitval) / 10 <? accumulator then TooManyDigits
        else get_integer_from s' (accumulator * 10 + digitval)
      else NotInteger
  end.

(** The empty string is not an integer. *)
Definition get_integer (s : string) : integer :=
  match s with
  | EmptyString => NotInteger
  | _ => get_integer_from s 0
  end.

Section Format.

Variable format_field : value -> string -> option ascii -> string -> Res string.
Variable kwargs : gmap string value.

(** A complete replacement field. *)
Definition render_field (name : string) (conv : option ascii) (spec : string)
  : Res string :=
  let '(first, rest) := field_name_split name in
  match get_integer first with
  | TooManyDigits => Raise ValueError
  | Index _ => Raise IndexError
  | NotInteger =>
      match first with
      | EmptyString => Raise IndexError
      | _ =>
          match kwargs !! first with
          | None => Raise (KeyError first)
          | Some v =>
              match rest, conv, spec with
              | EmptyString, None, EmptyString => Ok (str v)
              | _, _, _ => format_field v rest conv spec
              end
          end
      end
  end.

Definition emit_field (out name : string) (conv : option ascii) (spec : string)
           (k : string -> Res string) : Res string :=
  match render_field name conv spec with
  | Ok s => k (out ++ s)
  | Raise e => Raise e
  end.

Fixpoint scan (m : mode) (out : string) (s : string) : Res string :=
  match s with
  | EmptyString =>
      match m with
      | Text => Ok out
      | _ => Raise ValueError
      end
  | String c s' =>
      match m with
      | Text =>
          if Ascii.eqb c "{" then scan Open out s'
          else if Ascii.eqb c "}" then scan Close out s'
          else scan Text (snoc out c) s'
      | Open =>
          if Ascii.eqb c "{" then scan Text (snoc out c) s'
          else if Ascii.eqb c "[" then scan (Name (snoc "" c) true) out s'
          else if Ascii.eqb c "}" then emit_field out "" None "" (fun o => scan Text o s')
          else if Ascii.eqb c ":" then scan (Spec "" None "" 1) out s'
          else if Ascii.eqb c "!" then scan (Conv "") out s'
          else scan (Name (snoc "" c) false) out s'
      | Close =>
          if Ascii.eqb c "}" then scan Text (snoc out c) s'
          else Raise ValueError
      | Name n true =>
          if Ascii.eqb c "]" then scan (Name (snoc n c) false) out s'
          else scan (Name (snoc n c) true) out s'
      | Name n false =>
          if Ascii.eqb c "{" then Raise ValueError
          else if Ascii.eqb c "[" then scan (Name (snoc n c) true) out s'
          else if Ascii.eqb c "}" then emit_field out n None "" (fun o => scan Text o s')
          else if Ascii.eqb c ":" then scan (Spec n None "" 1) out s'
          else if Ascii.eqb c "!" then scan (Conv n) out s'
          else scan (Name (snoc n c) false) out s'
      | Conv n => scan (ConvEnd n c) out s'
      | ConvEnd n cv =>
          if Ascii.eqb c "}" then emit_field out n (Some cv) "" (fun o => scan Text o s')
          else if Ascii.eqb c ":" then scan (Spec n (Some cv) "" 1) out s'
          else Raise ValueError
      | Spec n cv sp depth =>
          if Ascii.eqb c "{" then scan (Spec n cv (snoc sp c) (S depth)) out s'
          else if Ascii.eqb c "}" then
            match depth with
            | 1%nat => emit_field out n cv sp (fun o => scan Text o s')
            | _ => scan (Spec n cv (snoc sp c) (Nat.pred depth)) out s'
            end
          else scan (Spec n cv (snoc sp c) depth) out s'
      end
  end.

(** [template.format] applied to the keyword arguments *)
Definition format (template : string) : Res string :=
  scan Text "" template.

End Format.



End PyFormat.

(** ** [garrison/containers.py] *)

(** [d.get(k, default)] on a dictionary of strings *)
Definition dict_get (m : gmap string string) (k : string) (dflt : string) : string :=
  default dflt (m !! k).

(** [str(x)] of an optional string: [None] prints as ["None"]. *)
Definition str_of (o : option string) : string :=
  match o with Some s => s | None => "None" end.

(** [a or b] on an optional string: [None] and [""] are falsy. *)
Definition or_else (a : option string) (b : string) : string :=
  match a with
  | Some s => if PyStr.truthy s then s else b
  | None => b
  end.

(** The value of an include or exclude label as the volume loop sees it:
    [None] when the label is missing, the list of names when it is set, and
    the label itself, unsplit, when it is the empty string (which is
    falsy). *)
Inductive name_filter : Type :=
| Missing
| Unsplit (s : string)
| Names (l : list string).

Definition volume_label (o : option string) : name_filter :=
  match o with
  | None => Missing
  | Some s => if PyStr.truthy s then Names (PyStr.split "," s) else Unsplit s
  end.

Definition is_not_none (f : name_filter) : bool :=
  match f with Missing => false | _ => true end.

(** [x in f], on a value that is not [None]. *)
Definition py_in (x : string) (f : name_filter) : bool :=
  match f with
  | Missing => false
  | Unsplit s => PyStr.contains s x
  | Names l => PyStr.mem x l
  end.

(** [except docker.errors.APIError] and the [status_code] of the error
    caught. *)
Definition is_api_error (e : exn) : bool :=
  match e with
  | APIError _ | NotFound => true
  | _ => false
  end.

Definition status_code_of (e : exn) : Z :=
  match e with
  | APIError status_code => status_code
  | NotFound => 404
  | _ => 0
  end.

Section Containers.

Variable K : Constants.
Variable docker : Daemon.

Definition get (cid : option string) : M Container :=
  client (CGet cid) (fun w => containers_get docker w cid).

Definition get_server_name : M string :=
  client CInfo (info_name docker).

(** The comprehension building ["environment"]. *)
Fixpoint environment_of (items : list string) (acc : gmap string string)
  : Res (gmap string string) :=
  match items with
  | [] => Ok acc
  | item :: rest =>
      match PyStr.split "=" item with
      | k :: v :: _ => environment_of rest (<[k := v]> acc)
      | _ => Raise IndexError
      end
  end.

Definition container_info_of (container : Container) : Res ContainerInfo.t :=
  match c_image_tags container with
  | [] => Raise IndexError
  | tag :: _ =>
      match environment_of (c_env container) ∅ with
      | Raise e => Raise e
      | Ok env =>
          Ok {| ContainerInfo.id := c_id container;
                ContainerInfo.name := c_name container;
                ContainerInfo.labels := c_labels container;
                ContainerInfo.project := c_labels container !! COMPOSE_PROJECT_LABEL K;
                ContainerInfo.image := tag;
                ContainerInfo.environment := env |}
      end
  end.

Definition is_self (self_container : option Container) (container : Container) : bool :=
  match self_container with
  | Some s => String.eqb (c_id container) (c_id s)
  | None => false
  end.

(** The body of [for container in client.containers.list()]. *)
Fixpoint enabled_loop (require_enabled : bool) (self_container : option Container)
         (cs : list Container) (containers : list ContainerInfo.t)
  : M (list ContainerInfo.t) :=
  match cs with
  | [] => ret containers
  | container :: rest =>
      if is_self self_container container then
        enabled_loop require_enabled self_container rest containers
      else
        container_info <- lift (container_info_of container) ;;
        if PyStr.startswith (ContainerInfo.name container_info) "garrison_" then
          logger WARNING
            ("Found left over backup container with name "
               ++ ContainerInfo.name container_info) ;;;
          enabled_loop require_enabled self_container rest containers
        else if String.eqb
                  (dict_get (ContainerInfo.labels container_info) (ENABLE_LABEL K) "true")
                  "false" then
          logger INFO
            ("Skipping container '" ++ ContainerInfo.name container_info
               ++ "' as backup is disabled") ;;;
          enabled_loop require_enabled self_container rest containers
        else if require_enabled
                && negb (String.eqb
                           (dict_get (ContainerInfo.labels container_info)
                                     (ENABLE_LABEL K) "false")
                           "true") then
          logger INFO
            ("Skipping container '" ++ ContainerInfo.name container_info ++ "' "
               ++ "as containers need to be enabled explicitely backup is not enabled") ;;;
          enabled_loop require_enabled self_container rest containers
        else
          enabled_loop require_enabled self_container rest
                       (containers ++ [container_info])
  end.

Definition get_enabled_containers (require_enabled : bool) : M (list ContainerInfo.t) :=
  let self_hostname := gethostname docker in
  self_container <-
    catch (c <- get (Some self_hostname) ;; ret (Some c))
          is_not_found
          (fun _ => ret None) ;;
  cs <- client CList (containers_list docker) ;;
  enabled_loop require_enabled self_container cs [].

(** The body of [for volume in docker_container.attrs["Mounts"]]. *)
Fixpoint volumes_loop (container : ContainerInfo.t) (include_bind_mount : bool)
         (included_volumes excluded_volumes : name_filter)
         (mounts : list Mount) (volumes : list VolumeInfo.t)
  : M (list VolumeInfo.t) :=
  match mounts with
  | [] => ret volumes
  | volume :: rest =>
      let volume_name := default (mount_source volume) (mount_name volume) in
      let volume_name :=
        match ContainerInfo.project container with
        | Some p =>
            if PyStr.truthy p then PyStr.removeprefix volume_name (p ++ "_")
            else volume_name
        | None => volume_name
        end in
      if negb include_bind_mount && String.eqb (mount_type volume) "bind" then
        logger INFO
          ("Skipping volume '" ++ volume_name ++ "' on '"
             ++ ContainerInfo.name container ++ "' "
             ++ "as it is a bind mount and bind mounts are excluded") ;;;
        volumes_loop container include_bind_mount included_volumes excluded_volumes
                     rest volumes
      else if is_not_none included_volumes && negb (py_in volume_name included_volumes) then
        logger INFO
          ("Skipping volume '" ++ volume_name ++ "' on '"
             ++ ContainerInfo.name container ++ "' "
             ++ "because it's not included") ;;;
        volumes_loop container include_bind_mount included_volumes excluded_volumes
                     rest volumes
      else if is_not_none excluded_volumes && py_in volume_name excluded_volumes then
        logger INFO
          ("Skipping volume '" ++ volume_name ++ "' on '"
             ++ ContainerInfo.name container ++ "' "
             ++ "because it's excluded") ;;;
        volumes_loop container include_bind_mount included_volumes excluded_volumes
                     rest volumes
      else
        volumes_loop container include_bind_mount included_volumes excluded_volumes
                     rest
                     (volumes ++ [ {| VolumeInfo.type := mount_type volume;
                                      VolumeInfo.name := mount_name volume;
                                      VolumeInfo.source := mount_source volume;
                                      VolumeInfo.destination := mount_destination volume |} ])
  end.

Definition get_included_container_volumes
           (container : ContainerInfo.t) (include_bind_mount : bool)
  : M (list VolumeInfo.t) :=
  let included_volumes :=
    volume_label (ContainerInfo.labels container !! VOLUME_INCLUDE_LABEL K) in
  let excluded_volumes :=
    volume_label (ContainerInfo.labels container !! VOLUME_EXCLUDE_LABEL K) in
  docker_container <- get (Some (ContainerInfo.id container)) ;;
  volumes_loop container include_bind_mount included_volumes excluded_volumes
               (c_mounts docker_container) [].

(** [while client.containers.get(backup_container.id).status == "created"] *)
Fixpoint wait_started (fuel : nat) (name backup_container_id : string) (start_time : Z)
  : M unit :=
  match fuel with
  | O => out_of_fuel
  | S fuel' =>
      c <- get (Some backup_container_id) ;;
      if String.eqb (c_status c) "created" then
        now <- time ;;
        if 30 <? now - start_time then
          logger ERROR
            ("Waited for 30 seconds for backup container " ++ name ++ " ("
               ++ backup_container_id ++ ") to start, "
               ++ "but nothing happened. Will keep container for investigation purposes.") ;;;
          throw (ContainerNotStartedException name)
        else
          sleep 1 ;;;
          wait_started fuel' name backup_container_id start_time
      else ret tt
  end.

(** The result is [None] where the function returns without a value. *)
Definition run_backup_container (fuel : nat) (image command name : string)
           (environment : gmap string string)
           (volumes : gmap (option string) Binding.t)
  : M (option string) :=
  logger DEBUG
    ("Running backup container with name " ++ name ++ ", image " ++ image
       ++ " and command '" ++ command ++ "'") ;;;
  let rq := {| rq_image := image; rq_command := command; rq_name := name;
               rq_environment := environment; rq_volumes := volumes |} in
  backup_container <-
    catch (cid <- client (CRun rq) (fun w => containers_run docker w rq) ;; ret (Some cid))
          is_api_error
          (fun exc =>
             if status_code_of exc =? 409 then
               logger WARNING
                 ("Unable to start backup container " ++ name ++ ": "
                    ++ "There is already a container running with this name. "
                    ++ "Please remove the container manually when it's done.") ;;;
               ret None
             else throw exc) ;;
  match backup_container with
  | None => ret None
  | Some backup_container_id =>
      logger DEBUG ("Created backup container with ID " ++ backup_container_id) ;;;
      start_time <- time ;;
      wait_started fuel name backup_container_id start_time ;;;
      ret (Some backup_container_id)
  end.

Definition get_container_exit_status (container_id : option string) : M Z :=
  docker_container <- get container_id ;;
  if negb (String.eqb (c_status docker_container) "exited") then ret (-1)
  else ret (c_exit_code docker_container).

Definition remove_container (container_id : option string) : M unit :=
  logger DEBUG ("Removing container with ID " ++ str_of container_id) ;;;
  removed <-
    catch (c <- get container_id ;;
           client (CRemove (c_id c)) (fun w => container_remove docker w (c_id c)) ;;;
           ret true)
          is_not_found
          (fun _ =>
             logger WARNING
               ("Tried to remove container with ID " ++ str_of container_id ++ " "
                  ++ "but the container does not exist.") ;;;
             ret false) ;;
  if (removed : bool) then
    logger DEBUG ("Successfully remove container with ID " ++ str_of container_id)
  else ret tt.

End Containers.

(** ** [garrison/__main__.py] *)

Section Main.

Variable K : Constants.
Variable docker : Daemon.
Variable cfg : Config.

(** [hashlib.md5(s.encode()).hexdigest()] *)
Variable md5_hexdigest : string -> string.

(** What [str.format] does with a field once its argument is found. *)
Variable format_field : PyFormat.value -> string -> option ascii -> string -> Res string.

(** The body of [for volume_str in BACKUP_CONTAINER_VOLUMES.split(",")]. *)
Fixpoint extra_volumes_loop (entries : list string)
         (extra_volumes : gmap (option string) Binding.t)
  : Res (gmap (option string) Binding.t) :=
  match entries with
  | [] => Ok extra_volumes
  | volume_str :: rest =>
      if String.eqb volume_str "" then extra_volumes_loop rest extra_volumes
      else
        let volume_parts := PyStr.split ":" volume_str in
        let volume_parts :=
          if Nat.eqb (length volume_parts) 2 then (volume_parts ++ ["rw"])%list
          else volume_parts in
        match volume_parts !! 1%nat, volume_parts !! 2%nat, volume_parts !! 0%nat with
        | Some part1, Some part2, Some part0 =>
            extra_volumes_loop rest
              (<[Some part0 := {| Binding.bind := part1; Binding.mode := part2 |}]>
                 extra_volumes)
        | _, _, _ => Raise IndexError
        end
  end.

Definition _get_extra_volumes_for_backup_container
  : Res (gmap (option string) Binding.t) :=
  extra_volumes_loop (PyStr.split "," (BACKUP_CONTAINER_VOLUMES cfg)) ∅.

Definition value_of (o : option string) : PyFormat.value :=
  match o with Some s => PyFormat.VStr s | None => PyFormat.VNone end.

(** The keyword arguments of [BACKUP_CONTAINER_COMMAND.format]. *)
Definition command_arguments (container : ContainerInfo.t) (volume : VolumeInfo.t)
           (server_name volume_hash : string) : gmap string PyFormat.value :=
  <["server_name" := PyFormat.VStr server_name]>
    (<["project_name" := value_of (ContainerInfo.project container)]>
       (<["container_name" := PyFormat.VStr (ContainerInfo.name container)]>
          (<["volume_name" := PyFormat.VStr (or_else (VolumeInfo.name volume) volume_hash)]>
             (<["volume_path" := PyFormat.VStr (VolumeInfo.destination volume)]> ∅)))).

(** The dictionary display [{volume["name"]: {...}, **extra_volumes}]:
    the entries of [extra_volumes] are written last. *)
Definition backup_volumes (volume : VolumeInfo.t)
           (extra_volumes : gmap (option string) Binding.t)
  : gmap (option string) Binding.t :=
  extra_volumes ∪
    {[ VolumeInfo.name volume :=
         {| Binding.bind := VolumeInfo.destination volume; Binding.mode := "ro" |} ]}.

Definition _trigger_backup (fuel : nat) (container : ContainerInfo.t)
           (volume : VolumeInfo.t) (server_name : string) : M (option string) :=
  extra_volumes <- lift _get_extra_volumes_for_backup_container ;;
  let volume_hash := md5_hexdigest (VolumeInfo.source volume) in
  command <-
    lift (PyFormat.format format_field
            (command_arguments container volume server_name volume_hash)
            (BACKUP_CONTAINER_COMMAND cfg)) ;;
  run_backup_container docker fuel
    (BACKUP_CONTAINER_IMAGE cfg)
    command
    ("garrison_" ++ ContainerInfo.id container ++ "_" ++ volume_hash)
    (environ cfg)
    (backup_volumes volume extra_volumes).

(** [with contextlib.suppress(ContainerNotStartedException):
       backup_container_ids.append(_trigger_backup(container, volume, server_name))] *)
Definition launch (fuel : nat) (container : ContainerInfo.t) (volume : VolumeInfo.t)
           (server_name : string) (backup_container_ids : list (option string))
  : M (list (option string)) :=
  catch (r <- _trigger_backup fuel container volume server_name ;;
         ret (backup_container_ids ++ [r])%list)
        is_container_not_started
        (fun _ => ret backup_container_ids).

(** [for volume in volumes] *)
Fixpoint launch_volumes (fuel : nat) (container : ContainerInfo.t) (server_name : string)
         (volumes : list VolumeInfo.t) (backup_container_ids : list (option string))
  : M (list (option string)) :=
  match volumes with
  | [] => ret backup_container_ids
  | volume :: rest =>
      logger INFO
        ("Running backup on '" ++ server_name ++ "' for container '"
           ++ ContainerInfo.name container ++ "' (" ++ ContainerInfo.id container ++ ") "
           ++ "in project '" ++ str_of (ContainerInfo.project container)
           ++ "' on volume '"
           ++ or_else (VolumeInfo.name volume) (VolumeInfo.source volume) ++ "'") ;;;
      ids <- launch fuel container volume server_name backup_container_ids ;;
      launch_volumes fuel container server_name rest ids
  end.

(** [for container in containers] *)
Fixpoint launch_containers (fuel : nat) (server_name : string)
         (containers : list ContainerInfo.t) (backup_container_ids : list (option string))
  : M (list (option string)) :=
  match containers with
  | [] => ret backup_container_ids
  | container :: rest =>
      logger DEBUG
        ("Found container '" ++ ContainerInfo.name container ++ "' in project '"
           ++ str_of (ContainerInfo.project container) ++ "'") ;;;
      let include_bind_mounts :=
        String.eqb
          (dict_get (ContainerInfo.labels container) (INCLUDE_BIND_MOUNTS_LABEL K) "false")
          "true" in
      volumes <- get_included_container_volumes K docker container include_bind_mounts ;;
      ids <- launch_volumes fuel container server_name volumes backup_container_ids ;;
      launch_containers fuel server_name rest ids
  end.

(** [all(get_container_exit_status(container_id) != -1
         for container_id in backup_container_ids)], which stops at the
    first job still running. *)
Fixpoint all_completed (backup_container_ids : list (option string)) : M bool :=
  match backup_container_ids with
  | [] => ret true
  | container_id :: rest =>
      status <- get_container_exit_status docker container_id ;;
      if negb (status =? -1) then all_completed rest else ret false
  end.

(** [while not all(...)]: the test of the deadline guards a [pass]. *)
Fixpoint wait_completed (fuel : nat) (backup_container_ids : list (option string))
         (start_time : Z) : M unit :=
  match fuel with
  | O => out_of_fuel
  | S fuel' =>
      completed <- all_completed backup_container_ids ;;
      if (completed : bool) then ret tt
      else
        now <- time ;;
        (if 120 <? now - start_time then ret tt else ret tt) ;;;
        sleep 5 ;;;
        wait_completed fuel' backup_container_ids start_time
  end.

(** The second [for container_id in backup_container_ids]. *)
Fixpoint cleanup (backup_container_ids : list (option string)) : M unit :=
  match backup_container_ids with
  | [] => ret tt
  | container_id :: rest =>
      status <- get_container_exit_status docker container_id ;;
      if negb (status =? 0) then
        logger WARNING
          ("Backup container with ID " ++ str_of container_id
             ++ " did not exit with a success status. "
             ++ "Will leave container for investigation purposes.") ;;;
        cleanup rest
      else
        remove_container docker container_id ;;;
        cleanup rest
  end.

Definition main (fuel : nat) : M unit :=
  server_name <- get_server_name docker ;;
  logger INFO ("Running on server '" ++ server_name ++ "'") ;;;
  containers <- get_enabled_containers K docker (REQUIRE_ENABLE cfg) ;;
  match containers with
  | [] => logger INFO "Did not find any containers to backup"
  | _ =>
      backup_container_ids <- launch_containers fuel server_name containers [] ;;
      start_time <- time ;;
      wait_completed fuel backup_container_ids start_time ;;;
      cleanup backup_container_ids
  end.

End Main.

(** * Vocabulary of the statements *)

(** The rules of the eligibility filter, as one test on a container
    record: the conditions of the three [continue] branches that follow the
    test for the container of the tool itself. *)
Definition eligible (K : Constants) (require_enabled : bool) (info : ContainerInfo.t)
  : bool :=
  negb (PyStr.startswith (ContainerInfo.name info) "garrison_")
  && negb (String.eqb (dict_get (ContainerInfo.labels info) (ENABLE_LABEL K) "true") "false")
  && negb (require_enabled
           && negb (String.eqb
                      (dict_get (ContainerInfo.labels info) (ENABLE_LABEL K) "false")
                      "true")).

(** The containers kept by the loop of [get_enabled_containers], without
    the log. *)
Fixpoint enabled_of (K : Constants) (require_enabled : bool)
         (self_container : option Container) (cs : list Container)
         (containers : list ContainerInfo.t) : Res (list ContainerInfo.t) :=
  match cs with
  | [] => Ok containers
  | container :: rest =>
      if is_self self_container container then
        enabled_of K require_enabled self_container rest containers
      else
        match container_info_of K container with
        | Raise e => Raise e
        | Ok info =>
            enabled_of K require_enabled self_container rest
              (if eligible K require_enabled info then containers ++ [info]
               else containers)
        end
  end.

(** A listed container from which a record can be built: its image has a
    tag and every entry of its environment has an [=]. *)
Definition well_formed (c : Container) : bool :=
  match c_image_tags c with [] => false | _ => true end
  && forallb (PyStr.has_char "=") (c_env c).

(** What [client.containers.get(self_hostname)] leaves in
    [self_container] when it is answered [r]. *)
Definition self_of (r : Res Container) : option Container :=
  match r with Ok c => Some c | Raise _ => None end.

(** The record appended for a mount that is kept. *)
Definition volume_of (m : Mount) : VolumeInfo.t :=
  {| VolumeInfo.type := mount_type m;
     VolumeInfo.name := mount_name m;
     VolumeInfo.source := mount_source m;
     VolumeInfo.destination := mount_destination m |}.

(** The name under which the volume loop filters a mount: its name, or its
    source when it has none, without the prefix of the compose project. *)
Definition volume_name_of (container : ContainerInfo.t) (m : Mount) : string :=
  let volume_name := default (mount_source m) (mount_name m) in
  match ContainerInfo.project container with
  | Some p =>
      if PyStr.truthy p then PyStr.removeprefix volume_name (p ++ "_") else volume_name
  | None => volume_name
  end.

(** The mounts the volume loop keeps: none of its three [continue]
    branches is taken. *)
Definition selected (container : ContainerInfo.t) (include_bind_mount : bool)
           (included_volumes excluded_volumes : name_filter) (m : Mount) : bool :=
  negb (negb include_bind_mount && String.eqb (mount_type m) "bind")
  && negb (is_not_none included_volumes
           && negb (py_in (volume_name_of container m) included_volumes))
  && negb (is_not_none excluded_volumes
           && py_in (volume_name_of container m) excluded_volumes).

(** The name of the backup container for a pair, and the request that
    [_trigger_backup] submits once the extra volumes are parsed into
    [extra_volumes] and the template is rendered into [command]. *)
Definition job_name (md5_hexdigest : string -> string)
           (container : ContainerInfo.t) (volume : VolumeInfo.t) : string :=
  "garrison_" ++ ContainerInfo.id container ++ "_"
    ++ md5_hexdigest (VolumeInfo.source volume).

Definition backup_request (cfg : Config) (md5_hexdigest : string -> string)
           (container : ContainerInfo.t) (volume : VolumeInfo.t)
           (command : string) (extra_volumes : gmap (option string) Binding.t)
  : RunRequest :=
  {| rq_image := BACKUP_CONTAINER_IMAGE cfg;
     rq_command := command;
     rq_name := job_name md5_hexdigest container volume;
     rq_environment := environ cfg;
     rq_volumes := backup_volumes volume extra_volumes |}.

(** A call that is not a removal. *)
Definition is_removal (c : call) : bool :=
  match c with CRemove _ => true | _ => false end.

(** The exit status [get_container_exit_status] reads off a container. *)
Definition exit_status_of (c : Container) : Z :=
  if negb (String.eqb (c_status c) "exited") then -1 else c_exit_code c.

(** The parts of an entry of the extra-volume specification, once the mode
    is defaulted. *)
Definition parts_of (entry : string) : list string :=
  if Nat.eqb (length (PyStr.split ":" entry)) 2
  then (PyStr.split ":" entry ++ ["rw"])%list
  else PyStr.split ":" entry.

(** A text without braces: literal text for [str.format]. *)
Definition brace_free (s : string) : bool :=
  negb (PyStr.has_char "{" s) && negb (PyStr.has_char "}" s).

(** A result with a text put in front of it. *)
Definition prepend (p : string) (r : Res string) : Res string :=
  match r with
  | Ok s => Ok (p ++ s)
  | Raise e => Raise e
  end.

Fixpoint all_chars (f : ascii -> bool) (s : string) : bool :=
  match s with
  | EmptyString => true
  | String c s' => f c && all_chars f s'
  end.

(** A character that ends or structures a field name. *)
Definition field_punctuation (c : ascii) : bool :=
  Ascii.eqb c "{" || Ascii.eqb c "}" || Ascii.eqb c "[" || Ascii.eqb c ":"
  || Ascii.eqb c "!" || Ascii.eqb c ".".

(** A field name that is a plain keyword: not empty, not a number, without
    punctuation. *)
Definition plain_name (key : string) : bool :=
  PyStr.truthy key
  && all_chars (fun c => negb (field_punctuation c)) key
  && match PyFormat.get_integer key with PyFormat.NotInteger => true | _ => false end.

(** The answers of a daemon on which the given jobs have settled: job [x]
    is the container [job x], whatever the world, and its removal
    succeeds. *)
Definition settled (docker : Daemon) (job : option string -> Container)
           (ids : list (option string)) : Prop :=
  forall x, x ∈ ids ->
    (forall w, containers_get docker w x = Ok (job x))
    /\ (forall w, container_remove docker w (c_id (job x)) = Ok tt).

(** The calls of the cleanup on settled jobs. *)
Definition cleanup_calls (job : option string -> Container) (x : option string) : list call :=
  if exit_status_of (job x) =? 0 then [CGet x; CGet x; CRemove (c_id (job x))]
  else [CGet x].

(** The settings read from the environment when [__main__] is imported, in
    the order of the module: [os.environ[k]] raises [KeyError] for a missing
    variable, [os.getenv(k, d)] falls back to [d].  The schedule is read
    but used nowhere in the sources at hand. *)
Definition CRON_SCHEDULE (env : gmap string string) : string :=
  default "0 2 * * *" (env !! "CRON_SCHEDULE").

Definition load_config (env : gmap string string) : Res Config :=
  match env !! "BACKUP_CONTAINER_IMAGE" with
  | None => Raise (KeyError "BACKUP_CONTAINER_IMAGE")
  | Some image =>
      match env !! "BACKUP_CONTAINER_COMMAND" with
      | None => Raise (KeyError "BACKUP_CONTAINER_COMMAND")
      | Some command =>
          Ok {| BACKUP_CONTAINER_IMAGE := image;
                BACKUP_CONTAINER_COMMAND := command;
                BACKUP_CONTAINER_VOLUMES := default "" (env !! "BACKUP_CONTAINER_VOLUMES");
                REQUIRE_ENABLE :=
                  String.eqb (default "false" (env !! "REQUIRE_ENABLE")) "true";
                environ := env |}
      end
  end.

(** ** The cleanup, job by job *)

(** What the cleanup does with one tracked job. *)
Inductive outcome : Type :=
| Kept                          (* exit status other than 0: left in place *)
| Removed (cid : string)        (* looked up, removal done *)
| GoneAtRemoval (cid : string)  (* looked up, removal answered [NotFound] *)
| GoneAtLookup.                 (* the lookup answered [NotFound] *)

(** The calls made for a job, by outcome. *)
Definition outcome_calls (x : option string) (o : outcome) : list call :=
  match o with
  | Kept => [CGet x]
  | Removed cid => [CGet x; CGet x; CRemove cid]
  | GoneAtRemoval cid => [CGet x; CGet x; CRemove cid]
  | GoneAtLookup => [CGet x; CGet x]
  end.

(** The log records written for a job, by outcome. *)
Definition outcome_log (x : option string) (o : outcome) : list (level * string) :=
  match o with
  | Kept =>
      [(WARNING,
        "Backup container with ID " ++ str_of x
          ++ " did not exit with a success status. "
          ++ "Will leave container for investigation purposes.")]
  | Removed _ =>
      [(DEBUG, "Removing container with ID " ++ str_of x);
       (DEBUG, "Successfully remove container with ID " ++ str_of x)]
  | GoneAtRemoval _ =>
      [(DEBUG, "Removing container with ID " ++ str_of x);
       (WARNING,
        "Tried to remove container with ID " ++ str_of x ++ " "
          ++ "but the container does not exist.")]
  | GoneAtLookup =>
      [(DEBUG, "Removing container with ID " ++ str_of x);
       (WARNING,
        "Tried to remove container with ID " ++ str_of x ++ " "
          ++ "but the container does not exist.")]
  end.

(** The world once a job has been handled with a given outcome. *)
Definition handled (w : World) (x : option string) (o : outcome) : World :=
  {| clock := clock w;
     calls := (calls w ++ outcome_calls x o)%list;
     log := (log w ++ outcome_log x o)%list |}.

(** The answers of the daemon that lead to an outcome for the job [x],
    when its cleanup starts in the world [w]: the status query is answered
    at [w]; for a job with status 0 the lookup is made after one more call
    and one more log record, and the removal after the lookup. *)
Definition answered_as (docker : Daemon) (w : World) (x : option string) (o : outcome)
  : Prop :=
  exists c,
    containers_get docker w x = Ok c
    /\ let w2 := logged (after w (CGet x)) DEBUG
                        ("Removing container with ID " ++ str_of x) in
       match o with
       | Kept => exit_status_of c <> 0
       | Removed cid =>
           exit_status_of c = 0
           /\ exists c2, containers_get docker w2 x = Ok c2 /\ c_id c2 = cid
                         /\ container_remove docker (after w2 (CGet x)) cid = Ok tt
       | GoneAtRemoval cid =>
           exit_status_of c = 0
           /\ exists c2, containers_get docker w2 x = Ok c2 /\ c_id c2 = cid
                         /\ container_remove docker (after w2 (CGet x)) cid = Raise NotFound
       | GoneAtLookup =>
           exit_status_of c = 0 /\ containers_get docker w2 x = Raise NotFound
       end.

(** The daemon answers every status query of the tracked jobs, and every
    lookup and removal with success or [NotFound]: job by job, in the
    order of the list, each in the world its predecessors left. *)
Fixpoint cleanup_answers (docker : Daemon) (ids : list (option string))
         (outcomes : list outcome) (w : World) : Prop :=
  match ids, outcomes with
  | [], [] => True
  | x :: ids', o :: outcomes' =>
      answered_as docker w x o /\ cleanup_answers docker ids' outcomes' (handled w x o)
  | _, _ => False
  end.

(** ** A small installation, for the examples

    One compose project [shop] with a container [web] that mounts the named
    volume [shop_data] and the host directory [/etc/conf].  The label names
    are sample values; [md5] and [format_field] stand in for the library
    functions that the development takes as parameters. *)

Module Example.

Definition K : Constants :=
  {| COMPOSE_PROJECT_LABEL := "com.docker.compose.project";
     ENABLE_LABEL := "garrison.enable";
     VOLUME_EXCLUDE_LABEL := "garrison.volumes.exclude";
     VOLUME_INCLUDE_LABEL := "garrison.volumes.include";
     INCLUDE_BIND_MOUNTS_LABEL := "garrison.include-bind-mounts" |}.

Definition md5 (s : string) : string := "md5(" ++ s ++ ")".

Definition format_field (v : PyFormat.value) (rest : string) (conv : option ascii)
           (spec : string) : Res string :=
  Raise ValueError.

Definition data : Mount :=
  {| mount_type := "volume";
     mount_name := Some "shop_data";
     mount_source := "/var/lib/docker/volumes/shop_data/_data";
     mount_destination := "/data" |}.

Definition conf : Mount :=
  {| mount_type := "bind";
     mount_name := None;
     mount_source := "/etc/conf";
     mount_destination := "/conf" |}.

Definition container (cid cname : string) (lbls : list (string * string))
           (mounts : list Mount) : Container :=
  {| c_id := cid;
     c_name := cname;
     c_labels := list_to_map lbls;
     c_image_tags := ["nginx:latest"];
     c_env := ["PATH=/usr/bin"];
     c_status := "running";
     c_exit_code := 0;
     c_mounts := mounts |}.

Definition web : Container :=
  container "c1" "web"
    [("com.docker.compose.project", "shop"); ("garrison.enable", "true")]
    [data; conf].

Definition pgdata : Mount :=
  {| mount_type := "volume";
     mount_name := Some "pgdata";
     mount_source := "/var/lib/docker/volumes/pgdata/_data";
     mount_destination := "/var/lib/postgresql/data" |}.

(** A second container, outside the compose project. *)
Definition db : Container :=
  container "c2" "db" [("garrison.enable", "true")] [pgdata].

(** The same container with an include label. *)
Definition web_including_data : Container :=
  container "c1" "web"
    [("com.docker.compose.project", "shop"); ("garrison.enable", "true");
     ("garrison.volumes.include", "data")]
    [data; conf].

(** The container garrison itself runs in, labelled for backup. *)
Definition garrison : Container :=
  container "g0" "garrison" [("garrison.enable", "true")] [].

(** A backup container left over from an earlier run. *)
Definition leftover : Container :=
  container "j0" "garrison_c1_old" [("garrison.enable", "true")] [].

Definition info (c : Container) : ContainerInfo.t :=
  {| ContainerInfo.id := c_id c;
     ContainerInfo.name := c_name c;
     ContainerInfo.labels := c_labels c;
     ContainerInfo.project := c_labels c !! COMPOSE_PROJECT_LABEL K;
     ContainerInfo.image := "nginx:latest";
     ContainerInfo.environment := {[ "PATH" := "/usr/bin" ]} |}.

(** A backup job in a given state. *)
Definition job (status : string) (exit_code : Z) : Container :=
  {| c_id := "j1";
     c_name := "garrison_c1_md5(/var/lib/docker/volumes/shop_data/_data)";
     c_labels := ∅;
     c_image_tags := ["restic:latest"];
     c_env := [];
     c_status := status;
     c_exit_code := exit_code;
     c_mounts := [] |}.

(** A daemon that lists [listing], answers [run] to every submission and
    reports the job [j1] as [state] says.  As docker-py does, [get]
    refuses an identifier that is [None]. *)
Definition daemon (listing : list Container) (run : Res string)
           (state : World -> Res Container) : Daemon :=
  {| info_name := fun _ => Ok "host1";
     gethostname := "g0";
     containers_get := fun w cid =>
       match cid with
       | None => Raise NullResource
       | Some x =>
           if String.eqb x "j1" then state w
           else match List.find (fun c => String.eqb (c_id c) x) listing with
                | Some c => Ok c
                | None => Raise NotFound
                end
       end;
     containers_list := fun _ => Ok listing;
     containers_run := fun _ _ => run;
     container_remove := fun _ _ => Ok tt |}.

Definition cfg (command volumes : string) : Config :=
  {| BACKUP_CONTAINER_IMAGE := "restic:latest";
     BACKUP_CONTAINER_COMMAND := command;
     BACKUP_CONTAINER_VOLUMES := volumes;
     REQUIRE_ENABLE := true;
     environ := ∅ |}.

Definition command : string :=
  "backup {server_name}/{project_name}/{container_name}/{volume_name} {volume_path}".

Definition w0 : World := {| clock := 0; calls := []; log := [] |}.

End Example.

(** Further fixtures: containers from which no record can be built. *)
Module Broken.

(** A stopped-and-disabled container whose image lost its tag. *)
Definition untagged : Container :=
  {| c_id := "c3";
     c_name := "cache";
     c_labels := {[ "garrison.enable" := "false" ]};
     c_image_tags := [];
     c_env := ["PATH=/usr/bin"];
     c_status := "running";
     c_exit_code := 0;
     c_mounts := [] |}.

End Broken.

(** Further fixtures: the container [web] under other labels. *)
Module Labelled.

Definition cache : Mount :=
  {| mount_type := "volume";
     mount_name := Some "shop_cache";
     mount_source := "/var/lib/docker/volumes/shop_cache/_data";
     mount_destination := "/cache" |}.

(** [cache] is both included and excluded. *)
Definition web_both : Container :=
  Example.container "c1" "web"
    [("com.docker.compose.project", "shop"); ("garrison.enable", "true");
     ("garrison.volumes.include", "data,cache");
     ("garrison.volumes.exclude", "cache")]
    [Example.data; cache; Example.conf].


End Labelled.

(** A daemon that refuses removals. *)
Definition stubborn (state : World -> Res Container) : Daemon :=
  {| info_name := fun _ => Ok "host1";
     gethostname := "g0";
     containers_get := fun w cid =>
       match cid with
       | None => Raise NullResource
       | Some _ => state w
       end;
     containers_list := fun _ => Ok [];
     containers_run := fun _ _ => Ok "j1";
     container_remove := fun _ _ => Raise (APIError 409) |}.


(** Further fixtures: a daemon that is slow to start jobs at first. *)
Module Slow.

(** [web] with two named volumes. *)
Definition web : Container :=
  Example.container "c1" "web"
    [("com.docker.compose.project", "shop"); ("garrison.enable", "true")]
    [Example.data; Labelled.cache].

Definition job (x status : string) : Container :=
  {| c_id := x;
     c_name := PyStr.removeprefix x "j:";
     c_labels := ∅;
     c_image_tags := ["restic:latest"];
     c_env := [];
     c_status := status;
     c_exit_code := 0;
     c_mounts := [] |}.

(** Every submission is accepted and the job gets the identifier [j:]
    followed by its name; until the clock shows 31 no job leaves the state
    [created], afterwards every job is running. *)
Definition daemon (listing : list Container) : Daemon :=
  {| info_name := fun _ => Ok "host1";
     gethostname := "g0";
     containers_get := fun w cid =>
       match cid with
       | None => Raise NullResource
       | Some x =>
           if PyStr.startswith x "j:"
           then Ok (job x (if clock w <=? 31 then "created" else "running"))
           else match List.find (fun c => String.eqb (c_id c) x) listing with
                | Some c => Ok c
                | None => Raise NotFound
                end
       end;
     containers_list := fun _ => Ok listing;
     containers_run := fun _ rq => Ok ("j:" ++ rq_name rq);
     container_remove := fun _ _ => Ok tt |}.

End Slow.

(** Further fixtures: jobs that have ended, for the cleanup. *)
Module Jobs.

Definition job (x : string) (exit_code : Z) : Container :=
  {| c_id := x;
     c_name := "garrison_" ++ x;
     c_labels := ∅;
     c_image_tags := ["restic:latest"];
     c_env := [];
     c_status := "exited";
     c_exit_code := exit_code;
     c_mounts := [] |}.

Definition queried (x : string) (w : World) : bool :=
  existsb (fun c => match c with
                    | CGet (Some y) => String.eqb y x
                    | _ => false
                    end) (calls w).

(** The jobs [j1], [j4] and [j5] have exited with status 0, [j2] with
    status 137; [j3] has exited with status 0 and is gone once it has
    been queried.  The removal of [j4] is answered with [NotFound], that
    of [j5] with a conflict.  No other job exists. *)
Definition daemon : Daemon :=
  {| info_name := fun _ => Ok "host1";
     gethostname := "g0";
     containers_get := fun w cid =>
       match cid with
       | None => Raise NullResource
       | Some x =>
           if String.eqb x "j2" then Ok (job x 137)
           else if String.eqb x "j3" then
             if queried "j3" w then Raise NotFound else Ok (job x 0)
           else if String.eqb x "j1" || String.eqb x "j4" || String.eqb x "j5"
           then Ok (job x 0)
           else Raise NotFound
       end;
     containers_list := fun _ => Ok [];
     containers_run := fun _ _ => Ok "j1";
     container_remove := fun _ cid =>
       if String.eqb cid "j4" then Raise NotFound
       else if String.eqb cid "j5" then Raise (APIError 409)
       else Ok tt |}.

End Jobs.

(** * Properties *)

(** ** Strings *)

Lemma split_without_separator (c : ascii) (s : string) :
  PyStr.has_char c s = false -> PyStr.split c s = [s].
Proof.
  induction s as [|a s IH]; simpl; [reflexivity|].
  intros H. apply orb_false_iff in H as [Ha Hs].
  rewrite Ha, (IH Hs). reflexivity.
Qed.

(** ** The extra volumes of the backup container *)

Section ExtraVolumes.

Variable docker : Daemon.
Variable cfg : Config.
Variable md5_hexdigest : string -> string.
Variable format_field : PyFormat.value -> string -> option ascii -> string -> Res string.

(** The only way the parse fails is an index out of range. *)
Lemma extra_volumes_loop_raises entries acc e :
  extra_volumes_loop entries acc = Raise e -> e = IndexError.
Proof.
  revert acc. induction entries as [|x rest IH]; intros acc; simpl; [discriminate|].
  destruct (String.eqb x ""); [apply IH|].
  repeat match goal with
         | |- context [match ?o with Some _ => _ | None => _ end] => destruct o
         end; try apply IH; congruence.
Qed.

Lemma extra_volumes_loop_single_field entries entry acc :
  entry ∈ entries -> entry <> "" -> PyStr.has_char ":" entry = false ->
  extra_volumes_loop entries acc = Raise IndexError.
Proof.
  intros Hin Hne Hcolon. revert acc.
  induction entries as [|x rest IH]; intros acc; [by apply elem_of_nil in Hin|].
  simpl. apply elem_of_cons in Hin as [<-|Hin].
  - apply String.eqb_neq in Hne. rewrite Hne.
    rewrite (split_without_separator _ _ Hcolon). reflexivity.
  - specialize (IH Hin).
    destruct (String.eqb x ""); [apply IH|].
    repeat match goal with
           | |- context [match ?o with Some _ => _ | None => _ end] => destruct o
           end; try apply IH; reflexivity.
Qed.

(** C10.  An entry of the extra-volume specification that is not empty
    and has no [:] makes the parse raise [IndexError]; the exception
    leaves [_trigger_backup], and the launch of the current pair does not
    absorb it: nothing is submitted and the world is left as it was. *)
Theorem extra_volume_single_field_raises
        fuel container volume server_name backup_container_ids w entry :
  entry ∈ PyStr.split "," (BACKUP_CONTAINER_VOLUMES cfg) ->
  entry <> "" ->
  PyStr.has_char ":" entry = false ->
  _get_extra_volumes_for_backup_container cfg = Raise IndexError
  /\ _trigger_backup docker cfg md5_hexdigest format_field
       fuel container volume server_name w
     = Some (Raise IndexError, w)
  /\ launch docker cfg md5_hexdigest format_field
       fuel container volume server_name backup_container_ids w
     = Some (Raise IndexError, w).
Proof.
  intros Hin Hne Hcolon.
  assert (H : _get_extra_volumes_for_backup_container cfg = Raise IndexError)
    by (eapply extra_volumes_loop_single_field; eassumption).
  split; [exact H|].
  assert (Ht : _trigger_backup docker cfg md5_hexdigest format_field
                 fuel container volume server_name w = Some (Raise IndexError, w)).
  { unfold _trigger_backup, bind, lift. rewrite H. reflexivity. }
  split; [exact Ht|].
  unfold launch, catch, bind. rewrite Ht. reflexivity.
Qed.

End ExtraVolumes.

Lemma extra_volume_single_field_witness :
  "scratch" ∈ PyStr.split "," "/backup:/backup,scratch"
  /\ _get_extra_volumes_for_backup_container
       (Example.cfg Example.command "/backup:/backup,scratch") = Raise IndexError.
Proof.
  split; [vm_compute; repeat constructor|].
  apply (extra_volume_single_field_raises
           (Example.daemon [Example.web] (Ok "j1") (fun _ => Ok (Example.job "running" 0)))
           (Example.cfg Example.command "/backup:/backup,scratch")
           Example.md5 Example.format_field 40%nat
           (Example.info Example.web) (volume_of Example.data) "host1" [] Example.w0
           "scratch").
  - vm_compute; repeat constructor.
  - discriminate.
  - reflexivity.
Defined.

(** ** The eligibility filter *)

Lemma split_with_separator (c : ascii) (s : string) :
  PyStr.has_char c s = true -> exists k v rest, PyStr.split c s = k :: v :: rest.
Proof.
  induction s as [|a s IH]; simpl; [discriminate|].
  destruct (Ascii.eqb a c); simpl.
  - intros _. destruct s as [|b s]; simpl.
    + by exists "", "", [].
    + destruct (Ascii.eqb b c); [by eexists _, _, _|].
      destruct (PyStr.split c s); by eexists _, _, _.
  - intros H. destruct (IH H) as (k & v & rest & ->). by eexists _, _, _.
Qed.

(** From here on the string functions are kept folded. *)
Arguments PyStr.startswith : simpl never.
Arguments PyStr.split : simpl never.
Arguments PyStr.has_char : simpl never.
Arguments PyStr.contains : simpl never.
Arguments PyStr.removeprefix : simpl never.
Arguments String.append : simpl never.
Arguments String.eqb : simpl never.

Section Filter.

Variable K : Constants.

Lemma environment_of_well_formed items acc :
  forallb (PyStr.has_char "=") items = true ->
  exists env, environment_of items acc = Ok env.
Proof.
  revert acc. induction items as [|item rest IH]; intros acc; simpl; [by eexists|].
  intros H. apply andb_true_iff in H as [Hi Hr].
  destruct (split_with_separator _ _ Hi) as (k & v & tl & ->). by apply IH.
Qed.

Lemma container_info_of_well_formed c :
  well_formed c = true -> exists info, container_info_of K c = Ok info.
Proof.
  unfold well_formed, container_info_of. intros H.
  apply andb_true_iff in H as [Ht He].
  destruct (c_image_tags c); [discriminate|].
  destruct (environment_of_well_formed _ ∅ He) as [env ->]. by eexists.
Qed.

Lemma container_info_of_name c info :
  container_info_of K c = Ok info ->
  ContainerInfo.name info = c_name c /\ ContainerInfo.labels info = c_labels c
  /\ ContainerInfo.id info = c_id c.
Proof.
  unfold container_info_of. destruct (c_image_tags c); [discriminate|].
  destruct (environment_of _ _); [|discriminate].
  intros [= <-]. auto.
Qed.

Variable require_enabled : bool.
Variable self_container : option Container.

Lemma skip_step (cs : list Container) containers r l msg w :
  (forall w0, exists w',
      enabled_loop K require_enabled self_container cs containers w0 = Some (r, w')
      /\ clock w' = clock w0 /\ calls w' = calls w0) ->
  exists w',
    (logger l msg ;;; enabled_loop K require_enabled self_container cs containers) w
    = Some (r, w')
    /\ clock w' = clock w /\ calls w' = calls w.
Proof.
  intros H. unfold bind, logger.
  destruct (H (logged w l msg)) as (w' & -> & ? & ?). by exists w'.
Qed.

(** The loop computes [enabled_of]; it only writes to the log. *)
Lemma enabled_loop_enabled_of cs containers w :
  exists w',
    enabled_loop K require_enabled self_container cs containers w
    = Some (enabled_of K require_enabled self_container cs containers, w')
    /\ clock w' = clock w /\ calls w' = calls w.
Proof.
  revert containers w. induction cs as [|c rest IH]; intros containers w; simpl.
  - by exists w.
  - destruct (is_self self_container c); [apply IH|].
    unfold bind at 1, lift. destruct (container_info_of K c) as [info|e]; [|by exists w].
    unfold eligible.
    destruct (PyStr.startswith _ _); simpl; [by apply skip_step|].
    destruct (String.eqb (dict_get _ _ "true") "false"); simpl; [by apply skip_step|].
    destruct (require_enabled && _); simpl; [by apply skip_step|].
    apply IH.
Qed.

(** Every record the loop adds passed the three rules and comes from a
    listed container other than the tool's own. *)
Lemma enabled_of_sound cs containers l info :
  enabled_of K require_enabled self_container cs containers = Ok l ->
  info ∈ l ->
  info ∈ containers
  \/ (eligible K require_enabled info = true
      /\ exists c, c ∈ cs /\ is_self self_container c = false
                   /\ container_info_of K c = Ok info).
Proof.
  revert containers. induction cs as [|c rest IH]; intros containers; simpl.
  - intros [= <-]; auto.
  - destruct (is_self self_container c) eqn:Hself.
    { intros H Hin. destruct (IH _ H Hin) as [?|(? & c' & ? & ? & ?)]; [by left|].
      right. split; [done|]. exists c'. by rewrite elem_of_cons; auto. }
    destruct (container_info_of K c) as [i|e] eqn:Hi; [|discriminate].
    intros H Hin. destruct (IH _ H Hin) as [Hacc|(? & c' & ? & ? & ?)].
    + destruct (eligible K require_enabled i) eqn:He; [|by left].
      apply elem_of_app in Hacc as [?|Hone]; [by left|].
      apply list_elem_of_singleton in Hone as ->.
      right. split; [done|]. exists c. by rewrite elem_of_cons; auto.
    + right. split; [done|]. exists c'. by rewrite elem_of_cons; auto.
Qed.

(** When every listed container is well formed the loop returns, and
    keeps every record that passes the rules. *)
Lemma enabled_of_complete cs containers :
  (forall c, c ∈ cs -> well_formed c = true) ->
  exists l,
    enabled_of K require_enabled self_container cs containers = Ok l
    /\ (forall info, info ∈ containers -> info ∈ l)
    /\ (forall c info, c ∈ cs -> is_self self_container c = false ->
                       container_info_of K c = Ok info ->
                       eligible K require_enabled info = true -> info ∈ l).
Proof.
  revert containers. induction cs as [|c rest IH]; intros containers Hwf; simpl.
  - exists containers. split; [done|]. split; [done|].
    intros c info Hc. by apply elem_of_nil in Hc.
  - assert (Hrest : forall c', c' ∈ rest -> well_formed c' = true)
      by (intros; apply Hwf; rewrite elem_of_cons; auto).
    destruct (is_self self_container c) eqn:Hself.
    { destruct (IH containers Hrest) as (l & -> & Hacc & Hall).
      exists l. split; [done|]. split; [done|].
      intros c' info Hc' Hs Hi He. apply elem_of_cons in Hc' as [->|Hc'].
      - congruence.
      - eauto. }
    destruct (container_info_of_well_formed c) as [i Hi];
      [apply Hwf; rewrite elem_of_cons; auto|].
    rewrite Hi.
    destruct (IH (if eligible K require_enabled i then (containers ++ [i])%list else containers)
                 Hrest) as (l & -> & Hacc & Hall).
    exists l. split; [done|]. split.
    + intros info Hin. apply Hacc. destruct (eligible K require_enabled i); [|done].
      rewrite elem_of_app; auto.
    + intros c' info Hc' Hs Hi' He. apply elem_of_cons in Hc' as [->|Hc']; [|eauto].
      rewrite Hi in Hi'. injection Hi' as ->. apply Hacc. rewrite He.
      rewrite elem_of_app, list_elem_of_singleton; auto.
Qed.

End Filter.

(** [get_enabled_containers] is the loop run on the listing, with the
    container found under the host name as [self_container]. *)
Lemma get_enabled_containers_unfold K docker require_enabled w :
  get_enabled_containers K docker require_enabled w
  = let w1 := after w (CGet (Some (gethostname docker))) in
    match containers_get docker w (Some (gethostname docker)) with
    | Raise e =>
        if is_not_found e then
          match containers_list docker w1 with
          | Ok cs => enabled_loop K require_enabled None cs [] (after w1 CList)
          | Raise e' => Some (Raise e', after w1 CList)
          end
        else Some (Raise e, w1)
    | Ok s =>
        match containers_list docker w1 with
        | Ok cs => enabled_loop K require_enabled (Some s) cs [] (after w1 CList)
        | Raise e' => Some (Raise e', after w1 CList)
        end
    end.
Proof.
  unfold get_enabled_containers, bind, catch, get, client, ret. simpl.
  destruct (containers_get docker w _) as [s|e]; simpl.
  - destruct (containers_list docker _); reflexivity.
  - destruct (is_not_found e); simpl; [|reflexivity].
    destruct (containers_list docker _); reflexivity.
Qed.

(** The function always returns or raises, and what it returns was kept by
    the loop for the listing it was given. *)
Lemma get_enabled_containers_total K docker require_enabled w :
  exists r w',
    get_enabled_containers K docker require_enabled w = Some (r, w')
    /\ forall l, r = Ok l ->
         exists cs,
           containers_list docker (after w (CGet (Some (gethostname docker)))) = Ok cs
           /\ enabled_of K require_enabled
                (self_of (containers_get docker w (Some (gethostname docker)))) cs []
              = Ok l.
Proof.
  rewrite get_enabled_containers_unfold. simpl.
  destruct (containers_get docker w _) as [s|e]; simpl.
  - destruct (containers_list docker _) as [cs|e'] eqn:Hl.
    + destruct (enabled_loop_enabled_of K require_enabled (Some s) cs []
                  (after (after w (CGet (Some (gethostname docker)))) CList))
        as (w' & -> & _).
      eexists _, _. split; [reflexivity|]. intros l Hr. exists cs. by split.
    + eexists _, _. split; [reflexivity|]. discriminate.
  - destruct (is_not_found e).
    + destruct (containers_list docker _) as [cs|e'] eqn:Hl.
      * destruct (enabled_loop_enabled_of K require_enabled None cs []
                    (after (after w (CGet (Some (gethostname docker)))) CList))
          as (w' & -> & _).
        eexists _, _. split; [reflexivity|]. intros l Hr. exists cs. by split.
      * eexists _, _. split; [reflexivity|]. discriminate.
    + eexists _, _. split; [reflexivity|]. discriminate.
Qed.

(** C9.  A container whose name starts with the prefix reserved for backup
    jobs is never among the candidates: whatever its labels and whatever
    the flag, [get_enabled_containers] returns or raises, and a list it
    returns does not hold the record of that container. *)
Theorem reserved_prefix_excluded K docker require_enabled w c info :
  PyStr.startswith (c_name c) "garrison_" = true ->
  container_info_of K c = Ok info ->
  exists r w',
    get_enabled_containers K docker require_enabled w = Some (r, w')
    /\ forall l, r = Ok l -> info ∉ l.
Proof.
  intros Hname Hinfo.
  destruct (get_enabled_containers_total K docker require_enabled w)
    as (r & w' & Hrun & Hspec).
  exists r, w'. split; [exact Hrun|].
  intros l Hr Hin. destruct (Hspec l Hr) as (cs & _ & Hl).
  destruct (enabled_of_sound _ _ _ _ _ _ _ Hl Hin) as [Hnil|(He & _)].
  - by apply elem_of_nil in Hnil.
  - apply container_info_of_name in Hinfo as (Hn & _ & _).
    unfold eligible in He. rewrite Hn, Hname in He. discriminate.
Qed.

Lemma reserved_prefix_excluded_witness :
  PyStr.startswith (c_name Example.leftover) "garrison_" = true
  /\ container_info_of Example.K Example.leftover = Ok (Example.info Example.leftover)
  /\ exists r w',
      get_enabled_containers Example.K
        (Example.daemon [Example.leftover; Example.web] (Ok "j1")
           (fun _ => Ok (Example.job "running" 0)))
        false Example.w0 = Some (r, w')
      /\ forall l, r = Ok l -> Example.info Example.leftover ∉ l.
Proof.
  split; [reflexivity|]. split; [reflexivity|].
  apply (reserved_prefix_excluded Example.K
           (Example.daemon [Example.leftover; Example.web] (Ok "j1")
              (fun _ => Ok (Example.job "running" 0)))
           false Example.w0 Example.leftover (Example.info Example.leftover));
    reflexivity.
Defined.

(** C8, as stated, fails on the container garrison itself runs in: its
    label is set to the enabled value and its name does not start with the
    reserved prefix, yet it is left out. *)
Lemma own_container_enabled_yet_excluded :
  let docker := Example.daemon [Example.garrison] (Ok "j1")
                  (fun _ => Ok (Example.job "running" 0)) in
  containers_list docker (after Example.w0 (CGet (Some (gethostname docker))))
  = Ok [Example.garrison]
  /\ c_labels Example.garrison !! ENABLE_LABEL Example.K = Some "true"
  /\ PyStr.startswith (c_name Example.garrison) "garrison_" = false
  /\ container_info_of Example.K Example.garrison = Ok (Example.info Example.garrison)
  /\ exists w', get_enabled_containers Example.K docker true Example.w0 = Some (Ok [], w').
Proof.
  repeat split; try reflexivity. eexists. vm_compute. reflexivity.
Qed.

(** C8, amended.  When discovery succeeds (the lookup of the tool's own
    container finds it or finds nothing, and every listed container is
    well formed), for every listed container: with the flag set, a
    container without the eligibility label is excluded; a container whose
    label is set to the enabled value, whose name does not start with the
    reserved prefix and which is not the tool's own container is included;
    and a container whose label is set to the disabled value is excluded
    whatever the flag. *)
Theorem explicit_enable_rules K docker require_enabled w cs c info :
  (forall e, containers_get docker w (Some (gethostname docker)) = Raise e -> e = NotFound) ->
  containers_list docker (after w (CGet (Some (gethostname docker)))) = Ok cs ->
  (forall c', c' ∈ cs -> well_formed c' = true) ->
  c ∈ cs ->
  container_info_of K c = Ok info ->
  exists l w',
    get_enabled_containers K docker require_enabled w = Some (Ok l, w')
    /\ (require_enabled = true -> c_labels c !! ENABLE_LABEL K = None -> info ∉ l)
    /\ (c_labels c !! ENABLE_LABEL K = Some "true" ->
        PyStr.startswith (c_name c) "garrison_" = false ->
        is_self (self_of (containers_get docker w (Some (gethostname docker)))) c = false ->
        info ∈ l)
    /\ (c_labels c !! ENABLE_LABEL K = Some "false" -> info ∉ l).
Proof.
  intros Hget Hlist Hwf Hc Hinfo.
  set (self := self_of (containers_get docker w (Some (gethostname docker)))).
  destruct (enabled_of_complete K require_enabled self cs [] Hwf) as (l & Hl & _ & Hall).
  destruct (enabled_loop_enabled_of K require_enabled self cs []
              (after (after w (CGet (Some (gethostname docker)))) CList))
    as (w' & Hloop & _).
  exists l, w'.
  assert (Hrun : get_enabled_containers K docker require_enabled w = Some (Ok l, w')).
  { rewrite get_enabled_containers_unfold. simpl. rewrite Hlist.
    rewrite <- Hl, <- Hloop. subst self.
    destruct (containers_get docker w _) as [s|e]; [reflexivity|].
    rewrite (Hget e eq_refl). reflexivity. }
  destruct (container_info_of_name K c info Hinfo) as (Hn & Hlab & _).
  assert (Hsound : info ∈ l -> eligible K require_enabled info = true).
  { intros Hin. destruct (enabled_of_sound _ _ _ _ _ _ _ Hl Hin) as [Hnil|(He & _)];
      [by apply elem_of_nil in Hnil | exact He]. }
  split; [exact Hrun|]. split; [|split].
  - intros -> Hnone Hin. apply Hsound in Hin.
    unfold eligible, dict_get in Hin. rewrite Hlab, Hnone in Hin. simpl in Hin.
    rewrite !andb_false_r in Hin. discriminate.
  - intros Hlabel Hname Hself. apply (Hall c info Hc Hself Hinfo).
    unfold eligible, dict_get. rewrite Hlab, Hlabel, Hn, Hname. simpl.
    by destruct require_enabled.
  - intros Hlabel Hin. apply Hsound in Hin.
    unfold eligible, dict_get in Hin. rewrite Hlab, Hlabel in Hin. simpl in Hin.
    rewrite andb_false_r in Hin. discriminate.
Qed.

Lemma explicit_enable_rules_witness :
  let docker := Example.daemon [Example.garrison; Example.web] (Ok "j1")
                  (fun _ => Ok (Example.job "running" 0)) in
  exists l w',
    get_enabled_containers Example.K docker true Example.w0 = Some (Ok l, w')
    /\ (true = true -> c_labels Example.web !! ENABLE_LABEL Example.K = None ->
        Example.info Example.web ∉ l)
    /\ (c_labels Example.web !! ENABLE_LABEL Example.K = Some "true" ->
        PyStr.startswith (c_name Example.web) "garrison_" = false ->
        is_self (self_of (containers_get docker Example.w0 (Some (gethostname docker))))
                Example.web = false ->
        Example.info Example.web ∈ l)
    /\ (c_labels Example.web !! ENABLE_LABEL Example.K = Some "false" ->
        Example.info Example.web ∉ l).
Proof.
  intros docker.
  apply (explicit_enable_rules Example.K docker true Example.w0
           [Example.garrison; Example.web] Example.web (Example.info Example.web)).
  - intros e He. vm_compute in He. discriminate.
  - reflexivity.
  - intros c' Hc'. apply elem_of_cons in Hc' as [->|Hc']; [reflexivity|].
    apply list_elem_of_singleton in Hc' as ->. reflexivity.
  - repeat constructor.
  - reflexivity.
Defined.

(** ** The volume selector *)

Section Selector.

Variable container : ContainerInfo.t.
Variable include_bind_mount : bool.
Variables included_volumes excluded_volumes : name_filter.

(** The loop keeps the selected mounts, in the order of the listing, and
    only writes to the log. *)
Lemma volumes_loop_selected mounts volumes w :
  exists w',
    volumes_loop container include_bind_mount included_volumes excluded_volumes
                 mounts volumes w
    = Some (Ok (volumes ++ map volume_of
                  (List.filter
                     (selected container include_bind_mount
                               included_volumes excluded_volumes)
                     mounts))%list, w')
    /\ clock w' = clock w /\ calls w' = calls w.
Proof.
  revert volumes w. induction mounts as [|m rest IH]; intros volumes w.
  - exists w. simpl. by rewrite app_nil_r.
  - cbn [volumes_loop List.filter]. unfold selected at 1.
    fold (volume_name_of container m).
    destruct (negb include_bind_mount && String.eqb (mount_type m) "bind").
    { cbn [negb andb]. unfold bind, logger.
      match goal with
      | |- context [volumes_loop _ _ _ _ _ _ ?w0] =>
          destruct (IH volumes w0) as (w' & -> & ? & ?)
      end. by exists w'. }
    destruct (is_not_none included_volumes
              && negb (py_in (volume_name_of container m) included_volumes)).
    { cbn [negb andb]. unfold bind, logger.
      match goal with
      | |- context [volumes_loop _ _ _ _ _ _ ?w0] =>
          destruct (IH volumes w0) as (w' & -> & ? & ?)
      end. by exists w'. }
    destruct (is_not_none excluded_volumes
              && py_in (volume_name_of container m) excluded_volumes).
    { cbn [negb andb]. unfold bind, logger.
      match goal with
      | |- context [volumes_loop _ _ _ _ _ _ ?w0] =>
          destruct (IH volumes w0) as (w' & -> & ? & ?)
      end. by exists w'. }
    cbn [negb andb map].
    destruct (IH (volumes ++ [volume_of m])%list w) as (w' & Hrun & ? & ?).
    exists w'. split; [|done].
    unfold volume_of at 1 in Hrun. rewrite Hrun.
    by rewrite <- app_assoc.
Qed.

End Selector.

Lemma volume_of_inj m1 m2 : volume_of m1 = volume_of m2 -> m1 = m2.
Proof. destruct m1, m2. unfold volume_of. simpl. congruence. Qed.

Lemma elem_of_selected (f : Mount -> bool) mounts m :
  volume_of m ∈ map volume_of (List.filter f mounts) <-> m ∈ mounts /\ f m = true.
Proof.
  rewrite list_elem_of_In, in_map_iff. split.
  - intros (m' & Heq & Hin). apply volume_of_inj in Heq as ->.
    apply filter_In in Hin. by rewrite list_elem_of_In.
  - intros [Hin Hf]. exists m. split; [done|].
    apply filter_In. by rewrite <- list_elem_of_In.
Qed.

(** C4, as stated, fails: with bind mounts included, the host directory
    [/etc/conf], which has no name, is kept for a container without an
    include label and skipped for the same container with the include
    label [data]. *)
Lemma raw_mount_depends_on_include_label :
  let docker := Example.daemon [Example.web] (Ok "j1")
                  (fun _ => Ok (Example.job "running" 0)) in
  mount_name Example.conf = None
  /\ (exists w',
        get_included_container_volumes Example.K docker
          (Example.info Example.web) true Example.w0
        = Some (Ok [volume_of Example.data; volume_of Example.conf], w'))
  /\ (exists w',
        get_included_container_volumes Example.K docker
          (Example.info Example.web_including_data) true Example.w0
        = Some (Ok [volume_of Example.data], w')).
Proof.
  split; [reflexivity|]. split; eexists; vm_compute; reflexivity.
Qed.

(** C4, amended.  A mount with no name is filtered under its source path
    (without the prefix of the compose project): it is kept exactly when it
    passes the test on bind mounts, its source path is in the include list
    if the container has one, and is not in the exclude list if the
    container has one.  For a container with neither label its selection
    depends on the bind-mount flag and the type of the mount only. *)
Theorem raw_mount_selection K docker container include_bind_mount w dc m :
  containers_get docker w (Some (ContainerInfo.id container)) = Ok dc ->
  m ∈ c_mounts dc ->
  mount_name m = None ->
  let included_volumes :=
    volume_label (ContainerInfo.labels container !! VOLUME_INCLUDE_LABEL K) in
  let excluded_volumes :=
    volume_label (ContainerInfo.labels container !! VOLUME_EXCLUDE_LABEL K) in
  let path :=
    match ContainerInfo.project container with
    | Some p =>
        if PyStr.truthy p then PyStr.removeprefix (mount_source m) (p ++ "_")
        else mount_source m
    | None => mount_source m
    end in
  exists l w',
    get_included_container_volumes K docker container include_bind_mount w
    = Some (Ok l, w')
    /\ (volume_of m ∈ l <->
        (include_bind_mount = true \/ mount_type m <> "bind")
        /\ (is_not_none included_volumes = true -> py_in path included_volumes = true)
        /\ (is_not_none excluded_volumes = true -> py_in path excluded_volumes = false))
    /\ (ContainerInfo.labels container !! VOLUME_INCLUDE_LABEL K = None ->
        ContainerInfo.labels container !! VOLUME_EXCLUDE_LABEL K = None ->
        (volume_of m ∈ l <-> include_bind_mount = true \/ mount_type m <> "bind")).
Proof.
  intros Hget Hm Hname included_volumes excluded_volumes path.
  destruct (volumes_loop_selected container include_bind_mount
              included_volumes excluded_volumes (c_mounts dc) []
              (after w (CGet (Some (ContainerInfo.id container)))))
    as (w' & Hloop & _).
  eexists _, w'. split.
  { unfold get_included_container_volumes, bind, get, client. rewrite Hget.
    exact Hloop. }
  assert (Hpath : volume_name_of container m = path).
  { unfold volume_name_of, path. rewrite Hname. reflexivity. }
  assert (Hbind : negb (negb include_bind_mount && String.eqb (mount_type m) "bind") = true
                  <-> include_bind_mount = true \/ mount_type m <> "bind").
  { destruct (String.eqb_spec (mount_type m) "bind");
      destruct include_bind_mount; simpl; intuition congruence. }
  assert (Hsel : volume_of m ∈ ([] ++ map volume_of
                    (List.filter (selected container include_bind_mount
                                    included_volumes excluded_volumes) (c_mounts dc)))%list
                 <-> (include_bind_mount = true \/ mount_type m <> "bind")
                     /\ (is_not_none included_volumes = true ->
                         py_in path included_volumes = true)
                     /\ (is_not_none excluded_volumes = true ->
                         py_in path excluded_volumes = false)).
  { rewrite app_nil_l, elem_of_selected. unfold selected. rewrite Hpath.
    rewrite !andb_true_iff, Hbind.
    destruct (is_not_none included_volumes), (py_in path included_volumes),
      (is_not_none excluded_volumes), (py_in path excluded_volumes); simpl;
      intuition congruence. }
  split; [exact Hsel|].
  intros Hinc Hexc. rewrite Hsel.
  subst included_volumes excluded_volumes. rewrite Hinc, Hexc. simpl.
  intuition congruence.
Qed.

Lemma raw_mount_selection_witness :
  let docker := Example.daemon [Example.web] (Ok "j1")
                  (fun _ => Ok (Example.job "running" 0)) in
  let container := Example.info Example.web_including_data in
  exists l w',
    get_included_container_volumes Example.K docker container true Example.w0
    = Some (Ok l, w')
    /\ (volume_of Example.conf ∈ l <->
        (true = true \/ mount_type Example.conf <> "bind")
        /\ (is_not_none (Names ["data"]) = true ->
            py_in "/etc/conf" (Names ["data"]) = true)
        /\ (is_not_none Missing = true -> py_in "/etc/conf" Missing = false))
    /\ (ContainerInfo.labels container !! VOLUME_INCLUDE_LABEL Example.K = None ->
        ContainerInfo.labels container !! VOLUME_EXCLUDE_LABEL Example.K = None ->
        (volume_of Example.conf ∈ l <-> true = true \/ mount_type Example.conf <> "bind")).
Proof.
  intros docker container.
  apply (raw_mount_selection Example.K docker container true Example.w0
           Example.web Example.conf).
  - reflexivity.
  - vm_compute. repeat constructor.
  - reflexivity.
Defined.

(** ** The job launcher *)

Section StartWait.

Variable docker : Daemon.
Variables name cid : string.
Variable start_time : Z.

(** The wait for the start of a job ends within 32 polls, whatever the
    daemon answers: each round moves the clock by one unit and the round
    made more than 30 units after [start_time] is the last. *)
Lemma wait_started_total fuel w :
  (Z.to_nat (32 - (clock w - start_time)) <= fuel)%nat ->
  (1 <= fuel)%nat ->
  exists r w' n,
    wait_started docker fuel name cid start_time w = Some (r, w')
    /\ calls w' = (calls w ++ repeat (CGet (Some cid)) n)%list.
Proof.
  revert w. induction fuel as [|fuel IH]; intros w Hfuel Hpos; [lia|].
  cbn [wait_started]. unfold bind at 1, get, client.
  destruct (containers_get docker w (Some cid)) as [c|e].
  - destruct (String.eqb (c_status c) "created").
    + unfold bind at 1, time. cbn [clock after].
      destruct (30 <? clock w - start_time) eqn:Hlate.
      * eexists _, _, 1%nat. split; reflexivity.
      * apply Z.ltb_ge in Hlate. unfold bind at 1, sleep.
        destruct (IH (later (after w (CGet (Some cid))) 1)) as (r & w' & n & -> & Hc).
        { cbn [clock later after]. lia. }
        { lia. }
        exists r, w', (S n). split; [reflexivity|].
        rewrite Hc. cbn [calls later after repeat]. by rewrite <- app_assoc.
    + eexists _, _, 1%nat. split; reflexivity.
  - eexists _, _, 1%nat. split; reflexivity.
Qed.

(** A job that stays in the state [created] until 31 units after
    [start_time] makes the wait fail, at its 32nd poll. *)
Lemma wait_started_timeout fuel w :
  (forall w', clock w <= clock w' <= start_time + 31 ->
              exists c, containers_get docker w' (Some cid) = Ok c
                        /\ c_status c = "created") ->
  start_time <= clock w <= start_time + 31 ->
  (Z.to_nat (32 - (clock w - start_time)) <= fuel)%nat ->
  exists w',
    wait_started docker fuel name cid start_time w
    = Some (Raise (ContainerNotStartedException name), w')
    /\ calls w'
       = (calls w ++ repeat (CGet (Some cid))
                       (Z.to_nat (32 - (clock w - start_time))))%list
    /\ clock w' = start_time + 31.
Proof.
  revert w. induction fuel as [|fuel IH]; intros w Hcreated Hclock Hfuel; [lia|].
  cbn [wait_started]. unfold bind at 1, get, client.
  destruct (Hcreated w) as (c & -> & Hst); [lia|].
  rewrite Hst. change (String.eqb "created" "created") with true. cbv iota.
  unfold bind at 1, time. cbn [clock after].
  destruct (30 <? clock w - start_time) eqn:Hlate.
  - apply Z.ltb_lt in Hlate.
    replace (Z.to_nat (32 - (clock w - start_time))) with 1%nat by lia.
    eexists. split; [reflexivity|]. split; [reflexivity|].
    cbn [clock logged after]. lia.
  - apply Z.ltb_ge in Hlate. unfold bind at 1, sleep.
    destruct (IH (later (after w (CGet (Some cid))) 1)) as (w' & -> & Hc & Ht).
    { intros w' Hw'. apply Hcreated. cbn [clock later after] in Hw'. lia. }
    { cbn [clock later after]. lia. }
    { cbn [clock later after]. lia. }
    exists w'. split; [reflexivity|]. split; [|exact Ht].
    rewrite Hc. cbn [calls clock later after].
    replace (Z.to_nat (32 - (clock w - start_time)))
      with (S (Z.to_nat (32 - (clock w + 1 - start_time)))) by lia.
    cbn [repeat]. by rewrite <- app_assoc.
Qed.

End StartWait.

Section Launcher.

Variable docker : Daemon.
Variable cfg : Config.
Variable md5_hexdigest : string -> string.
Variable format_field : PyFormat.value -> string -> option ascii -> string -> Res string.

Variable fuel : nat.
Variable container : ContainerInfo.t.
Variable volume : VolumeInfo.t.
Variable server_name : string.

Variable extra_volumes : gmap (option string) Binding.t.
Variable command : string.

Hypothesis parsed : _get_extra_volumes_for_backup_container cfg = Ok extra_volumes.
Hypothesis rendered :
  PyFormat.format format_field
    (command_arguments container volume server_name
       (md5_hexdigest (VolumeInfo.source volume)))
    (BACKUP_CONTAINER_COMMAND cfg) = Ok command.

Let rq : RunRequest := backup_request cfg md5_hexdigest container volume command extra_volumes.

(** Once the volumes are parsed and the command is rendered, the launch is
    the submission of [rq]. *)
Lemma trigger_backup_submits w :
  _trigger_backup docker cfg md5_hexdigest format_field
                  fuel container volume server_name w
  = run_backup_container docker fuel (rq_image rq) (rq_command rq) (rq_name rq)
                         (rq_environment rq) (rq_volumes rq) w.
Proof.
  unfold _trigger_backup, bind at 1, lift. rewrite parsed.
  unfold bind at 1. rewrite rendered. reflexivity.
Qed.

(** The submission comes first, and the launcher always returns when it
    has fuel for 32 polls; it never removes a container. *)
Lemma trigger_backup_total w :
  (32 <= fuel)%nat ->
  exists r w' polls,
    _trigger_backup docker cfg md5_hexdigest format_field
                    fuel container volume server_name w = Some (r, w')
    /\ calls w' = (calls w ++ CRun rq :: polls)%list
    /\ forallb (fun c => negb (is_removal c)) polls = true.
Proof.
  intros Hfuel. rewrite trigger_backup_submits.
  unfold run_backup_container, bind at 1, logger.
  unfold bind at 1, catch, bind at 1, client. fold rq.
  change {| rq_image := rq_image rq; rq_command := rq_command rq;
            rq_name := rq_name rq; rq_environment := rq_environment rq;
            rq_volumes := rq_volumes rq |} with rq.
  destruct (containers_run docker _ rq) as [cid|e].
  - cbn [ret]. unfold bind at 1, logger, bind at 1, time, bind at 1.
    match goal with
    | |- context [wait_started docker fuel ?n ?c ?s ?w0] =>
        destruct (wait_started_total docker n c s fuel w0) as (r & w' & k & -> & Hc)
    end.
    { cbn [clock logged after]. lia. }
    { lia. }
    cbn [calls logged after] in Hc. rewrite <- app_assoc in Hc.
    assert (Hk : forallb (fun c => negb (is_removal c)) (repeat (CGet (Some cid)) k) = true)
      by (clear; induction k; [reflexivity|exact IHk]).
    destruct r as [[]|e]; eexists _, _, _; (split; [reflexivity|]); by split.
  - destruct (is_api_error e).
    + destruct (status_code_of e =? 409).
      * eexists _, _, []. split; [reflexivity|]. split; reflexivity.
      * eexists _, _, []. split; [reflexivity|]. split; reflexivity.
    + eexists _, _, []. split; [reflexivity|]. split; reflexivity.
Qed.

(** A name conflict: the submission is answered with status 409. *)
Lemma trigger_backup_conflict w :
  (forall w', calls w' = calls w -> clock w' = clock w ->
              containers_run docker w' rq = Raise (APIError 409)) ->
  exists w',
    _trigger_backup docker cfg md5_hexdigest format_field
                    fuel container volume server_name w = Some (Ok None, w')
    /\ calls w' = (calls w ++ [CRun rq])%list
    /\ clock w' = clock w.
Proof.
  intros Hrun. rewrite trigger_backup_submits.
  unfold run_backup_container, bind at 1, logger.
  unfold bind at 1, catch, bind at 1, client. fold rq.
  change {| rq_image := rq_image rq; rq_command := rq_command rq;
            rq_name := rq_name rq; rq_environment := rq_environment rq;
            rq_volumes := rq_volumes rq |} with rq.
  rewrite Hrun by reflexivity.
  eexists. split; [reflexivity|]. split; reflexivity.
Qed.

(** A job that stays in the state [created]. *)
Lemma trigger_backup_not_started w cid :
  (forall w', calls w' = calls w -> clock w' = clock w ->
              containers_run docker w' rq = Ok cid) ->
  (forall w', clock w <= clock w' <= clock w + 31 ->
              exists c, containers_get docker w' (Some cid) = Ok c
                        /\ c_status c = "created") ->
  (32 <= fuel)%nat ->
  exists w',
    _trigger_backup docker cfg md5_hexdigest format_field
                    fuel container volume server_name w
    = Some (Raise (ContainerNotStartedException (rq_name rq)), w')
    /\ calls w' = (calls w ++ CRun rq :: repeat (CGet (Some cid)) 32)%list
    /\ clock w' = clock w + 31.
Proof.
  intros Hrun Hcreated Hfuel. rewrite trigger_backup_submits.
  unfold run_backup_container, bind at 1, logger.
  unfold bind at 1, catch, bind at 1, client. fold rq.
  change {| rq_image := rq_image rq; rq_command := rq_command rq;
            rq_name := rq_name rq; rq_environment := rq_environment rq;
            rq_volumes := rq_volumes rq |} with rq.
  rewrite Hrun by reflexivity.
  cbn [ret]. unfold bind at 1, logger, bind at 1, time, bind at 1.
  match goal with
  | |- context [wait_started docker fuel ?n ?c ?s ?w0] =>
      destruct (wait_started_timeout docker n c s fuel w0) as (w' & -> & Hc & Ht)
  end.
  { intros w' Hw'. apply Hcreated. cbn [clock logged after] in Hw'. lia. }
  { cbn [clock logged after]. lia. }
  { cbn [clock logged after]. lia. }
  exists w'. split; [reflexivity|]. split.
  - rewrite Hc. cbn [clock calls logged after].
    replace (Z.to_nat (32 - (clock w - clock w))) with 32%nat by lia.
    by rewrite <- app_assoc.
  - rewrite Ht. reflexivity.
Qed.

End Launcher.

(** ** Launches that do not yield a job to track *)

(** What the orchestrator does with one pair: the log record, then the
    launch. *)
Lemma launch_volumes_cons docker cfg md5_hexdigest format_field fuel container
      server_name volume rest backup_container_ids w :
  exists w0,
    clock w0 = clock w /\ calls w0 = calls w
    /\ launch_volumes docker cfg md5_hexdigest format_field fuel container server_name
         (volume :: rest) backup_container_ids w
       = match launch docker cfg md5_hexdigest format_field fuel container volume
                      server_name backup_container_ids w0 with
         | Some (Ok ids, w1) =>
             launch_volumes docker cfg md5_hexdigest format_field fuel container
                            server_name rest ids w1
         | Some (Raise e, w1) => Some (Raise e, w1)
         | None => None
         end.
Proof.
  eexists. split; [|split]; [| |reflexivity]; reflexivity.
Qed.

(** C1.  When the submission is refused because the name is taken (status
    409), the launcher does not raise: it returns without a value.  The
    orchestrator appends that result to the tracked list and goes on with
    the next volume: the list gains the entry [None] for the pair. *)
Theorem name_conflict_result_is_tracked
        docker cfg md5_hexdigest format_field fuel container volume server_name
        extra_volumes command backup_container_ids rest w :
  _get_extra_volumes_for_backup_container cfg = Ok extra_volumes ->
  PyFormat.format format_field
    (command_arguments container volume server_name
       (md5_hexdigest (VolumeInfo.source volume)))
    (BACKUP_CONTAINER_COMMAND cfg) = Ok command ->
  let rq := backup_request cfg md5_hexdigest container volume command extra_volumes in
  (forall w', calls w' = calls w -> clock w' = clock w ->
              containers_run docker w' rq = Raise (APIError 409)) ->
  exists w1 w2,
    _trigger_backup docker cfg md5_hexdigest format_field
                    fuel container volume server_name w = Some (Ok None, w1)
    /\ launch docker cfg md5_hexdigest format_field
              fuel container volume server_name backup_container_ids w
       = Some (Ok (backup_container_ids ++ [None])%list, w1)
    /\ calls w1 = (calls w ++ [CRun rq])%list
    /\ launch_volumes docker cfg md5_hexdigest format_field fuel container server_name
         (volume :: rest) backup_container_ids w
       = launch_volumes docker cfg md5_hexdigest format_field fuel container server_name
           rest (backup_container_ids ++ [None])%list w2
    /\ calls w2 = calls w1.
Proof.
  intros Hparse Hformat rq Hrun.
  destruct (trigger_backup_conflict docker cfg md5_hexdigest format_field fuel
              container volume server_name extra_volumes command Hparse Hformat w Hrun)
    as (w1 & Ht & Hc & Hk).
  destruct (launch_volumes_cons docker cfg md5_hexdigest format_field fuel container
              server_name volume rest backup_container_ids w)
    as (w0 & Hclock0 & Hcalls0 & ->).
  destruct (trigger_backup_conflict docker cfg md5_hexdigest format_field fuel
              container volume server_name extra_volumes command Hparse Hformat w0)
    as (w2 & Ht2 & Hc2 & Hk2).
  { intros w' Hc' Hk'. apply Hrun; congruence. }
  exists w1, w2. split; [exact Ht|]. split; [|split; [exact Hc|]].
  - unfold launch, catch, bind. rewrite Ht. reflexivity.
  - split; [|congruence].
    unfold launch, catch, bind. rewrite Ht2. reflexivity.
Qed.

Lemma name_conflict_result_is_tracked_witness :
  let docker := Example.daemon [Example.web] (Raise (APIError 409))
                  (fun _ => Ok (Example.job "running" 0)) in
  let cfg := Example.cfg Example.command "" in
  let container := Example.info Example.web in
  let volume := volume_of Example.data in
  let rq := backup_request cfg Example.md5 container volume
              "backup host1/shop/web/shop_data /data" ∅ in
  exists w1 w2,
    _trigger_backup docker cfg Example.md5 Example.format_field
                    40 container volume "host1" Example.w0 = Some (Ok None, w1)
    /\ launch docker cfg Example.md5 Example.format_field
              40 container volume "host1" [] Example.w0
       = Some (Ok ([] ++ [None])%list, w1)
    /\ calls w1 = (calls Example.w0 ++ [CRun rq])%list
    /\ launch_volumes docker cfg Example.md5 Example.format_field 40 container "host1"
         [volume] [] Example.w0
       = launch_volumes docker cfg Example.md5 Example.format_field 40 container "host1"
           [] ([] ++ [None])%list w2
    /\ calls w2 = calls w1.
Proof.
  intros docker cfg container volume rq.
  apply (name_conflict_result_is_tracked docker cfg Example.md5 Example.format_field
           40 container volume "host1" ∅ "backup host1/shop/web/shop_data /data"
           [] [] Example.w0).
  - vm_compute. reflexivity.
  - vm_compute. reflexivity.
  - intros w' _ _. reflexivity.
Defined.

(** The run of C1 to its end: the entry [None] is handed to the completion
    tracker, whose first status query is refused by the client. *)
Example name_conflict_run :
  exists w',
    main Example.K
         (Example.daemon [Example.web] (Raise (APIError 409))
            (fun _ => Ok (Example.job "running" 0)))
         (Example.cfg Example.command "") Example.md5 Example.format_field 40 Example.w0
    = Some (Raise NullResource, w')
    /\ last (calls w') = Some (CGet None).
Proof.
  eexists. split; vm_compute; reflexivity.
Qed.

(** ** The volume mapping of a backup job *)

Lemma parts_of_first entry : parts_of entry !! 0%nat = PyStr.split ":" entry !! 0%nat.
Proof.
  unfold parts_of. destruct (PyStr.split ":" entry) as [|a [|b [|c l]]]; reflexivity.
Qed.

Lemma extra_volumes_loop_cons entry rest acc :
  extra_volumes_loop (entry :: rest) acc
  = if String.eqb entry "" then extra_volumes_loop rest acc
    else match parts_of entry !! 1%nat, parts_of entry !! 2%nat, parts_of entry !! 0%nat with
         | Some part1, Some part2, Some part0 =>
             extra_volumes_loop rest
               (<[Some part0 := {| Binding.bind := part1; Binding.mode := part2 |}]> acc)
         | _, _, _ => Raise IndexError
         end.
Proof. reflexivity. Qed.

(** The entries before a given one only change the accumulator. *)
Lemma extra_volumes_loop_app l1 l2 acc extra :
  extra_volumes_loop (l1 ++ l2) acc = Ok extra ->
  exists acc', extra_volumes_loop l2 acc' = Ok extra.
Proof.
  revert acc. induction l1 as [|x l1 IH]; intros acc; [by exists acc|].
  rewrite <- app_comm_cons, extra_volumes_loop_cons.
  destruct (String.eqb x ""); [apply IH|].
  destruct (parts_of x !! 1%nat); [|discriminate].
  destruct (parts_of x !! 2%nat); [|discriminate].
  destruct (parts_of x !! 0%nat); [|discriminate].
  apply IH.
Qed.

(** An entry stays as it was written unless a later entry has the same
    source. *)
Lemma extra_volumes_loop_keeps l acc extra src b :
  extra_volumes_loop l acc = Ok extra ->
  acc !! Some src = Some b ->
  (forall e, e ∈ l -> e <> "" -> PyStr.split ":" e !! 0%nat <> Some src) ->
  extra !! Some src = Some b.
Proof.
  revert acc. induction l as [|x l IH]; intros acc Hrun Hacc Hlater.
  - simpl in Hrun. by injection Hrun as <-.
  - assert (Hl : forall e, e ∈ l -> e <> "" -> PyStr.split ":" e !! 0%nat <> Some src)
      by (intros; apply Hlater; [rewrite elem_of_cons; auto|done]).
    rewrite extra_volumes_loop_cons in Hrun.
    destruct (String.eqb_spec x "") as [->|Hx]; [by eapply IH|].
    destruct (parts_of x !! 1%nat); [|discriminate].
    destruct (parts_of x !! 2%nat); [|discriminate].
    destruct (parts_of x !! 0%nat) as [part0|] eqn:H0; [|discriminate].
    eapply IH; [exact Hrun| |exact Hl].
    rewrite lookup_insert_ne; [exact Hacc|].
    intros [= ->]. rewrite parts_of_first in H0.
    eapply Hlater; [|exact Hx|exact H0]. rewrite elem_of_cons; auto.
Qed.

Lemma extra_volumes_loop_default_mode l1 entry l2 acc extra src dst :
  extra_volumes_loop (l1 ++ entry :: l2) acc = Ok extra ->
  PyStr.split ":" entry = [src; dst] ->
  (forall e, e ∈ l2 -> e <> "" -> PyStr.split ":" e !! 0%nat <> Some src) ->
  extra !! Some src = Some {| Binding.bind := dst; Binding.mode := "rw" |}.
Proof.
  intros Hrun Hsplit Hlater.
  apply extra_volumes_loop_app in Hrun as [acc' Hrun].
  rewrite extra_volumes_loop_cons in Hrun.
  assert (Hne : String.eqb entry "" = false).
  { apply String.eqb_neq. intros ->. discriminate Hsplit. }
  rewrite Hne in Hrun. unfold parts_of in Hrun. rewrite Hsplit in Hrun.
  simpl in Hrun.
  eapply extra_volumes_loop_keeps; [exact Hrun| |exact Hlater].
  apply lookup_insert_eq.
Qed.

(** C5, as stated, fails: when the operator mounts the volume [shop_data]
    at [/mnt], the request for the backup of [shop_data] has that one
    mount, read-write; nothing is mounted at [/data], nothing is mounted
    read-only, and no key is the source of the volume. *)
Lemma extra_mount_replaces_target :
  let docker := Example.daemon [Example.web] (Ok "j1")
                  (fun _ => Ok (Example.job "running" 0)) in
  let cfg := Example.cfg Example.command "shop_data:/mnt" in
  let volume := volume_of Example.data in
  exists rq w',
    _trigger_backup docker cfg Example.md5 Example.format_field 40
                    (Example.info Example.web) volume "host1" Example.w0
    = Some (Ok (Some "j1"), w')
    /\ calls w' = [CRun rq; CGet (Some "j1")]
    /\ map_to_list (rq_volumes rq)
       = [(Some "shop_data", {| Binding.bind := "/mnt"; Binding.mode := "rw" |})]
    /\ rq_volumes rq !! Some (VolumeInfo.source volume) = None
    /\ VolumeInfo.destination volume = "/data".
Proof.
  eexists _, _. split; [vm_compute; reflexivity|].
  split; [reflexivity|]. split; [vm_compute; reflexivity|].
  split; vm_compute; reflexivity.
Qed.

(** C5, amended.  The request submitted for a pair carries the mapping
    composed by [_trigger_backup], which is keyed by the name of the target
    volume, not by its source: when the volume has a name that is not the
    source of an extra mount, the mapping binds that name read-only to the
    destination of the volume.  Every extra mount is in the mapping as it
    was parsed, and an entry [source:dest] without a mode is parsed with the
    mode [rw], unless a later entry has the same source. *)
Theorem backup_volume_mapping
        docker cfg md5_hexdigest format_field fuel container volume server_name
        extra_volumes command w :
  _get_extra_volumes_for_backup_container cfg = Ok extra_volumes ->
  PyFormat.format format_field
    (command_arguments container volume server_name
       (md5_hexdigest (VolumeInfo.source volume)))
    (BACKUP_CONTAINER_COMMAND cfg) = Ok command ->
  (32 <= fuel)%nat ->
  let rq := backup_request cfg md5_hexdigest container volume command extra_volumes in
  (exists r w' polls,
      _trigger_backup docker cfg md5_hexdigest format_field
                      fuel container volume server_name w = Some (r, w')
      /\ calls w' = (calls w ++ CRun rq :: polls)%list)
  /\ (forall n, VolumeInfo.name volume = Some n ->
                extra_volumes !! Some n = None ->
                rq_volumes rq !! Some n
                = Some {| Binding.bind := VolumeInfo.destination volume;
                          Binding.mode := "ro" |})
  /\ (forall k b, extra_volumes !! k = Some b -> rq_volumes rq !! k = Some b)
  /\ (forall l1 entry l2 src dst,
         PyStr.split "," (BACKUP_CONTAINER_VOLUMES cfg) = (l1 ++ entry :: l2)%list ->
         PyStr.split ":" entry = [src; dst] ->
         (forall e, e ∈ l2 -> e <> "" -> PyStr.split ":" e !! 0%nat <> Some src) ->
         rq_volumes rq !! Some src
         = Some {| Binding.bind := dst; Binding.mode := "rw" |}).
Proof.
  intros Hparse Hformat Hfuel rq.
  assert (Hextra : forall k b, extra_volumes !! k = Some b -> rq_volumes rq !! k = Some b).
  { intros k b Hk. cbn [rq backup_request rq_volumes]. unfold backup_volumes.
    by apply lookup_union_Some_l. }
  split; [|split; [|split; [exact Hextra|]]].
  - destruct (trigger_backup_total docker cfg md5_hexdigest format_field fuel
                container volume server_name extra_volumes command Hparse Hformat w Hfuel)
      as (r & w' & polls & Hrun & Hcalls & _).
    by exists r, w', polls.
  - intros n Hname Hfree. cbn [rq backup_request rq_volumes]. unfold backup_volumes.
    rewrite lookup_union_r by exact Hfree.
    rewrite Hname. apply lookup_singleton_eq.
  - intros l1 entry l2 src dst Hsplit Hentry Hlater. apply Hextra.
    unfold _get_extra_volumes_for_backup_container in Hparse. rewrite Hsplit in Hparse.
    eapply extra_volumes_loop_default_mode; eassumption.
Qed.

Lemma backup_volume_mapping_witness :
  let docker := Example.daemon [Example.web] (Ok "j1")
                  (fun _ => Ok (Example.job "running" 0)) in
  let cfg := Example.cfg Example.command "/backup:/backup,/etc/x:/x:ro" in
  let container := Example.info Example.web in
  let volume := volume_of Example.data in
  let extra_volumes : gmap (option string) Binding.t :=
    <[Some "/etc/x" := {| Binding.bind := "/x"; Binding.mode := "ro" |}]>
      (<[Some "/backup" := {| Binding.bind := "/backup"; Binding.mode := "rw" |}]> ∅) in
  let rq := backup_request cfg Example.md5 container volume
              "backup host1/shop/web/shop_data /data" extra_volumes in
  rq_volumes rq !! Some "shop_data"
  = Some {| Binding.bind := "/data"; Binding.mode := "ro" |}
  /\ rq_volumes rq !! Some "/backup"
     = Some {| Binding.bind := "/backup"; Binding.mode := "rw" |}.
Proof.
  intros docker cfg container volume extra_volumes rq.
  destruct (backup_volume_mapping docker cfg Example.md5 Example.format_field
              40 container volume "host1" extra_volumes
              "backup host1/shop/web/shop_data /data" Example.w0)
    as (_ & Hname & _ & Hmode).
  - vm_compute. reflexivity.
  - vm_compute. reflexivity.
  - lia.
  - split.
    + apply Hname; vm_compute; reflexivity.
    + apply (Hmode [] "/backup:/backup" ["/etc/x:/x:ro"] "/backup" "/backup").
      * vm_compute. reflexivity.
      * vm_compute. reflexivity.
      * intros e He _. apply list_elem_of_singleton in He as ->.
        vm_compute. discriminate.
Defined.

(** The mapping for a mount without a name, such as the host directory
    [/etc/conf]: its key is [None]. *)
Example unnamed_volume_mapping :
  map_to_list (backup_volumes (volume_of Example.conf) ∅)
  = [(None, {| Binding.bind := "/conf"; Binding.mode := "ro" |})].
Proof. vm_compute. reflexivity. Qed.

(** ** The completion tracker *)

Lemma get_container_exit_status_eq docker cid w :
  get_container_exit_status docker cid w
  = match containers_get docker w cid with
    | Ok c => Some (Ok (exit_status_of c), after w (CGet cid))
    | Raise e => Some (Raise e, after w (CGet cid))
    end.
Proof.
  unfold get_container_exit_status, bind, get, client, exit_status_of.
  destruct (containers_get docker w cid) as [c|e]; [|reflexivity].
  by destruct (negb (String.eqb (c_status c) "exited")).
Qed.

Section Waiting.

Variable docker : Daemon.
Variable backup_container_ids : list (option string).


(** A round that finds a job still running sleeps and polls again,
    whatever the clock shows. *)
Lemma wait_completed_again fuel start_time w w' :
  all_completed docker backup_container_ids w = Some (Ok false, w') ->
  wait_completed docker (S fuel) backup_container_ids start_time w
  = wait_completed docker fuel backup_container_ids start_time (later w' 5).
Proof.
  intros H. cbn [wait_completed]. unfold bind at 1. rewrite H.
  unfold bind at 1, time. unfold bind at 1.
  by destruct (120 <? clock w' - start_time).
Qed.

Hypothesis answered :
  forall x w, x ∈ backup_container_ids -> exists c, containers_get docker w x = Ok c.

Variable running : option string.
Hypothesis tracked : running ∈ backup_container_ids.
Hypothesis never_exits :
  forall w c, containers_get docker w running = Ok c -> c_status c <> "exited".

Lemma all_completed_running ids w :
  (forall x, x ∈ ids -> x ∈ backup_container_ids) ->
  running ∈ ids ->
  exists w', all_completed docker ids w = Some (Ok false, w').
Proof.
  revert w. induction ids as [|x ids IH]; intros w Hsub Hin.
  - by apply elem_of_nil in Hin.
  - cbn [all_completed]. unfold bind. rewrite get_container_exit_status_eq.
    destruct (answered x w) as [c Hc]; [apply Hsub; rewrite elem_of_cons; auto|].
    rewrite Hc.
    destruct (exit_status_of c =? -1) eqn:Hst; [by eexists|]. cbn [negb].
    apply IH.
    + intros y Hy. apply Hsub. rewrite elem_of_cons; auto.
    + apply elem_of_cons in Hin as [->|Hin]; [|done].
      exfalso. apply Z.eqb_neq in Hst. apply Hst. unfold exit_status_of.
      apply never_exits in Hc. apply String.eqb_neq in Hc. by rewrite Hc.
Qed.

Lemma wait_completed_diverges fuel start_time w :
  wait_completed docker fuel backup_container_ids start_time w = None.
Proof.
  revert w. induction fuel as [|fuel IH]; intros w; [reflexivity|].
  destruct (all_completed_running backup_container_ids w) as [w' Hw']; [done|done|].
  rewrite (wait_completed_again _ _ _ _ Hw'). apply IH.
Qed.

End Waiting.

(** C3.  The wait for completion has no exit on the deadline: when a
    tracked job never reaches the state [exited] (and the status queries
    are answered), the loop does not end within any number of rounds,
    however late the clock is. *)
Theorem completion_wait_ignores_deadline
        docker backup_container_ids running start_time fuel w :
  (forall x w', x ∈ backup_container_ids -> exists c, containers_get docker w' x = Ok c) ->
  running ∈ backup_container_ids ->
  (forall w' c, containers_get docker w' running = Ok c -> c_status c <> "exited") ->
  wait_completed docker fuel backup_container_ids start_time w = None.
Proof.
  intros Hans Hin Hrun. by apply wait_completed_diverges with (running := running).
Qed.

Lemma completion_wait_ignores_deadline_witness :
  wait_completed
    (Example.daemon [Example.web] (Ok "j1") (fun _ => Ok (Example.job "running" 0)))
    1000 [Some "j1"] 0 {| clock := 121; calls := []; log := [] |} = None.
Proof.
  apply (completion_wait_ignores_deadline
           (Example.daemon [Example.web] (Ok "j1") (fun _ => Ok (Example.job "running" 0)))
           [Some "j1"] (Some "j1") 0 1000 {| clock := 121; calls := []; log := [] |}).
  - intros x w' Hx. apply list_elem_of_singleton in Hx as ->. by eexists.
  - repeat constructor.
  - intros w' c [= <-]. discriminate.
Defined.

(** The run of C3: a job that keeps running keeps the whole run in the
    wait, here for 200 rounds, a thousand time units. *)
Example hung_job_run :
  main Example.K
       (Example.daemon [Example.web] (Ok "j1") (fun _ => Ok (Example.job "running" 0)))
       (Example.cfg Example.command "") Example.md5 Example.format_field 200 Example.w0
  = None.
Proof. vm_compute. reflexivity. Qed.

(** ** Cleanup *)

(** A job that exits with status 137 is left in place with a warning; a
    job found gone at the time of its removal is passed over. *)
Example failed_job_is_kept :
  cleanup (Example.daemon [Example.web] (Ok "j1")
             (fun _ => Ok (Example.job "exited" 137)))
          [Some "j1"] Example.w0
  = Some (Ok tt,
          {| clock := 0;
             calls := [CGet (Some "j1")];
             log := [(WARNING,
                      "Backup container with ID j1 did not exit with a success status. Will leave container for investigation purposes.")] |}).
Proof. vm_compute. reflexivity. Qed.

Example vanished_job_is_passed_over :
  cleanup (Example.daemon [Example.web] (Ok "j1")
             (fun w => match calls w with
                       | [] => Ok (Example.job "exited" 0)
                       | _ => Raise NotFound
                       end))
          [Some "j1"] Example.w0
  = Some (Ok tt,
          {| clock := 0;
             calls := [CGet (Some "j1"); CGet (Some "j1")];
             log := [(DEBUG, "Removing container with ID j1");
                     (WARNING,
                      "Tried to remove container with ID j1 but the container does not exist.")] |}).
Proof. vm_compute. reflexivity. Qed.

(** ** The command template *)

Section Template.

Variable format_field : PyFormat.value -> string -> option ascii -> string -> Res string.
Variable kwargs : gmap string PyFormat.value.

(** What is left to [format_field] raises errors of formatting only. *)
Hypothesis format_field_error :
  forall v rest conv spec e,
    format_field v rest conv spec = Raise e -> is_container_not_started e = false.



(** The cases of the scanner, taken one test at a time. *)
Ltac scan_cases :=
  repeat match goal with
         | |- context [if Ascii.eqb ?a ?b then _ else _] => destruct (Ascii.eqb a b)
         end.




End Template.





(** * Further properties *)

(** ** Discovery *)

Lemma forallb_false_elem {A} (f : A -> bool) (l : list A) :
  forallb f l = false -> exists x, x ∈ l /\ f x = false.
Proof.
  induction l as [|a l IH]; simpl; [discriminate|].
  destruct (f a) eqn:Ha; simpl.
  - intros H. destruct (IH H) as (x & Hx & Hf). exists x. by rewrite elem_of_cons; auto.
  - intros _. exists a. by rewrite elem_of_cons; auto.
Qed.

Section Discovery.

Variable K : Constants.

Lemma environment_of_raises items acc e :
  environment_of items acc = Raise e -> e = IndexError.
Proof.
  revert acc. induction items as [|item rest IH]; intros acc; simpl; [discriminate|].
  destruct (PyStr.split "=" item) as [|k [|v tl]]; try (by intros [= <-]). apply IH.
Qed.

Lemma environment_of_missing items item acc :
  item ∈ items -> PyStr.has_char "=" item = false ->
  environment_of items acc = Raise IndexError.
Proof.
  intros Hin Hno. revert acc.
  induction items as [|x rest IH]; intros acc; [by apply elem_of_nil in Hin|].
  simpl. apply elem_of_cons in Hin as [<-|Hin].
  - by rewrite (split_without_separator _ _ Hno).
  - destruct (PyStr.split "=" x) as [|k [|v tl]]; try reflexivity. by apply IH.
Qed.

Lemma container_info_of_raises c e :
  container_info_of K c = Raise e -> e = IndexError.
Proof.
  unfold container_info_of. destruct (c_image_tags c); [by intros [= <-]|].
  destruct (environment_of (c_env c) ∅) eqn:He; [discriminate|].
  intros [= <-]. by eapply environment_of_raises.
Qed.

Lemma container_info_of_ill_formed c :
  well_formed c = false -> container_info_of K c = Raise IndexError.
Proof.
  unfold well_formed, container_info_of.
  destruct (c_image_tags c); [reflexivity|]. simpl. intros H.
  destruct (forallb_false_elem _ _ H) as (item & Hin & Hno).
  by rewrite (environment_of_missing _ item ∅ Hin Hno).
Qed.

Variable require_enabled : bool.
Variable self_container : option Container.

Lemma enabled_of_raises cs containers e :
  enabled_of K require_enabled self_container cs containers = Raise e -> e = IndexError.
Proof.
  revert containers. induction cs as [|c rest IH]; intros containers; simpl; [discriminate|].
  destruct (is_self self_container c); [apply IH|].
  destruct (container_info_of K c) as [i|e'] eqn:Hi; [apply IH|].
  intros [= <-]. by eapply container_info_of_raises.
Qed.

Lemma enabled_of_ill_formed cs containers c :
  c ∈ cs -> is_self self_container c = false -> well_formed c = false ->
  enabled_of K require_enabled self_container cs containers = Raise IndexError.
Proof.
  intros Hin Hself Hwf. revert containers.
  induction cs as [|x rest IH]; intros containers; [by apply elem_of_nil in Hin|].
  simpl. apply elem_of_cons in Hin as [<-|Hin].
  - by rewrite Hself, (container_info_of_ill_formed _ Hwf).
  - destruct (is_self self_container x); [by apply IH|].
    destruct (container_info_of K x) as [i|e] eqn:Hi; [by apply IH|].
    by rewrite (container_info_of_raises _ _ Hi).
Qed.

(** The records kept are those of a sublist of the listing, in its order. *)
Lemma enabled_of_sublist cs containers l :
  enabled_of K require_enabled self_container cs containers = Ok l ->
  exists kept l',
    l = (containers ++ l')%list
    /\ kept `sublist_of` cs
    /\ Forall2 (fun c info => container_info_of K c = Ok info) kept l'.
Proof.
  revert containers. induction cs as [|c rest IH]; intros containers; simpl.
  - intros [= <-]. exists [], []. rewrite app_nil_r. repeat split; constructor.
  - destruct (is_self self_container c).
    { intros H. destruct (IH _ H) as (kept & l' & -> & Hsub & Hall).
      exists kept, l'. repeat split; [by apply sublist_cons|done]. }
    destruct (container_info_of K c) as [i|e] eqn:Hi; [|discriminate].
    intros H. destruct (IH _ H) as (kept & l' & -> & Hsub & Hall).
    destruct (eligible K require_enabled i).
    + exists (c :: kept), (i :: l'). rewrite <- app_assoc.
      repeat split; [by apply sublist_skip|by constructor].
    + exists kept, l'. repeat split; [by apply sublist_cons|done].
Qed.

End Discovery.

(** X1.  The container garrison runs in is never a candidate: when the
    lookup under the host name finds a container, no record returned by
    [get_enabled_containers] has its identifier, whatever its name and
    labels. *)
Theorem own_container_never_returned K docker require_enabled w s l w' info :
  containers_get docker w (Some (gethostname docker)) = Ok s ->
  get_enabled_containers K docker require_enabled w = Some (Ok l, w') ->
  info ∈ l ->
  ContainerInfo.id info <> c_id s.
Proof.
  intros Hget Hrun Hin.
  destruct (get_enabled_containers_total K docker require_enabled w)
    as (r & w1 & Hrun' & Hspec).
  rewrite Hrun in Hrun'. injection Hrun' as <- <-.
  destruct (Hspec l eq_refl) as (cs & _ & Hl). rewrite Hget in Hl. cbn [self_of] in Hl.
  destruct (enabled_of_sound _ _ _ _ _ _ _ Hl Hin) as [Hnil|(_ & c & _ & Hself & Hinfo)].
  - by apply elem_of_nil in Hnil.
  - apply container_info_of_name in Hinfo as (_ & _ & ->).
    cbn [is_self] in Hself. by apply String.eqb_neq.
Qed.

Lemma own_container_never_returned_witness :
  let docker := Example.daemon [Example.garrison; Example.web] (Ok "j1")
                  (fun _ => Ok (Example.job "running" 0)) in
  ContainerInfo.id (Example.info Example.web) <> c_id Example.garrison.
Proof.
  intros docker.
  apply (own_container_never_returned Example.K docker false Example.w0 Example.garrison
           [Example.info Example.web]
           (after (after Example.w0 (CGet (Some "g0"))) CList)
           (Example.info Example.web)).
  - reflexivity.
  - vm_compute. reflexivity.
  - repeat constructor.
Defined.

(** X2.  The eligibility label is compared with the exact texts ["false"]
    and ["true"].  When discovery succeeds, a listed container that is not
    the tool's own and whose name does not start with the reserved prefix
    is returned exactly when its label is not ["false"] and, with the flag
    set, is ["true"]: with the flag off any other value, or no label, leaves
    it eligible; with the flag on any other value, or no label, excludes
    it. *)
Theorem eligibility_label_table K docker require_enabled w cs c info :
  (forall e, containers_get docker w (Some (gethostname docker)) = Raise e -> e = NotFound) ->
  containers_list docker (after w (CGet (Some (gethostname docker)))) = Ok cs ->
  (forall c', c' ∈ cs -> well_formed c' = true) ->
  c ∈ cs ->
  container_info_of K c = Ok info ->
  is_self (self_of (containers_get docker w (Some (gethostname docker)))) c = false ->
  PyStr.startswith (c_name c) "garrison_" = false ->
  exists l w',
    get_enabled_containers K docker require_enabled w = Some (Ok l, w')
    /\ (info ∈ l <->
        c_labels c !! ENABLE_LABEL K <> Some "false"
        /\ (require_enabled = true -> c_labels c !! ENABLE_LABEL K = Some "true")).
Proof.
  intros Hget Hlist Hwf Hc Hinfo Hself Hname.
  set (self := self_of (containers_get docker w (Some (gethostname docker)))) in *.
  destruct (enabled_of_complete K require_enabled self cs [] Hwf) as (l & Hl & _ & Hall).
  destruct (enabled_loop_enabled_of K require_enabled self cs []
              (after (after w (CGet (Some (gethostname docker)))) CList))
    as (w' & Hloop & _).
  exists l, w'. split.
  { rewrite get_enabled_containers_unfold. simpl. rewrite Hlist.
    rewrite <- Hl, <- Hloop. subst self.
    destruct (containers_get docker w _) as [s|e]; [reflexivity|].
    rewrite (Hget e eq_refl). reflexivity. }
  destruct (container_info_of_name K c info Hinfo) as (Hn & Hlab & _).
  assert (Hel : eligible K require_enabled info = true <->
                c_labels c !! ENABLE_LABEL K <> Some "false"
                /\ (require_enabled = true -> c_labels c !! ENABLE_LABEL K = Some "true")).
  { unfold eligible, dict_get. rewrite Hn, Hname, Hlab.
    destruct (c_labels c !! ENABLE_LABEL K) as [v|]; simpl.
    - destruct (String.eqb_spec v "false") as [Hf|Hf];
        destruct (String.eqb_spec v "true") as [Ht|Ht];
        destruct require_enabled; cbn [negb andb];
        try (subst v; discriminate); intuition congruence.
    - change (String.eqb "true" "false") with false.
      change (String.eqb "false" "true") with false.
      destruct require_enabled; cbn [negb andb]; intuition congruence. }
  rewrite <- Hel. split.
  - intros Hin. destruct (enabled_of_sound _ _ _ _ _ _ _ Hl Hin) as [Hnil|(He & _)];
      [by apply elem_of_nil in Hnil | exact He].
  - intros He. by apply (Hall c info).
Qed.

Lemma eligibility_label_table_witness :
  let docker := Example.daemon [Example.garrison; Example.web] (Ok "j1")
                  (fun _ => Ok (Example.job "running" 0)) in
  exists l w',
    get_enabled_containers Example.K docker true Example.w0 = Some (Ok l, w')
    /\ (Example.info Example.web ∈ l <->
        c_labels Example.web !! ENABLE_LABEL Example.K <> Some "false"
        /\ (true = true -> c_labels Example.web !! ENABLE_LABEL Example.K = Some "true")).
Proof.
  intros docker.
  apply (eligibility_label_table Example.K docker true Example.w0
           [Example.garrison; Example.web] Example.web (Example.info Example.web)).
  - intros e He. vm_compute in He. discriminate.
  - reflexivity.
  - intros c' Hc'. apply elem_of_cons in Hc' as [->|Hc']; [reflexivity|].
    apply list_elem_of_singleton in Hc' as ->. reflexivity.
  - repeat constructor.
  - reflexivity.
  - reflexivity.
  - reflexivity.
Defined.

(** X3.  Discovery neither reorders nor invents: the records returned are
    the records of a sublist of the listing, in the order of the
    listing. *)
Theorem candidates_follow_the_listing K docker require_enabled w l w' :
  get_enabled_containers K docker require_enabled w = Some (Ok l, w') ->
  exists cs kept,
    containers_list docker (after w (CGet (Some (gethostname docker)))) = Ok cs
    /\ kept `sublist_of` cs
    /\ Forall2 (fun c info => container_info_of K c = Ok info) kept l.
Proof.
  intros Hrun.
  destruct (get_enabled_containers_total K docker require_enabled w)
    as (r & w1 & Hrun' & Hspec).
  rewrite Hrun in Hrun'. injection Hrun' as <- <-.
  destruct (Hspec l eq_refl) as (cs & Hlist & Hl).
  destruct (enabled_of_sublist _ _ _ _ _ _ Hl) as (kept & l' & -> & Hsub & Hall).
  by exists cs, kept.
Qed.

Lemma candidates_follow_the_listing_witness :
  let docker := Example.daemon [Example.leftover; Example.web; Example.db] (Ok "j1")
                  (fun _ => Ok (Example.job "running" 0)) in
  exists cs kept,
    containers_list docker (after Example.w0 (CGet (Some (gethostname docker)))) = Ok cs
    /\ kept `sublist_of` cs
    /\ Forall2 (fun c info => container_info_of Example.K c = Ok info) kept
               [Example.info Example.web; Example.info Example.db].
Proof.
  intros docker.
  apply (candidates_follow_the_listing Example.K docker false Example.w0
           [Example.info Example.web; Example.info Example.db]
           (logged (after (after Example.w0 (CGet (Some "g0"))) CList) WARNING
                   "Found left over backup container with name garrison_c1_old")).
  vm_compute. reflexivity.
Defined.

(** X4.  A listed container, other than the tool's own, whose image has
    no tag or whose environment has an entry without [=] makes discovery
    raise [IndexError], even when its name or labels would have excluded
    it: the record is built before the rules are applied. *)
Theorem ill_formed_container_fails_discovery K docker require_enabled w cs c :
  (forall e, containers_get docker w (Some (gethostname docker)) = Raise e -> e = NotFound) ->
  containers_list docker (after w (CGet (Some (gethostname docker)))) = Ok cs ->
  c ∈ cs ->
  is_self (self_of (containers_get docker w (Some (gethostname docker)))) c = false ->
  c_image_tags c = [] \/ (exists item, item ∈ c_env c /\ PyStr.has_char "=" item = false) ->
  exists w',
    get_enabled_containers K docker require_enabled w = Some (Raise IndexError, w').
Proof.
  intros Hget Hlist Hc Hself Hbad.
  set (self := self_of (containers_get docker w (Some (gethostname docker)))) in *.
  assert (Hwf : well_formed c = false).
  { unfold well_formed. destruct Hbad as [->|(item & Hin & Hno)]; [reflexivity|].
    apply andb_false_iff. right. apply not_true_iff_false. intros Hall.
    rewrite forallb_forall in Hall. apply list_elem_of_In in Hin.
    rewrite (Hall item Hin) in Hno. discriminate. }
  destruct (enabled_loop_enabled_of K require_enabled self cs []
              (after (after w (CGet (Some (gethostname docker)))) CList))
    as (w' & Hloop & _).
  rewrite (enabled_of_ill_formed K require_enabled self cs [] c Hc Hself Hwf) in Hloop.
  exists w'. rewrite get_enabled_containers_unfold. simpl. rewrite Hlist, <- Hloop.
  subst self. destruct (containers_get docker w _) as [s|e]; [reflexivity|].
  rewrite (Hget e eq_refl). reflexivity.
Qed.

Lemma ill_formed_container_fails_discovery_witness :
  exists w',
    get_enabled_containers Example.K
      (Example.daemon [Example.web; Broken.untagged] (Ok "j1")
         (fun _ => Ok (Example.job "running" 0)))
      false Example.w0
    = Some (Raise IndexError, w').
Proof.
  apply (ill_formed_container_fails_discovery Example.K
           (Example.daemon [Example.web; Broken.untagged] (Ok "j1")
              (fun _ => Ok (Example.job "running" 0)))
           false Example.w0 [Example.web; Broken.untagged] Broken.untagged).
  - intros e He. vm_compute in He. congruence.
  - reflexivity.
  - repeat constructor.
  - reflexivity.
  - left. reflexivity.
Defined.

(** X5.  Discovery only reads: it looks up the container under the host
    name, lists the containers, and makes no other call; the clock does not
    move.  (When the lookup fails with an error other than [NotFound] the
    listing is not asked for.) *)
Theorem discovery_only_reads K docker require_enabled w :
  exists r w',
    get_enabled_containers K docker require_enabled w = Some (r, w')
    /\ clock w' = clock w
    /\ (calls w' = (calls w ++ [CGet (Some (gethostname docker)); CList])%list
        \/ (calls w' = (calls w ++ [CGet (Some (gethostname docker))])%list
            /\ exists e, r = Raise e /\ e <> NotFound)).
Proof.
  rewrite get_enabled_containers_unfold. simpl.
  assert (Hloop : forall self cs,
             exists r w',
               enabled_loop K require_enabled self cs []
                 (after (after w (CGet (Some (gethostname docker)))) CList) = Some (r, w')
               /\ clock w' = clock w
               /\ calls w' = (calls w ++ [CGet (Some (gethostname docker)); CList])%list).
  { intros self cs.
    destruct (enabled_loop_enabled_of K require_enabled self cs []
                (after (after w (CGet (Some (gethostname docker)))) CList))
      as (w' & -> & Hk & Hc).
    eexists _, w'. split; [reflexivity|]. split; [exact Hk|].
    rewrite Hc. cbn [calls after]. by rewrite <- app_assoc. }
  assert (Hlisted : exists r w',
             match containers_list docker (after w (CGet (Some (gethostname docker)))) with
             | Ok cs => enabled_loop K require_enabled
                          (self_of (containers_get docker w (Some (gethostname docker))))
                          cs [] (after (after w (CGet (Some (gethostname docker)))) CList)
             | Raise e' => Some (Raise e', after (after w (CGet (Some (gethostname docker)))) CList)
             end = Some (r, w')
             /\ clock w' = clock w
             /\ calls w' = (calls w ++ [CGet (Some (gethostname docker)); CList])%list).
  { destruct (containers_list docker _) as [cs|e']; [apply Hloop|].
    eexists _, _. split; [reflexivity|]. split; [reflexivity|].
    cbn [calls after]. by rewrite <- app_assoc. }
  destruct (containers_get docker w _) as [s|e] eqn:Hget; cbn [self_of] in Hlisted.
  - destruct Hlisted as (r & w' & -> & Hk & Hc). exists r, w'. auto.
  - destruct e; cbn [is_not_found];
      try (eexists _, _; split; [reflexivity|]; split; [reflexivity|];
           right; split; [reflexivity|]; eexists; split; [reflexivity|discriminate]).
    destruct Hlisted as (r & w' & -> & Hk & Hc). exists r, w'. auto.
Qed.

(** X6.  The name given to a backup job starts with the reserved prefix,
    so the container of a job is never a candidate of a later discovery,
    whatever labels it carries. *)
Theorem job_containers_are_never_candidates
        K docker require_enabled w md5_hexdigest container volume c info :
  c_name c = job_name md5_hexdigest container volume ->
  container_info_of K c = Ok info ->
  exists r w',
    get_enabled_containers K docker require_enabled w = Some (r, w')
    /\ forall l, r = Ok l -> info ∉ l.
Proof.
  intros Hname Hinfo.
  destruct (get_enabled_containers_total K docker require_enabled w)
    as (r & w' & Hrun & Hspec).
  exists r, w'. split; [exact Hrun|].
  intros l Hr Hin. destruct (Hspec l Hr) as (cs & _ & Hl).
  destruct (enabled_of_sound _ _ _ _ _ _ _ Hl Hin) as [Hnil|(He & _)].
  - by apply elem_of_nil in Hnil.
  - apply container_info_of_name in Hinfo as (Hn & _ & _).
    unfold eligible in He. rewrite Hn, Hname in He.
    unfold job_name in He.
    change (PyStr.startswith
              ("garrison_" ++ ContainerInfo.id container ++ "_"
                 ++ md5_hexdigest (VolumeInfo.source volume)) "garrison_")
      with true in He.
    discriminate.
Qed.

Lemma job_containers_are_never_candidates_witness :
  exists r w',
    get_enabled_containers Example.K
      (Example.daemon [Example.web; Example.job "exited" 0] (Ok "j1")
         (fun _ => Ok (Example.job "exited" 0)))
      false Example.w0 = Some (r, w')
    /\ forall l, r = Ok l ->
         {| ContainerInfo.id := "j1";
            ContainerInfo.name := c_name (Example.job "exited" 0);
            ContainerInfo.labels := ∅;
            ContainerInfo.project := None;
            ContainerInfo.image := "restic:latest";
            ContainerInfo.environment := ∅ |} ∉ l.
Proof.
  apply (job_containers_are_never_candidates Example.K
           (Example.daemon [Example.web; Example.job "exited" 0] (Ok "j1")
              (fun _ => Ok (Example.job "exited" 0)))
           false Example.w0 Example.md5 (Example.info Example.web)
           (volume_of Example.data) (Example.job "exited" 0)).
  - reflexivity.
  - reflexivity.
Defined.

(** ** Selection of volumes *)


Lemma append_cons a (p s : string) : (String a p ++ s)%string = String a (p ++ s).
Proof. reflexivity. Qed.

Lemma append_assoc (a b c : string) : ((a ++ b) ++ c)%string = (a ++ b ++ c)%string.
Proof.
  induction a as [|x a IH]; [reflexivity|].
  by rewrite !append_cons, IH.
Qed.





Lemma mem_split_empty (x : string) : PyStr.mem x (PyStr.split "," "") = true -> x = "".
Proof.
  unfold PyStr.mem. change (PyStr.split "," "") with [""]. cbn [existsb].
  rewrite orb_false_r. apply String.eqb_eq.
Qed.

Lemma selected_sublist (f : Mount -> bool) mounts :
  map volume_of (List.filter f mounts) `sublist_of` map volume_of mounts.
Proof.
  induction mounts as [|m rest IH]; simpl; [constructor|].
  destruct (f m); simpl; [by apply sublist_skip|by apply sublist_cons].
Qed.

(** The selector returns the selected mounts of the container it looks
    up, after that one call. *)
Lemma get_included_container_volumes_selected K docker container include_bind_mount w dc :
  containers_get docker w (Some (ContainerInfo.id container)) = Ok dc ->
  exists w',
    get_included_container_volumes K docker container include_bind_mount w
    = Some (Ok (map volume_of
                  (List.filter
                     (selected container include_bind_mount
                        (volume_label
                           (ContainerInfo.labels container !! VOLUME_INCLUDE_LABEL K))
                        (volume_label
                           (ContainerInfo.labels container !! VOLUME_EXCLUDE_LABEL K)))
                     (c_mounts dc))), w')
    /\ clock w' = clock w
    /\ calls w' = (calls w ++ [CGet (Some (ContainerInfo.id container))])%list.
Proof.
  intros Hget.
  destruct (volumes_loop_selected container include_bind_mount
              (volume_label (ContainerInfo.labels container !! VOLUME_INCLUDE_LABEL K))
              (volume_label (ContainerInfo.labels container !! VOLUME_EXCLUDE_LABEL K))
              (c_mounts dc) []
              (after w (CGet (Some (ContainerInfo.id container)))))
    as (w' & Hloop & Hk & Hc).
  exists w'. split; [|by split].
  unfold get_included_container_volumes, bind, get, client. rewrite Hget. exact Hloop.
Qed.

(** X7.  Without the bind-mount flag no mount of type [bind] is selected,
    whatever the labels say. *)
Theorem bind_mounts_need_the_flag K docker container w dc :
  containers_get docker w (Some (ContainerInfo.id container)) = Ok dc ->
  exists l w',
    get_included_container_volumes K docker container false w = Some (Ok l, w')
    /\ forall v, v ∈ l -> VolumeInfo.type v <> "bind".
Proof.
  intros Hget.
  destruct (get_included_container_volumes_selected K docker container false w dc Hget)
    as (w' & Hrun & _).
  eexists _, w'. split; [exact Hrun|].
  intros v Hv. apply list_elem_of_In, in_map_iff in Hv as (m & <- & Hm).
  apply filter_In in Hm as [_ Hsel]. unfold selected in Hsel.
  cbn [negb andb volume_of VolumeInfo.type] in *.
  destruct (String.eqb_spec (mount_type m) "bind"); [discriminate|done].
Qed.

Lemma bind_mounts_need_the_flag_witness :
  exists l w',
    get_included_container_volumes Example.K
      (Example.daemon [Example.web] (Ok "j1") (fun _ => Ok (Example.job "running" 0)))
      (Example.info Example.web) false Example.w0 = Some (Ok l, w')
    /\ forall v, v ∈ l -> VolumeInfo.type v <> "bind".
Proof.
  apply (bind_mounts_need_the_flag Example.K
           (Example.daemon [Example.web] (Ok "j1") (fun _ => Ok (Example.job "running" 0)))
           (Example.info Example.web) Example.w0 Example.web).
  reflexivity.
Defined.

(** X8.  The selector neither reorders nor alters: what it returns is a
    sublist of the mounts the daemon reports, each with the type, name,
    source and destination reported; it makes one call, the lookup of the
    container, and the clock does not move. *)
Theorem selection_follows_the_mounts K docker container include_bind_mount w dc :
  containers_get docker w (Some (ContainerInfo.id container)) = Ok dc ->
  exists l w',
    get_included_container_volumes K docker container include_bind_mount w
    = Some (Ok l, w')
    /\ l `sublist_of` map volume_of (c_mounts dc)
    /\ calls w' = (calls w ++ [CGet (Some (ContainerInfo.id container))])%list
    /\ clock w' = clock w.
Proof.
  intros Hget.
  destruct (get_included_container_volumes_selected K docker container
              include_bind_mount w dc Hget) as (w' & Hrun & Hk & Hc).
  eexists _, w'. split; [exact Hrun|]. split; [apply selected_sublist|by split].
Qed.

Lemma selection_follows_the_mounts_witness :
  exists l w',
    get_included_container_volumes Example.K
      (Example.daemon [Example.web] (Ok "j1") (fun _ => Ok (Example.job "running" 0)))
      (Example.info Example.web_including_data) true Example.w0 = Some (Ok l, w')
    /\ l `sublist_of` map volume_of (c_mounts Example.web)
    /\ calls w' = (calls Example.w0 ++ [CGet (Some "c1")])%list
    /\ clock w' = clock Example.w0.
Proof.
  apply (selection_follows_the_mounts Example.K
           (Example.daemon [Example.web] (Ok "j1") (fun _ => Ok (Example.job "running" 0)))
           (Example.info Example.web_including_data) true Example.w0 Example.web).
  reflexivity.
Defined.

(** X9.  Exclusion wins: a mount whose name (without the project prefix)
    is listed in the exclude label is not selected, also when the include
    label lists it and bind mounts are included. *)
Theorem excluded_volume_is_skipped K docker container include_bind_mount w dc m excluded :
  containers_get docker w (Some (ContainerInfo.id container)) = Ok dc ->
  ContainerInfo.labels container !! VOLUME_EXCLUDE_LABEL K = Some excluded ->
  PyStr.mem (volume_name_of container m) (PyStr.split "," excluded) = true ->
  exists l w',
    get_included_container_volumes K docker container include_bind_mount w
    = Some (Ok l, w')
    /\ volume_of m ∉ l.
Proof.
  intros Hget Hlabel Hmem.
  destruct (get_included_container_volumes_selected K docker container
              include_bind_mount w dc Hget) as (w' & Hrun & _).
  eexists _, w'. split; [exact Hrun|].
  rewrite elem_of_selected. intros [_ Hsel]. unfold selected in Hsel.
  rewrite Hlabel in Hsel. unfold volume_label in Hsel.
  destruct (PyStr.truthy excluded) eqn:Ht.
  - cbn [is_not_none py_in] in Hsel. rewrite Hmem in Hsel.
    cbn [negb andb] in Hsel. by rewrite !andb_false_r in Hsel.
  - destruct excluded; [|discriminate]. apply mem_split_empty in Hmem.
    rewrite Hmem in Hsel. cbn [is_not_none py_in] in Hsel.
    change (PyStr.contains "" "") with true in Hsel.
    cbn [negb andb] in Hsel. by rewrite !andb_false_r in Hsel.
Qed.

Lemma excluded_volume_is_skipped_witness :
  exists l w',
    get_included_container_volumes Example.K
      (Example.daemon [Labelled.web_both] (Ok "j1") (fun _ => Ok (Example.job "running" 0)))
      (Example.info Labelled.web_both) true Example.w0 = Some (Ok l, w')
    /\ volume_of Labelled.cache ∉ l.
Proof.
  apply (excluded_volume_is_skipped Example.K
           (Example.daemon [Labelled.web_both] (Ok "j1")
              (fun _ => Ok (Example.job "running" 0)))
           (Example.info Labelled.web_both) true Example.w0 Labelled.web_both
           Labelled.cache "cache").
  - reflexivity.
  - vm_compute. reflexivity.
  - vm_compute. reflexivity.
Defined.





(** ** The launcher, case by case *)

Section RunCases.

Variable docker : Daemon.
Variable fuel : nat.
Variables image command name : string.
Variable environment : gmap string string.
Variable volumes : gmap (option string) Binding.t.

Let rq : RunRequest :=
  {| rq_image := image; rq_command := command; rq_name := name;
     rq_environment := environment; rq_volumes := volumes |}.

(** The submission is made in a world [w1] that differs from [w] by a log
    record; what follows depends on the answer. *)
Lemma run_backup_container_cases w :
  exists w1,
    calls w1 = calls w /\ clock w1 = clock w
    /\ match containers_run docker w1 rq with
       | Ok cid =>
           exists w2,
             calls w2 = (calls w ++ [CRun rq])%list /\ clock w2 = clock w
             /\ run_backup_container docker fuel image command name environment volumes w
                = match wait_started docker fuel name cid (clock w) w2 with
                  | Some (Ok _, w') => Some (Ok (Some cid), w')
                  | Some (Raise e, w') => Some (Raise e, w')
                  | None => None
                  end
       | Raise e =>
           exists w2,
             calls w2 = (calls w ++ [CRun rq])%list /\ clock w2 = clock w
             /\ run_backup_container docker fuel image command name environment volumes w
                = if is_api_error e && (status_code_of e =? 409)
                  then Some (Ok None, w2) else Some (Raise e, w2)
       end.
Proof.
  exists (logged w DEBUG
            ("Running backup container with name " ++ name ++ ", image " ++ image
               ++ " and command '" ++ command ++ "'")).
  split; [reflexivity|]. split; [reflexivity|].
  unfold run_backup_container, bind, catch, client, logger, ret, throw, time.
  fold rq. cbv beta.
  destruct (containers_run docker _ rq) as [cid|e].
  - cbn [clock logged after].
    match goal with
    | |- context [wait_started _ _ _ _ _ ?w2] => exists w2
    end.
    split; [reflexivity|]. split; [reflexivity|].
    destruct (wait_started docker fuel name cid (clock w) _) as [[[[]|e] w']|];
      reflexivity.
  - destruct (is_api_error e); cbn [andb].
    + destruct (status_code_of e =? 409).
      * eexists. split; [|split]; [| |reflexivity]; reflexivity.
      * eexists. split; [|split]; [| |reflexivity]; reflexivity.
    + eexists. split; [|split]; [| |reflexivity]; reflexivity.
Qed.

End RunCases.

Section StartWaitBounds.

Variable docker : Daemon.
Variables name cid : string.
Variable start_time : Z.

(** The number of polls and the time spent in the wait for the start. *)
Lemma wait_started_bounded fuel w :
  start_time <= clock w <= start_time + 31 ->
  (Z.to_nat (32 - (clock w - start_time)) <= fuel)%nat ->
  exists r w' n,
    wait_started docker fuel name cid start_time w = Some (r, w')
    /\ calls w' = (calls w ++ repeat (CGet (Some cid)) (S n))%list
    /\ clock w' = clock w + Z.of_nat n
    /\ clock w' <= start_time + 31.
Proof.
  revert w. induction fuel as [|fuel IH]; intros w Hclock Hfuel; [lia|].
  cbn [wait_started]. unfold bind at 1, get, client.
  destruct (containers_get docker w (Some cid)) as [c|e].
  - destruct (String.eqb (c_status c) "created").
    + unfold bind at 1, time. cbn [clock after].
      destruct (30 <? clock w - start_time) eqn:Hlate.
      * eexists _, _, 0%nat. split; [reflexivity|]. split; [reflexivity|].
        cbn [clock logged after]. lia.
      * apply Z.ltb_ge in Hlate. unfold bind at 1, sleep.
        destruct (IH (later (after w (CGet (Some cid))) 1))
          as (r & w' & n & -> & Hc & Hk & Hb).
        { cbn [clock later after]. lia. }
        { cbn [clock later after]. lia. }
        exists r, w', (S n). split; [reflexivity|].
        split; [|split; [|exact Hb]].
        -- rewrite Hc. cbn [calls later after]. rewrite <- app_assoc. reflexivity.
        -- rewrite Hk. cbn [clock later after]. lia.
    + eexists _, _, 0%nat. split; [reflexivity|]. split; [reflexivity|].
      cbn [clock after]. lia.
  - eexists _, _, 0%nat. split; [reflexivity|]. split; [reflexivity|].
    cbn [clock after]. lia.
Qed.

(** A job that leaves the state [created] [k] units after the start of
    the wait is seen to have started at the poll made then. *)
Lemma wait_started_starts (k : nat) fuel w :
  (forall w', clock w <= clock w' < clock w + Z.of_nat k ->
              exists c, containers_get docker w' (Some cid) = Ok c
                        /\ c_status c = "created") ->
  (forall w', clock w' = clock w + Z.of_nat k ->
              exists c, containers_get docker w' (Some cid) = Ok c
                        /\ c_status c <> "created") ->
  clock w + Z.of_nat k <= start_time + 31 ->
  (k < fuel)%nat ->
  exists w',
    wait_started docker fuel name cid start_time w = Some (Ok tt, w')
    /\ calls w' = (calls w ++ repeat (CGet (Some cid)) (S k))%list
    /\ clock w' = clock w + Z.of_nat k.
Proof.
  revert fuel w. induction k as [|k IH]; intros fuel w Hcreated Hstarted Hdeadline Hfuel;
    (destruct fuel as [|fuel]; [lia|]); cbn [wait_started]; unfold bind at 1, get, client.
  - destruct (Hstarted w) as (c & -> & Hst); [lia|].
    apply String.eqb_neq in Hst. rewrite Hst.
    eexists. split; [reflexivity|]. split; [reflexivity|]. cbn [clock after]. lia.
  - destruct (Hcreated w) as (c & -> & Hst); [lia|].
    rewrite Hst. change (String.eqb "created" "created") with true. cbv iota.
    unfold bind at 1, time. cbn [clock after].
    replace (30 <? clock w - start_time) with false by (symmetry; apply Z.ltb_ge; lia).
    unfold bind at 1, sleep.
    destruct (IH fuel (later (after w (CGet (Some cid))) 1)) as (w' & -> & Hc & Hk).
    { intros w' Hw'. apply Hcreated. cbn [clock later after] in Hw'. lia. }
    { intros w' Hw'. apply Hstarted. cbn [clock later after] in Hw'. lia. }
    { cbn [clock later after]. lia. }
    { lia. }
    exists w'. split; [reflexivity|]. split.
    + rewrite Hc. cbn [calls later after]. rewrite <- app_assoc. reflexivity.
    + rewrite Hk. cbn [clock later after]. lia.
Qed.

End StartWaitBounds.

(** X12.  [run_backup_container] always comes back within the start
    deadline: with fuel for 32 polls it returns or raises, having made one
    submission followed by at most 32 status polls of the container
    submitted, and nothing else; the clock has moved by at most 31
    units. *)
Theorem launcher_is_bounded docker fuel image command name environment volumes w :
  (32 <= fuel)%nat ->
  let rq := {| rq_image := image; rq_command := command; rq_name := name;
               rq_environment := environment; rq_volumes := volumes |} in
  exists r w' cid n,
    run_backup_container docker fuel image command name environment volumes w
    = Some (r, w')
    /\ calls w' = (calls w ++ CRun rq :: repeat (CGet (Some cid)) n)%list
    /\ (n <= 32)%nat
    /\ clock w <= clock w' <= clock w + 31.
Proof.
  intros Hfuel rq.
  destruct (run_backup_container_cases docker fuel image command name environment volumes w)
    as (w1 & Hc1 & Hk1 & Hcase).
  fold rq in Hcase. destruct (containers_run docker w1 rq) as [cid|e].
  - destruct Hcase as (w2 & Hc2 & Hk2 & ->).
    destruct (wait_started_bounded docker name cid (clock w) fuel w2)
      as (r & w' & n & -> & Hc & Hk & Hb); [lia|lia|].
    assert (Hn : (S n <= 32)%nat) by lia.
    assert (Hcalls : calls w' = (calls w ++ CRun rq :: repeat (CGet (Some cid)) (S n))%list).
    { rewrite Hc, Hc2, <- app_assoc. reflexivity. }
    destruct r as [[]|e]; eexists _, w', cid, (S n);
      (split; [reflexivity|]); (split; [exact Hcalls|]); (split; [exact Hn|]); lia.
  - destruct Hcase as (w2 & Hc2 & Hk2 & ->).
    destruct (is_api_error e && (status_code_of e =? 409));
      eexists _, w2, "", 0%nat; (split; [reflexivity|]);
      (split; [exact Hc2|]); (split; [lia|]); lia.
Qed.

Lemma launcher_is_bounded_witness :
  let rq := {| rq_image := "restic:latest"; rq_command := "backup"; rq_name := "garrison_c1_x";
               rq_environment := ∅; rq_volumes := ∅ |} in
  exists r w' cid n,
    run_backup_container
      (Example.daemon [Example.web] (Ok "j1") (fun _ => Ok (Example.job "created" 0)))
      32 "restic:latest" "backup" "garrison_c1_x" ∅ ∅ Example.w0
    = Some (r, w')
    /\ calls w' = (calls Example.w0 ++ CRun rq :: repeat (CGet (Some cid)) n)%list
    /\ (n <= 32)%nat
    /\ clock Example.w0 <= clock w' <= clock Example.w0 + 31.
Proof.
  apply (launcher_is_bounded
           (Example.daemon [Example.web] (Ok "j1") (fun _ => Ok (Example.job "created" 0)))
           32 "restic:latest" "backup" "garrison_c1_x" ∅ ∅ Example.w0).
  lia.
Defined.

Section LaunchCases.

Variable docker : Daemon.
Variable cfg : Config.
Variable md5_hexdigest : string -> string.
Variable format_field : PyFormat.value -> string -> option ascii -> string -> Res string.
Variable fuel : nat.
Variable container : ContainerInfo.t.
Variable server_name : string.

(** What a launch leaves in the tracked list and in the loop over the
    volumes, from the result of [_trigger_backup]. *)
Lemma launch_of_result volume ids w r w1 :
  _trigger_backup docker cfg md5_hexdigest format_field fuel container volume server_name w
  = Some (r, w1) ->
  launch docker cfg md5_hexdigest format_field fuel container volume server_name ids w
  = match r with
    | Ok x => Some (Ok (ids ++ [x])%list, w1)
    | Raise e => if is_container_not_started e then Some (Ok ids, w1)
                 else Some (Raise e, w1)
    end.
Proof.
  intros H. unfold launch, catch, bind. rewrite H.
  destruct r as [x|e]; [reflexivity|]. by destruct (is_container_not_started e).
Qed.

Lemma launch_grows volume ids w ids' w' :
  launch docker cfg md5_hexdigest format_field fuel container volume server_name ids w
  = Some (Ok ids', w') ->
  ids' = ids \/ exists x, ids' = (ids ++ [x])%list.
Proof.
  destruct (_trigger_backup docker cfg md5_hexdigest format_field fuel container volume
              server_name w) as [[r w1]|] eqn:Ht.
  - rewrite (launch_of_result _ _ _ _ _ Ht). destruct r as [x|e].
    + intros [= <- <-]. eauto.
    + destruct (is_container_not_started e); [|discriminate]. intros [= <- <-]. auto.
  - unfold launch, catch, bind. rewrite Ht. discriminate.
Qed.

Lemma launch_volumes_grows volumes : forall ids w ids' w',
  launch_volumes docker cfg md5_hexdigest format_field fuel container server_name
                 volumes ids w = Some (Ok ids', w') ->
  exists new, ids' = (ids ++ new)%list /\ (length new <= length volumes)%nat.
Proof.
  induction volumes as [|v rest IH]; intros ids w ids' w'.
  - intros [= <- <-]. exists []. by rewrite app_nil_r.
  - destruct (launch_volumes_cons docker cfg md5_hexdigest format_field fuel container
                server_name v rest ids w) as (w0 & _ & _ & ->).
    destruct (launch docker cfg md5_hexdigest format_field fuel container v server_name
                ids w0) as [[[ids1|e] w1]|] eqn:Hl; try discriminate.
    intros Hrest. destruct (IH _ _ _ _ Hrest) as (new & -> & Hlen).
    destruct (launch_grows _ _ _ _ _ Hl) as [->|[x ->]].
    + exists new. split; [reflexivity|]. simpl. lia.
    + exists (x :: new). rewrite <- app_assoc. split; [reflexivity|]. simpl. lia.
Qed.

End LaunchCases.

Section TriggerCases.

Variable docker : Daemon.
Variable cfg : Config.
Variable md5_hexdigest : string -> string.
Variable format_field : PyFormat.value -> string -> option ascii -> string -> Res string.
Variable fuel : nat.
Variable container : ContainerInfo.t.
Variable volume : VolumeInfo.t.
Variable server_name : string.
Variable extra_volumes : gmap (option string) Binding.t.
Variable command : string.

Hypothesis parsed : _get_extra_volumes_for_backup_container cfg = Ok extra_volumes.
Hypothesis rendered :
  PyFormat.format format_field
    (command_arguments container volume server_name
       (md5_hexdigest (VolumeInfo.source volume)))
    (BACKUP_CONTAINER_COMMAND cfg) = Ok command.

Let rq : RunRequest := backup_request cfg md5_hexdigest container volume command extra_volumes.

Lemma trigger_backup_cases w :
  exists w1,
    calls w1 = calls w /\ clock w1 = clock w
    /\ match containers_run docker w1 rq with
       | Ok cid =>
           exists w2,
             calls w2 = (calls w ++ [CRun rq])%list /\ clock w2 = clock w
             /\ _trigger_backup docker cfg md5_hexdigest format_field
                  fuel container volume server_name w
                = match wait_started docker fuel (rq_name rq) cid (clock w) w2 with
                  | Some (Ok _, w') => Some (Ok (Some cid), w')
                  | Some (Raise e, w') => Some (Raise e, w')
                  | None => None
                  end
       | Raise e =>
           exists w2,
             calls w2 = (calls w ++ [CRun rq])%list /\ clock w2 = clock w
             /\ _trigger_backup docker cfg md5_hexdigest format_field
                  fuel container volume server_name w
                = if is_api_error e && (status_code_of e =? 409)
                  then Some (Ok None, w2) else Some (Raise e, w2)
       end.
Proof.
  rewrite (trigger_backup_submits docker cfg md5_hexdigest format_field fuel container
             volume server_name extra_volumes command parsed rendered w).
  apply (run_backup_container_cases docker fuel (rq_image rq) (rq_command rq) (rq_name rq)
           (rq_environment rq) (rq_volumes rq) w).
Qed.

(** The job is submitted and has left the state [created] at the poll made
    [k] units later. *)
Lemma trigger_backup_started w cid (k : nat) :
  (forall w', calls w' = calls w -> clock w' = clock w ->
              containers_run docker w' rq = Ok cid) ->
  (forall w', clock w <= clock w' < clock w + Z.of_nat k ->
              exists c, containers_get docker w' (Some cid) = Ok c
                        /\ c_status c = "created") ->
  (forall w', clock w' = clock w + Z.of_nat k ->
              exists c, containers_get docker w' (Some cid) = Ok c
                        /\ c_status c <> "created") ->
  (k <= 31)%nat ->
  (k < fuel)%nat ->
  exists w1,
    _trigger_backup docker cfg md5_hexdigest format_field
                    fuel container volume server_name w = Some (Ok (Some cid), w1)
    /\ calls w1 = (calls w ++ CRun rq :: repeat (CGet (Some cid)) (S k))%list
    /\ clock w1 = clock w + Z.of_nat k.
Proof.
  intros Hrun Hcreated Hstarted Hk Hfuel.
  destruct (trigger_backup_cases w) as (w1 & Hc1 & Hk1 & Hcase).
  rewrite (Hrun w1 Hc1 Hk1) in Hcase. destruct Hcase as (w2 & Hc2 & Hk2 & ->).
  destruct (wait_started_starts docker (rq_name rq) cid (clock w) k fuel w2)
    as (w' & -> & Hc & Hclock).
  { intros w' Hw'. apply Hcreated. lia. }
  { intros w' Hw'. apply Hstarted. lia. }
  { lia. }
  { exact Hfuel. }
  exists w'. split; [reflexivity|]. split.
  - rewrite Hc, Hc2, <- app_assoc. reflexivity.
  - lia.
Qed.

(** The submission is refused with an error that is not a name conflict. *)
Lemma trigger_backup_refused w e :
  (forall w', calls w' = calls w -> clock w' = clock w ->
              containers_run docker w' rq = Raise e) ->
  is_api_error e && (status_code_of e =? 409) = false ->
  exists w1,
    _trigger_backup docker cfg md5_hexdigest format_field
                    fuel container volume server_name w = Some (Raise e, w1)
    /\ calls w1 = (calls w ++ [CRun rq])%list.
Proof.
  intros Hrun He.
  destruct (trigger_backup_cases w) as (w1 & Hc1 & Hk1 & Hcase).
  rewrite (Hrun w1 Hc1 Hk1), He in Hcase. destruct Hcase as (w2 & Hc2 & _ & ->).
  by exists w2.
Qed.

(** The first poll of the status fails. *)
Lemma trigger_backup_poll_fails w cid e :
  (forall w', calls w' = calls w -> clock w' = clock w ->
              containers_run docker w' rq = Ok cid) ->
  (forall w', calls w' = (calls w ++ [CRun rq])%list -> clock w' = clock w ->
              containers_get docker w' (Some cid) = Raise e) ->
  (1 <= fuel)%nat ->
  exists w1,
    _trigger_backup docker cfg md5_hexdigest format_field
                    fuel container volume server_name w = Some (Raise e, w1)
    /\ calls w1 = (calls w ++ [CRun rq; CGet (Some cid)])%list.
Proof.
  intros Hrun Hget Hfuel.
  destruct (trigger_backup_cases w) as (w1 & Hc1 & Hk1 & Hcase).
  rewrite (Hrun w1 Hc1 Hk1) in Hcase. destruct Hcase as (w2 & Hc2 & Hk2 & ->).
  destruct fuel as [|n]; [lia|].
  cbn [wait_started]. unfold bind at 1, get, client. rewrite (Hget w2 Hc2 Hk2).
  eexists. split; [reflexivity|].
  cbn [calls after]. rewrite Hc2, <- app_assoc. reflexivity.
Qed.

End TriggerCases.

(** X13.  A job that is accepted and has left the state [created] at the
    poll made [k] time units after its submission ([k] at most 31) is
    tracked: the launcher returns its identifier after [k + 1] polls, [k]
    units later, and the orchestrator appends the identifier to the tracked
    list. *)
Theorem started_job_is_tracked
        docker cfg md5_hexdigest format_field fuel container volume server_name
        extra_volumes command backup_container_ids cid (k : nat) w :
  _get_extra_volumes_for_backup_container cfg = Ok extra_volumes ->
  PyFormat.format format_field
    (command_arguments container volume server_name
       (md5_hexdigest (VolumeInfo.source volume)))
    (BACKUP_CONTAINER_COMMAND cfg) = Ok command ->
  let rq := backup_request cfg md5_hexdigest container volume command extra_volumes in
  (forall w', calls w' = calls w -> clock w' = clock w ->
              containers_run docker w' rq = Ok cid) ->
  (forall w', clock w <= clock w' < clock w + Z.of_nat k ->
              exists c, containers_get docker w' (Some cid) = Ok c
                        /\ c_status c = "created") ->
  (forall w', clock w' = clock w + Z.of_nat k ->
              exists c, containers_get docker w' (Some cid) = Ok c
                        /\ c_status c <> "created") ->
  (k <= 31)%nat ->
  (k < fuel)%nat ->
  exists w1,
    launch docker cfg md5_hexdigest format_field
           fuel container volume server_name backup_container_ids w
    = Some (Ok (backup_container_ids ++ [Some cid])%list, w1)
    /\ calls w1 = (calls w ++ CRun rq :: repeat (CGet (Some cid)) (S k))%list
    /\ clock w1 = clock w + Z.of_nat k.
Proof.
  intros Hparse Hformat rq Hrun Hcreated Hstarted Hk Hfuel.
  destruct (trigger_backup_started docker cfg md5_hexdigest format_field fuel container
              volume server_name extra_volumes command Hparse Hformat w cid k
              Hrun Hcreated Hstarted Hk Hfuel) as (w1 & Ht & Hc & Hclock).
  exists w1. split; [|by split].
  by rewrite (launch_of_result _ _ _ _ _ _ _ _ _ _ _ _ Ht).
Qed.

Lemma started_job_is_tracked_witness :
  let docker := Example.daemon [Example.web] (Ok "j1")
                  (fun w => Ok (Example.job (if clock w <? 3 then "created" else "running") 0)) in
  let cfg := Example.cfg Example.command "" in
  let rq := backup_request cfg Example.md5 (Example.info Example.web)
              (volume_of Example.data) "backup host1/shop/web/shop_data /data" ∅ in
  exists w1,
    launch docker cfg Example.md5 Example.format_field 10
           (Example.info Example.web) (volume_of Example.data) "host1" [] Example.w0
    = Some (Ok ([] ++ [Some "j1"])%list, w1)
    /\ calls w1 = (calls Example.w0 ++ CRun rq :: repeat (CGet (Some "j1")) 4)%list
    /\ clock w1 = clock Example.w0 + Z.of_nat 3.
Proof.
  intros docker cfg rq.
  apply (started_job_is_tracked docker cfg Example.md5 Example.format_field 10
           (Example.info Example.web) (volume_of Example.data) "host1" ∅
           "backup host1/shop/web/shop_data /data" [] "j1" 3 Example.w0).
  - vm_compute. reflexivity.
  - vm_compute. reflexivity.
  - intros w' _ _. reflexivity.
  - intros w' Hw'. eexists. split; [reflexivity|].
    cbn [c_status Example.job]. change (clock Example.w0) with 0 in Hw'.
    replace (clock w' <? 3) with true by (symmetry; apply Z.ltb_lt; lia). reflexivity.
  - intros w' Hw'. eexists. split; [reflexivity|].
    cbn [c_status Example.job]. change (clock Example.w0) with 0 in Hw'.
    replace (clock w' <? 3) with false by (symmetry; apply Z.ltb_ge; lia). discriminate.
  - lia.
  - lia.
Defined.

(** X14.  A submission refused with anything but a name conflict (an API
    error with a status other than 409, or an error that is no API error)
    is raised again by the launcher; the orchestrator does not absorb it,
    and the remaining volumes are not launched. *)
Theorem submission_error_ends_the_run
        docker cfg md5_hexdigest format_field fuel container volume server_name
        extra_volumes command backup_container_ids rest e w :
  _get_extra_volumes_for_backup_container cfg = Ok extra_volumes ->
  PyFormat.format format_field
    (command_arguments container volume server_name
       (md5_hexdigest (VolumeInfo.source volume)))
    (BACKUP_CONTAINER_COMMAND cfg) = Ok command ->
  let rq := backup_request cfg md5_hexdigest container volume command extra_volumes in
  (forall w', calls w' = calls w -> clock w' = clock w ->
              containers_run docker w' rq = Raise e) ->
  is_api_error e && (status_code_of e =? 409) = false ->
  is_container_not_started e = false ->
  (exists w1,
      launch docker cfg md5_hexdigest format_field
             fuel container volume server_name backup_container_ids w
      = Some (Raise e, w1)
      /\ calls w1 = (calls w ++ [CRun rq])%list)
  /\ (exists w2,
        launch_volumes docker cfg md5_hexdigest format_field fuel container server_name
          (volume :: rest) backup_container_ids w = Some (Raise e, w2)
        /\ calls w2 = (calls w ++ [CRun rq])%list).
Proof.
  intros Hparse Hformat rq Hrun He Hncs.
  assert (Hlaunch : forall w0, calls w0 = calls w -> clock w0 = clock w ->
             exists w1,
               launch docker cfg md5_hexdigest format_field
                      fuel container volume server_name backup_container_ids w0
               = Some (Raise e, w1)
               /\ calls w1 = (calls w ++ [CRun rq])%list).
  { intros w0 Hc0 Hk0.
    destruct (trigger_backup_refused docker cfg md5_hexdigest format_field fuel container
                volume server_name extra_volumes command Hparse Hformat w0 e)
      as (w1 & Ht & Hc); [|exact He|].
    { intros w' Hc' Hk'. apply Hrun; congruence. }
    exists w1. rewrite (launch_of_result _ _ _ _ _ _ _ _ _ _ _ _ Ht), Hncs.
    split; [reflexivity|]. by rewrite Hc, Hc0. }
  split; [by apply Hlaunch|].
  destruct (launch_volumes_cons docker cfg md5_hexdigest format_field fuel container
              server_name volume rest backup_container_ids w)
    as (w0 & Hk0 & Hc0 & ->).
  destruct (Hlaunch w0 Hc0 Hk0) as (w1 & -> & Hc). by exists w1.
Qed.

Lemma submission_error_ends_the_run_witness :
  let docker := Example.daemon [Example.web] (Raise (APIError 500))
                  (fun _ => Ok (Example.job "running" 0)) in
  let cfg := Example.cfg Example.command "" in
  let rq := backup_request cfg Example.md5 (Example.info Example.web)
              (volume_of Example.data) "backup host1/shop/web/shop_data /data" ∅ in
  exists w2,
    launch_volumes docker cfg Example.md5 Example.format_field 40
      (Example.info Example.web) "host1"
      [volume_of Example.data; volume_of Example.conf] [] Example.w0
    = Some (Raise (APIError 500), w2)
    /\ calls w2 = (calls Example.w0 ++ [CRun rq])%list.
Proof.
  intros docker cfg rq.
  apply (submission_error_ends_the_run docker cfg Example.md5 Example.format_field 40
           (Example.info Example.web) (volume_of Example.data) "host1" ∅
           "backup host1/shop/web/shop_data /data" [] [volume_of Example.conf]
           (APIError 500) Example.w0).
  - vm_compute. reflexivity.
  - vm_compute. reflexivity.
  - intros w' _ _. reflexivity.
  - reflexivity.
  - reflexivity.
Defined.

(** X15.  A status poll that fails during the wait for the start (the new
    container is gone, the daemon is unreachable) is not handled: the error
    leaves the launcher after the submission and that one poll, the job is
    not removed, and the orchestrator passes the error on without launching
    the remaining volumes. *)
Theorem poll_error_ends_the_run
        docker cfg md5_hexdigest format_field fuel container volume server_name
        extra_volumes command backup_container_ids rest cid e w :
  _get_extra_volumes_for_backup_container cfg = Ok extra_volumes ->
  PyFormat.format format_field
    (command_arguments container volume server_name
       (md5_hexdigest (VolumeInfo.source volume)))
    (BACKUP_CONTAINER_COMMAND cfg) = Ok command ->
  let rq := backup_request cfg md5_hexdigest container volume command extra_volumes in
  (forall w', calls w' = calls w -> clock w' = clock w ->
              containers_run docker w' rq = Ok cid) ->
  (forall w', calls w' = (calls w ++ [CRun rq])%list -> clock w' = clock w ->
              containers_get docker w' (Some cid) = Raise e) ->
  is_container_not_started e = false ->
  (1 <= fuel)%nat ->
  exists w2,
    launch_volumes docker cfg md5_hexdigest format_field fuel container server_name
      (volume :: rest) backup_container_ids w = Some (Raise e, w2)
    /\ calls w2 = (calls w ++ [CRun rq; CGet (Some cid)])%list.
Proof.
  intros Hparse Hformat rq Hrun Hget Hncs Hfuel.
  destruct (launch_volumes_cons docker cfg md5_hexdigest format_field fuel container
              server_name volume rest backup_container_ids w)
    as (w0 & Hk0 & Hc0 & ->).
  destruct (trigger_backup_poll_fails docker cfg md5_hexdigest format_field fuel container
              volume server_name extra_volumes command Hparse Hformat w0 cid e)
    as (w1 & Ht & Hc); [| |exact Hfuel|].
  { intros w' Hc' Hk'. apply Hrun; congruence. }
  { intros w' Hc' Hk'. apply Hget; [by rewrite Hc', Hc0|congruence]. }
  rewrite (launch_of_result _ _ _ _ _ _ _ _ _ _ _ _ Ht), Hncs.
  exists w1. split; [reflexivity|]. by rewrite Hc, Hc0.
Qed.

Lemma poll_error_ends_the_run_witness :
  let docker := Example.daemon [Example.web] (Ok "j1") (fun _ => Raise NotFound) in
  let cfg := Example.cfg Example.command "" in
  let rq := backup_request cfg Example.md5 (Example.info Example.web)
              (volume_of Example.data) "backup host1/shop/web/shop_data /data" ∅ in
  exists w2,
    launch_volumes docker cfg Example.md5 Example.format_field 40
      (Example.info Example.web) "host1"
      [volume_of Example.data; volume_of Example.conf] [] Example.w0
    = Some (Raise NotFound, w2)
    /\ calls w2 = (calls Example.w0 ++ [CRun rq; CGet (Some "j1")])%list.
Proof.
  intros docker cfg rq.
  apply (poll_error_ends_the_run docker cfg Example.md5 Example.format_field 40
           (Example.info Example.web) (volume_of Example.data) "host1" ∅
           "backup host1/shop/web/shop_data /data" [] [volume_of Example.conf]
           "j1" NotFound Example.w0).
  - vm_compute. reflexivity.
  - vm_compute. reflexivity.
  - intros w' _ _. reflexivity.
  - intros w' _ _. reflexivity.
  - reflexivity.
  - lia.
Defined.

(** X16.  The loop over the volumes of a container only appends to the
    tracked list, at most one entry for each volume: the list it returns
    is the list it was given followed by no more entries than there are
    volumes. *)
Theorem one_entry_per_volume_at_most
        docker cfg md5_hexdigest format_field fuel container server_name
        volumes backup_container_ids w ids' w' :
  launch_volumes docker cfg md5_hexdigest format_field fuel container server_name
                 volumes backup_container_ids w = Some (Ok ids', w') ->
  exists new,
    ids' = (backup_container_ids ++ new)%list /\ (length new <= length volumes)%nat.
Proof. apply launch_volumes_grows. Qed.

Lemma one_entry_per_volume_at_most_witness :
  exists new,
    [Some "j0"; Some "j1"] = ([Some "j0"] ++ new)%list
    /\ (length new <= length [volume_of Example.data; volume_of Example.conf])%nat.
Proof.
  eapply (one_entry_per_volume_at_most
            (Example.daemon [Example.web] (Ok "j1")
               (fun w => match calls w with
                         | [_] => Ok (Example.job "running" 0)
                         | _ => Ok (Example.job "created" 0)
                         end))
            (Example.cfg Example.command "") Example.md5 Example.format_field 40
            (Example.info Example.web) "host1"
            [volume_of Example.data; volume_of Example.conf] [Some "j0"] Example.w0).
  vm_compute. reflexivity.
Defined.

(** ** The extra-volume specification *)

Lemma parts_of_with_separator entry :
  PyStr.has_char ":" entry = true ->
  exists part0 part1 part2,
    parts_of entry !! 0%nat = Some part0 /\ parts_of entry !! 1%nat = Some part1
    /\ parts_of entry !! 2%nat = Some part2.
Proof.
  intros H. destruct (split_with_separator _ _ H) as (k & v & rest & Hs).
  unfold parts_of. rewrite Hs. destruct rest as [|m rest]; simpl; by eexists _, _, _.
Qed.

Lemma extra_volumes_loop_succeeds entries acc :
  (forall e, e ∈ entries -> e <> "" -> PyStr.has_char ":" e = true) ->
  exists extra, extra_volumes_loop entries acc = Ok extra.
Proof.
  revert acc. induction entries as [|x rest IH]; intros acc Hall; [by eexists|].
  assert (Hrest : forall e, e ∈ rest -> e <> "" -> PyStr.has_char ":" e = true)
    by (intros; apply Hall; [rewrite elem_of_cons; auto|done]).
  rewrite extra_volumes_loop_cons.
  destruct (String.eqb_spec x "") as [->|Hx]; [by apply IH|].
  destruct (parts_of_with_separator x) as (p0 & p1 & p2 & -> & -> & ->);
    [apply Hall; [rewrite elem_of_cons; auto|done]|].
  by apply IH.
Qed.

Lemma extra_volumes_loop_keys entries acc extra :
  extra_volumes_loop entries acc = Ok extra -> acc !! None = None -> extra !! None = None.
Proof.
  revert acc. induction entries as [|x rest IH]; intros acc.
  - by intros [= <-].
  - rewrite extra_volumes_loop_cons.
    destruct (String.eqb x ""); [apply IH|].
    destruct (parts_of x !! 1%nat); [|discriminate].
    destruct (parts_of x !! 2%nat); [|discriminate].
    destruct (parts_of x !! 0%nat); [|discriminate].
    intros Hrun Hacc. apply (IH _ Hrun). by rewrite lookup_insert_ne.
Qed.

Lemma extra_volumes_loop_explicit_mode l1 entry l2 acc extra src dst mode more :
  extra_volumes_loop (l1 ++ entry :: l2) acc = Ok extra ->
  PyStr.split ":" entry = src :: dst :: mode :: more ->
  (forall e, e ∈ l2 -> e <> "" -> PyStr.split ":" e !! 0%nat <> Some src) ->
  extra !! Some src = Some {| Binding.bind := dst; Binding.mode := mode |}.
Proof.
  intros Hrun Hsplit Hlater.
  apply extra_volumes_loop_app in Hrun as [acc' Hrun].
  rewrite extra_volumes_loop_cons in Hrun.
  assert (Hne : String.eqb entry "" = false).
  { apply String.eqb_neq. intros ->. discriminate Hsplit. }
  rewrite Hne in Hrun. unfold parts_of in Hrun. rewrite Hsplit in Hrun.
  simpl in Hrun.
  eapply extra_volumes_loop_keeps; [exact Hrun| |exact Hlater].
  apply lookup_insert_eq.
Qed.

(** X17.  The extra-volume specification is accepted exactly when each of
    its entries between commas is empty or has a [:]; empty entries, as in
    the empty specification or after a trailing comma, are passed over. *)
Theorem extra_volumes_accepted cfg :
  (exists extra_volumes, _get_extra_volumes_for_backup_container cfg = Ok extra_volumes)
  <-> (forall entry, entry ∈ PyStr.split "," (BACKUP_CONTAINER_VOLUMES cfg) ->
                     entry <> "" -> PyStr.has_char ":" entry = true).
Proof.
  split.
  - intros [extra Hparse] entry Hin Hne.
    destruct (PyStr.has_char ":" entry) eqn:Hc; [reflexivity|].
    unfold _get_extra_volumes_for_backup_container in Hparse.
    rewrite (extra_volumes_loop_single_field _ entry ∅ Hin Hne Hc) in Hparse.
    discriminate.
  - intros Hall. by apply extra_volumes_loop_succeeds.
Qed.

(** X18.  An entry with three fields or more is [source:dest:mode]: the
    third field is the mode, as written, and the fields after it are
    ignored.  Of two entries with the same source the later one stays. *)
Theorem extra_volume_explicit_mode cfg extra_volumes l1 entry l2 src dst mode more :
  _get_extra_volumes_for_backup_container cfg = Ok extra_volumes ->
  PyStr.split "," (BACKUP_CONTAINER_VOLUMES cfg) = (l1 ++ entry :: l2)%list ->
  PyStr.split ":" entry = src :: dst :: mode :: more ->
  (forall e, e ∈ l2 -> e <> "" -> PyStr.split ":" e !! 0%nat <> Some src) ->
  extra_volumes !! Some src = Some {| Binding.bind := dst; Binding.mode := mode |}.
Proof.
  intros Hparse Hsplit Hentry Hlater.
  unfold _get_extra_volumes_for_backup_container in Hparse. rewrite Hsplit in Hparse.
  eapply extra_volumes_loop_explicit_mode; eassumption.
Qed.

Lemma extra_volume_explicit_mode_witness :
  let extra_volumes : gmap (option string) Binding.t :=
    {[ Some "/srv" := {| Binding.bind := "/b"; Binding.mode := "ro" |} ]} in
  extra_volumes !! Some "/srv" = Some {| Binding.bind := "/b"; Binding.mode := "ro" |}.
Proof.
  intros extra_volumes.
  apply (extra_volume_explicit_mode (Example.cfg Example.command "/srv:/a,/srv:/b:ro:z,")
           extra_volumes ["/srv:/a"] "/srv:/b:ro:z" [""] "/srv" "/b" "ro" ["z"]).
  - vm_compute. reflexivity.
  - vm_compute. reflexivity.
  - vm_compute. reflexivity.
  - intros e He Hne. apply list_elem_of_singleton in He. congruence.
Defined.

(** X19.  The key of the target volume in the mapping is its name, also
    when it has none: for a mount without a name (a bind mount) the
    read-only entry is stored under the key [None], which no extra mount
    can replace, and the mapping has an entry under the source path of the
    mount only if an extra mount supplies one. *)
Theorem unnamed_volume_is_keyed_by_none cfg md5_hexdigest container volume command
        extra_volumes :
  _get_extra_volumes_for_backup_container cfg = Ok extra_volumes ->
  VolumeInfo.name volume = None ->
  let rq := backup_request cfg md5_hexdigest container volume command extra_volumes in
  rq_volumes rq !! None
  = Some {| Binding.bind := VolumeInfo.destination volume; Binding.mode := "ro" |}
  /\ rq_volumes rq !! Some (VolumeInfo.source volume)
     = extra_volumes !! Some (VolumeInfo.source volume).
Proof.
  intros Hparse Hname rq. cbn [rq backup_request rq_volumes]. unfold backup_volumes.
  rewrite Hname. split.
  - rewrite lookup_union_r.
    + apply lookup_singleton_eq.
    + eapply extra_volumes_loop_keys; [exact Hparse|apply lookup_empty].
  - destruct (extra_volumes !! Some (VolumeInfo.source volume)) as [b|] eqn:Hb.
    + by apply lookup_union_Some_l.
    + rewrite lookup_union_r by exact Hb. by apply lookup_singleton_ne.
Qed.

Lemma unnamed_volume_is_keyed_by_none_witness :
  let rq := backup_request (Example.cfg Example.command "/backup:/backup") Example.md5
              (Example.info Example.web) (volume_of Example.conf) "backup"
              {[ Some "/backup" := {| Binding.bind := "/backup"; Binding.mode := "rw" |} ]} in
  rq_volumes rq !! None = Some {| Binding.bind := "/conf"; Binding.mode := "ro" |}
  /\ rq_volumes rq !! Some "/etc/conf"
     = ({[ Some "/backup" := {| Binding.bind := "/backup"; Binding.mode := "rw" |} ]}
          : gmap (option string) Binding.t) !! Some "/etc/conf".
Proof.
  intros rq.
  apply (unnamed_volume_is_keyed_by_none (Example.cfg Example.command "/backup:/backup")
           Example.md5 (Example.info Example.web) (volume_of Example.conf) "backup"
           {[ Some "/backup" := {| Binding.bind := "/backup"; Binding.mode := "rw" |} ]}).
  - vm_compute. reflexivity.
  - reflexivity.
Defined.

(** ** Rendering of the command *)

Lemma append_nil_r (s : string) : (s ++ "")%string = s.
Proof. induction s as [|a s IH]; [reflexivity|]. by rewrite append_cons, IH. Qed.

Lemma snoc_append (p out : string) c :
  PyFormat.snoc (p ++ out) c = (p ++ PyFormat.snoc out c)%string.
Proof. unfold PyFormat.snoc. apply append_assoc. Qed.

Lemma has_char_cons c a s :
  PyStr.has_char c (String a s) = Ascii.eqb a c || PyStr.has_char c s.
Proof. reflexivity. Qed.

Lemma field_name_split_plain key :
  all_chars (fun c => negb (field_punctuation c)) key = true ->
  PyFormat.field_name_split key = (key, "").
Proof.
  induction key as [|c key IH]; [reflexivity|].
  cbn [all_chars PyFormat.field_name_split]. intros H.
  apply andb_true_iff in H as [Hc Hk]. rewrite (IH Hk).
  unfold field_punctuation in Hc. rewrite !negb_orb in Hc.
  repeat (apply andb_true_iff in Hc as [Hc ?]).
  by destruct (Ascii.eqb c "."), (Ascii.eqb c "[").
Qed.

Section Rendering.

Variable format_field : PyFormat.value -> string -> option ascii -> string -> Res string.
Variable kwargs : gmap string PyFormat.value.

Ltac scan_cases :=
  repeat match goal with
         | |- context [if Ascii.eqb ?a ?b then _ else _] => destruct (Ascii.eqb a b)
         end.

(** What is already written stays in front of what the scan adds. *)
Lemma scan_prepend p s : forall m out,
  PyFormat.scan format_field kwargs m (p ++ out) s
  = prepend p (PyFormat.scan format_field kwargs m out s).
Proof.
  assert (Hemit : forall s',
             (forall m out, PyFormat.scan format_field kwargs m (p ++ out) s'
                            = prepend p (PyFormat.scan format_field kwargs m out s')) ->
             forall out name conv spec,
               PyFormat.emit_field format_field kwargs (p ++ out) name conv spec
                 (fun o => PyFormat.scan format_field kwargs PyFormat.Text o s')
               = prepend p
                   (PyFormat.emit_field format_field kwargs out name conv spec
                      (fun o => PyFormat.scan format_field kwargs PyFormat.Text o s'))).
  { intros s' IH out name conv spec. unfold PyFormat.emit_field.
    destruct (PyFormat.render_field _ _ name conv spec) as [r|e]; [|reflexivity].
    rewrite append_assoc. apply IH. }
  induction s as [|c s IH]; intros m out.
  - by destruct m.
  - cbn [PyFormat.scan].
    destruct m as [| | |n [|]|n|n cv|n cv sp [|[|depth]]]; scan_cases;
      rewrite ?snoc_append; try reflexivity; try apply IH; by apply Hemit.
Qed.

(** Text without braces is copied. *)
Lemma scan_literal pre : forall out rest,
  brace_free pre = true ->
  PyFormat.scan format_field kwargs PyFormat.Text out (pre ++ rest)
  = PyFormat.scan format_field kwargs PyFormat.Text (out ++ pre) rest.
Proof.
  induction pre as [|c pre IH]; intros out rest Hfree.
  - by rewrite append_nil_r.
  - unfold brace_free in Hfree. rewrite !has_char_cons, !negb_orb in Hfree.
    apply andb_true_iff in Hfree as [H1 H2].
    apply andb_true_iff in H1 as [Hc1 Hp1]. apply andb_true_iff in H2 as [Hc2 Hp2].
    rewrite append_cons. cbn [PyFormat.scan].
    apply negb_true_iff in Hc1, Hc2. rewrite Hc1, Hc2.
    rewrite IH by (unfold brace_free; by rewrite Hp1, Hp2).
    unfold PyFormat.snoc. rewrite append_assoc. reflexivity.
Qed.

(** The scan of a plain name up to its closing brace. *)
Lemma scan_name key : forall n out post,
  all_chars (fun c => negb (field_punctuation c)) key = true ->
  PyFormat.scan format_field kwargs (PyFormat.Name n false) out (key ++ "}" ++ post)
  = PyFormat.emit_field format_field kwargs out (n ++ key) None ""
      (fun o => PyFormat.scan format_field kwargs PyFormat.Text o post).
Proof.
  induction key as [|c key IH]; intros n out post Hplain.
  - rewrite append_nil_r. reflexivity.
  - cbn [all_chars] in Hplain. apply andb_true_iff in Hplain as [Hc Hk].
    unfold field_punctuation in Hc. rewrite !negb_orb in Hc.
    repeat (apply andb_true_iff in Hc as [Hc ?]).
    repeat match goal with H : negb _ = true |- _ => apply negb_true_iff in H end.
    rewrite append_cons. cbn [PyFormat.scan].
    repeat match goal with H : Ascii.eqb c _ = false |- _ => rewrite H end.
    rewrite (IH _ _ _ Hk). unfold PyFormat.snoc. rewrite append_assoc. reflexivity.
Qed.

(** A field with a plain name that is among the arguments is replaced by
    the text of its value. *)
Lemma scan_plain_field key v out post :
  plain_name key = true ->
  kwargs !! key = Some v ->
  PyFormat.scan format_field kwargs PyFormat.Text out ("{" ++ key ++ "}" ++ post)
  = PyFormat.scan format_field kwargs PyFormat.Text (out ++ PyFormat.str v) post.
Proof.
  unfold plain_name. intros Hplain Hv.
  apply andb_true_iff in Hplain as [Hplain Hint].
  apply andb_true_iff in Hplain as [Hne Hchars].
  assert (Hrender : PyFormat.render_field format_field kwargs key None ""
                    = Ok (PyFormat.str v)).
  { unfold PyFormat.render_field. rewrite (field_name_split_plain _ Hchars).
    destruct (PyFormat.get_integer key); try discriminate.
    destruct key; [discriminate|]. by rewrite Hv. }
  destruct key as [|c key]; [discriminate|].
  cbn [all_chars] in Hchars. apply andb_true_iff in Hchars as [Hc Hk].
  unfold field_punctuation in Hc. rewrite !negb_orb in Hc.
  repeat (apply andb_true_iff in Hc as [Hc ?]).
  repeat match goal with H : negb _ = true |- _ => apply negb_true_iff in H end.
  change ("{" ++ String c key ++ "}" ++ post)%string
    with (String "{" (String c (key ++ "}" ++ post))).
  cbn [PyFormat.scan]. change (Ascii.eqb "{" "{") with true. cbv iota.
  change (Ascii.eqb "{" "}") with false. cbv iota.
  repeat match goal with H : Ascii.eqb c _ = false |- _ => rewrite H end.
  rewrite (scan_name key _ _ _ Hk). unfold PyFormat.emit_field.
  change (PyFormat.snoc "" c ++ key)%string with (String c key).
  by rewrite Hrender.
Qed.

Lemma format_literal template :
  brace_free template = true ->
  PyFormat.format format_field kwargs template = Ok template.
Proof.
  intros Hfree. unfold PyFormat.format.
  rewrite <- (append_nil_r template) at 1. by rewrite scan_literal.
Qed.

Lemma format_plain_field pre key v post :
  brace_free pre = true ->
  plain_name key = true ->
  kwargs !! key = Some v ->
  PyFormat.format format_field kwargs (pre ++ "{" ++ key ++ "}" ++ post)
  = prepend (pre ++ PyFormat.str v) (PyFormat.format format_field kwargs post).
Proof.
  intros Hfree Hplain Hv. unfold PyFormat.format.
  rewrite scan_literal by exact Hfree.
  rewrite (scan_plain_field _ _ _ _ Hplain Hv).
  change ("" ++ pre)%string with pre.
  rewrite <- (append_nil_r (pre ++ PyFormat.str v)) at 1.
  apply scan_prepend.
Qed.

End Rendering.

(** X20.  A command template without braces is the command: it is
    rendered to itself, whatever the container and the volume, and the
    launch submits it as it is. *)
Theorem literal_template_is_the_command
        docker cfg md5_hexdigest format_field fuel container volume server_name
        extra_volumes w :
  brace_free (BACKUP_CONTAINER_COMMAND cfg) = true ->
  _get_extra_volumes_for_backup_container cfg = Ok extra_volumes ->
  PyFormat.format format_field
    (command_arguments container volume server_name
       (md5_hexdigest (VolumeInfo.source volume)))
    (BACKUP_CONTAINER_COMMAND cfg) = Ok (BACKUP_CONTAINER_COMMAND cfg)
  /\ _trigger_backup docker cfg md5_hexdigest format_field
       fuel container volume server_name w
     = run_backup_container docker fuel (BACKUP_CONTAINER_IMAGE cfg)
         (BACKUP_CONTAINER_COMMAND cfg) (job_name md5_hexdigest container volume)
         (environ cfg) (backup_volumes volume extra_volumes) w.
Proof.
  intros Hfree Hparse.
  assert (Hformat := format_literal format_field
                       (command_arguments container volume server_name
                          (md5_hexdigest (VolumeInfo.source volume)))
                       _ Hfree).
  split; [exact Hformat|].
  apply (trigger_backup_submits docker cfg md5_hexdigest format_field fuel container
           volume server_name extra_volumes (BACKUP_CONTAINER_COMMAND cfg) Hparse Hformat).
Qed.

Lemma literal_template_is_the_command_witness :
  PyFormat.format Example.format_field
    (command_arguments (Example.info Example.web) (volume_of Example.data) "host1"
       (Example.md5 (VolumeInfo.source (volume_of Example.data))))
    "restic backup /data" = Ok "restic backup /data".
Proof.
  apply (literal_template_is_the_command
           (Example.daemon [Example.web] (Ok "j1") (fun _ => Ok (Example.job "running" 0)))
           (Example.cfg "restic backup /data" "") Example.md5 Example.format_field 40
           (Example.info Example.web) (volume_of Example.data) "host1" ∅ Example.w0).
  - reflexivity.
  - vm_compute. reflexivity.
Defined.

(** X21.  Each of the five placeholders is replaced by its value wherever
    it stands after text without braces, and the rest of the template is
    rendered after it: the server name, the compose project (the text
    [None] for a container outside a project), the name of the container,
    the name of the volume (the hash of its source when it has no name),
    and the destination of the volume. *)
Theorem placeholders_are_substituted
        format_field container volume server_name volume_hash pre post :
  brace_free pre = true ->
  let kwargs := command_arguments container volume server_name volume_hash in
  let render := PyFormat.format format_field kwargs in
  render (pre ++ "{server_name}" ++ post) = prepend (pre ++ server_name) (render post)
  /\ render (pre ++ "{project_name}" ++ post)
     = prepend (pre ++ str_of (ContainerInfo.project container)) (render post)
  /\ render (pre ++ "{container_name}" ++ post)
     = prepend (pre ++ ContainerInfo.name container) (render post)
  /\ render (pre ++ "{volume_name}" ++ post)
     = prepend (pre ++ or_else (VolumeInfo.name volume) volume_hash) (render post)
  /\ render (pre ++ "{volume_path}" ++ post)
     = prepend (pre ++ VolumeInfo.destination volume) (render post).
Proof.
  intros Hfree kwargs render.
  assert (Hproject : PyFormat.str (value_of (ContainerInfo.project container))
                     = str_of (ContainerInfo.project container))
    by (by destruct (ContainerInfo.project container)).
  subst render kwargs. unfold command_arguments. rewrite <- Hproject.
  repeat split.
  - apply (format_plain_field format_field _ pre "server_name" (PyFormat.VStr server_name)
             post Hfree eq_refl).
    by simplify_map_eq.
  - apply (format_plain_field format_field _ pre "project_name"
             (value_of (ContainerInfo.project container)) post Hfree eq_refl).
    by simplify_map_eq.
  - apply (format_plain_field format_field _ pre "container_name"
             (PyFormat.VStr (ContainerInfo.name container)) post Hfree eq_refl).
    by simplify_map_eq.
  - apply (format_plain_field format_field _ pre "volume_name"
             (PyFormat.VStr (or_else (VolumeInfo.name volume) volume_hash))
             post Hfree eq_refl).
    by simplify_map_eq.
  - apply (format_plain_field format_field _ pre "volume_path"
             (PyFormat.VStr (VolumeInfo.destination volume)) post Hfree eq_refl).
    by simplify_map_eq.
Qed.

Lemma placeholders_are_substituted_witness :
  PyFormat.format Example.format_field
    (command_arguments (Example.info Example.db) (volume_of Example.conf) "host1" "0f3a")
    ("backup " ++ "{project_name}" ++ "/{volume_name}")
  = Ok "backup None/0f3a".
Proof.
  destruct (placeholders_are_substituted Example.format_field (Example.info Example.db)
              (volume_of Example.conf) "host1" "0f3a" "backup " "/{volume_name}" eq_refl)
    as (_ & Hproject & _).
  rewrite Hproject. vm_compute. reflexivity.
Defined.

(** ** The wait for completion and the cleanup, on whole lists *)

Section Completion.

Variable docker : Daemon.
Variable backup_container_ids : list (option string).
Variable finished : Z.

Hypothesis answered :
  forall x w, x ∈ backup_container_ids -> exists c, containers_get docker w x = Ok c.
Hypothesis exited :
  forall x w c, x ∈ backup_container_ids -> finished <= clock w ->
                containers_get docker w x = Ok c -> exit_status_of c <> -1.



End Completion.



Lemma settled_tail docker job x ids :
  settled docker job (x :: ids) -> settled docker job ids.
Proof. intros H y Hy. apply H. rewrite elem_of_cons; auto. Qed.

(** X23.  On jobs that have settled (each job answers its status queries
    with the same container, and removals succeed) the cleanup handles the
    tracked list in order and to its end: a job with exit status zero is
    queried, looked up and removed; a job with any other status (a failure,
    or not exited) is queried and left alone.  Nothing else is called and
    the clock does not move. *)
Theorem cleanup_removes_the_successful_jobs docker job backup_container_ids w :
  settled docker job backup_container_ids ->
  exists w',
    cleanup docker backup_container_ids w = Some (Ok tt, w')
    /\ calls w' = (calls w ++ flat_map (cleanup_calls job) backup_container_ids)%list
    /\ clock w' = clock w.
Proof.
  revert w. induction backup_container_ids as [|x ids IH]; intros w Hsettled.
  - exists w. simpl. rewrite app_nil_r. by repeat split.
  - destruct (Hsettled x) as [Hget Hremove]; [rewrite elem_of_cons; auto|].
    apply settled_tail in Hsettled.
    cbn [cleanup flat_map]. unfold bind at 1.
    rewrite get_container_exit_status_eq, Hget. unfold cleanup_calls at 1.
    destruct (exit_status_of (job x) =? 0); cbn [negb].
    + unfold bind at 1, remove_container.
      unfold bind at 1, logger. unfold bind at 1, catch, bind at 1, get, client.
      rewrite Hget. unfold bind at 1. rewrite Hremove. cbn [ret].
      match goal with
      | |- context [cleanup docker ids ?w0] =>
          destruct (IH w0 Hsettled) as (w' & -> & Hc & Hk)
      end.
      exists w'. split; [reflexivity|]. split; [|exact Hk].
      rewrite Hc. cbn [calls logged after]. by rewrite <- !app_assoc.
    + unfold bind at 1, logger.
      match goal with
      | |- context [cleanup docker ids ?w0] =>
          destruct (IH w0 Hsettled) as (w' & -> & Hc & Hk)
      end.
      exists w'. split; [reflexivity|]. split; [|exact Hk].
      rewrite Hc. cbn [calls logged after]. by rewrite <- !app_assoc.
Qed.

Lemma cleanup_removes_the_successful_jobs_witness :
  let job := fun x : option string =>
               if bool_decide (x = Some "j1") then Example.job "exited" 0
               else Example.container "j2" "garrison_c2_x" [] [] in
  exists w',
    cleanup (Example.daemon [Example.container "j2" "garrison_c2_x" [] []] (Ok "j1")
               (fun _ => Ok (Example.job "exited" 0)))
            [Some "j2"; Some "j1"] Example.w0 = Some (Ok tt, w')
    /\ calls w'
       = (calls Example.w0
            ++ flat_map (cleanup_calls job) [Some "j2"; Some "j1"])%list
    /\ clock w' = clock Example.w0.
Proof.
  intros job.
  apply (cleanup_removes_the_successful_jobs
           (Example.daemon [Example.container "j2" "garrison_c2_x" [] []] (Ok "j1")
              (fun _ => Ok (Example.job "exited" 0)))
           job [Some "j2"; Some "j1"] Example.w0).
  intros x Hx. apply elem_of_cons in Hx as [->|Hx];
    [|apply list_elem_of_singleton in Hx as ->]; split; intros w; reflexivity.
Defined.

(** X24.  The status query of the cleanup is not protected: when it fails
    for a tracked job (the job was removed in the meantime, or the entry is
    the [None] left by a name conflict) the error leaves the cleanup after
    that one call, and the jobs that follow in the list are neither queried
    nor removed. *)
Theorem cleanup_stops_at_a_failed_query docker container_id rest w e :
  containers_get docker w container_id = Raise e ->
  cleanup docker (container_id :: rest) w = Some (Raise e, after w (CGet container_id))
  /\ calls (after w (CGet container_id)) = (calls w ++ [CGet container_id])%list.
Proof.
  intros Hget. split; [|reflexivity].
  cbn [cleanup]. unfold bind at 1. by rewrite get_container_exit_status_eq, Hget.
Qed.

Lemma cleanup_stops_at_a_failed_query_witness :
  cleanup (Example.daemon [Example.web] (Ok "j1") (fun _ => Raise NotFound))
          [Some "j1"; Some "j2"] Example.w0
  = Some (Raise NotFound, after Example.w0 (CGet (Some "j1")))
  /\ calls (after Example.w0 (CGet (Some "j1")))
     = (calls Example.w0 ++ [CGet (Some "j1")])%list.
Proof.
  apply (cleanup_stops_at_a_failed_query
           (Example.daemon [Example.web] (Ok "j1") (fun _ => Raise NotFound))
           (Some "j1") [Some "j2"] Example.w0 NotFound).
  reflexivity.
Defined.

(** X25.  Only [NotFound] is absorbed by [remove_container].  A removal
    that fails with any other error (a conflict, a server error) raises it,
    and the cleanup stops there: the jobs that follow stay in place. *)
Theorem removal_error_stops_the_cleanup docker container_id rest w c c2 e :
  containers_get docker w container_id = Ok c ->
  exit_status_of c = 0 ->
  (forall w2, calls w2 = (calls w ++ [CGet container_id])%list ->
              containers_get docker w2 container_id = Ok c2) ->
  (forall w3, calls w3 = (calls w ++ [CGet container_id; CGet container_id])%list ->
              container_remove docker w3 (c_id c2) = Raise e) ->
  is_not_found e = false ->
  exists w',
    remove_container docker container_id (after w (CGet container_id)) = Some (Raise e, w')
    /\ cleanup docker (container_id :: rest) w = Some (Raise e, w')
    /\ calls w'
       = (calls w ++ [CGet container_id; CGet container_id; CRemove (c_id c2)])%list.
Proof.
  intros Hget Hst Hget2 Hremove He.
  assert (Hrm : exists w',
             remove_container docker container_id (after w (CGet container_id))
             = Some (Raise e, w')
             /\ calls w'
                = (calls w ++ [CGet container_id; CGet container_id; CRemove (c_id c2)])%list).
  { unfold remove_container. unfold bind at 1, logger.
    unfold bind at 1, catch, bind at 1, get, client.
    rewrite Hget2 by reflexivity. unfold bind at 1.
    rewrite Hremove by (cbn [calls logged after]; by rewrite <- app_assoc).
    rewrite He. eexists. split; [reflexivity|].
    cbn [calls logged after]. by rewrite <- !app_assoc. }
  destruct Hrm as (w' & Hrm & Hc). exists w'. split; [exact Hrm|]. split; [|exact Hc].
  cbn [cleanup]. unfold bind at 1. rewrite get_container_exit_status_eq, Hget, Hst.
  cbn [Z.eqb negb]. unfold bind at 1. by rewrite Hrm.
Qed.

Lemma removal_error_stops_the_cleanup_witness :
  let docker := stubborn (fun _ => Ok (Example.job "exited" 0)) in
  exists w',
    remove_container docker (Some "j1") (after Example.w0 (CGet (Some "j1")))
    = Some (Raise (APIError 409), w')
    /\ cleanup docker [Some "j1"; Some "j2"] Example.w0 = Some (Raise (APIError 409), w')
    /\ calls w'
       = (calls Example.w0 ++ [CGet (Some "j1"); CGet (Some "j1"); CRemove "j1"])%list.
Proof.
  intros docker.
  apply (removal_error_stops_the_cleanup docker (Some "j1") [Some "j2"] Example.w0
           (Example.job "exited" 0) (Example.job "exited" 0) (APIError 409)).
  - reflexivity.
  - reflexivity.
  - intros w2 _. reflexivity.
  - intros w3 _. reflexivity.
  - reflexivity.
Defined.

(** ** The run *)




(** X27.  The mounts of a candidate are asked for again when its turn
    comes.  If that lookup fails (the container stopped after discovery)
    the error is not handled: it leaves the loop over the containers after
    that one call, and the containers that follow are not backed up. *)
Theorem vanished_container_ends_the_run
        K docker cfg md5_hexdigest format_field fuel server_name container rest
        backup_container_ids w e :
  (forall w', calls w' = calls w ->
              containers_get docker w' (Some (ContainerInfo.id container)) = Raise e) ->
  exists w',
    launch_containers K docker cfg md5_hexdigest format_field fuel server_name
      (container :: rest) backup_container_ids w = Some (Raise e, w')
    /\ calls w' = (calls w ++ [CGet (Some (ContainerInfo.id container))])%list.
Proof.
  intros Hget. cbn [launch_containers]. unfold bind at 1, logger. unfold bind at 1.
  unfold get_included_container_volumes, bind at 1, get, client.
  rewrite Hget by reflexivity. eexists. split; reflexivity.
Qed.

Lemma vanished_container_ends_the_run_witness :
  exists w',
    launch_containers Example.K
      (Example.daemon [] (Ok "j1") (fun _ => Ok (Example.job "running" 0)))
      (Example.cfg Example.command "") Example.md5 Example.format_field 40 "host1"
      [Example.info Example.web; Example.info Example.db] [] Example.w0
    = Some (Raise NotFound, w')
    /\ calls w' = (calls Example.w0 ++ [CGet (Some "c1")])%list.
Proof.
  apply (vanished_container_ends_the_run Example.K
           (Example.daemon [] (Ok "j1") (fun _ => Ok (Example.job "running" 0)))
           (Example.cfg Example.command "") Example.md5 Example.format_field 40 "host1"
           (Example.info Example.web) [Example.info Example.db] [] Example.w0 NotFound).
  intros w' _. reflexivity.
Defined.



(** ** Settings *)

(** X29.  With the image and the command set and no extra volumes
    configured, the settings load, the extra-volume specification defaults
    to the empty text and parses to the empty mapping, so that a job mounts
    its target volume and nothing else; the environment handed to the job
    is the whole environment of the tool, its own settings included; and
    explicit enabling is required only if [REQUIRE_ENABLE] is the text
    ["true"]. *)
Theorem default_settings env image command md5_hexdigest container volume rendered :
  env !! "BACKUP_CONTAINER_IMAGE" = Some image ->
  env !! "BACKUP_CONTAINER_COMMAND" = Some command ->
  env !! "BACKUP_CONTAINER_VOLUMES" = None ->
  exists cfg,
    load_config env = Ok cfg
    /\ _get_extra_volumes_for_backup_container cfg = Ok ∅
    /\ (REQUIRE_ENABLE cfg = true <-> env !! "REQUIRE_ENABLE" = Some "true")
    /\ let rq := backup_request cfg md5_hexdigest container volume rendered ∅ in
       rq_image rq = image
       /\ rq_environment rq = env
       /\ rq_environment rq !! "BACKUP_CONTAINER_COMMAND" = Some command
       /\ rq_volumes rq
          = {[ VolumeInfo.name volume :=
                 {| Binding.bind := VolumeInfo.destination volume;
                    Binding.mode := "ro" |} ]}.
Proof.
  intros Himage Hcommand Hvolumes. unfold load_config.
  rewrite Himage, Hcommand, Hvolumes. eexists. split; [reflexivity|].
  split; [reflexivity|]. split.
  - cbn [REQUIRE_ENABLE]. destruct (env !! "REQUIRE_ENABLE") as [v|]; simpl.
    + rewrite String.eqb_eq. split; congruence.
    + split; discriminate.
  - cbn [backup_request rq_image rq_environment rq_volumes BACKUP_CONTAINER_IMAGE environ].
    repeat split; [exact Hcommand|]. unfold backup_volumes. apply map_empty_union.
Qed.

Lemma default_settings_witness :
  let env : gmap string string :=
    {[ "BACKUP_CONTAINER_IMAGE" := "restic:latest";
       "BACKUP_CONTAINER_COMMAND" := "backup {volume_path}";
       "REQUIRE_ENABLE" := "True" ]} in
  exists cfg,
    load_config env = Ok cfg
    /\ _get_extra_volumes_for_backup_container cfg = Ok ∅
    /\ (REQUIRE_ENABLE cfg = true <-> env !! "REQUIRE_ENABLE" = Some "true")
    /\ let rq := backup_request cfg Example.md5 (Example.info Example.web)
                   (volume_of Example.data) "backup /data" ∅ in
       rq_image rq = "restic:latest"
       /\ rq_environment rq = env
       /\ rq_environment rq !! "BACKUP_CONTAINER_COMMAND" = Some "backup {volume_path}"
       /\ rq_volumes rq
          = {[ Some "shop_data" := {| Binding.bind := "/data"; Binding.mode := "ro" |} ]}.
Proof.
  intros env.
  apply (default_settings env "restic:latest" "backup {volume_path}" Example.md5
           (Example.info Example.web) (volume_of Example.data) "backup /data");
    vm_compute; reflexivity.
Defined.

(** ** The launch loops always come back *)

Section Returns.

Variable K : Constants.
Variable docker : Daemon.
Variable cfg : Config.
Variable md5_hexdigest : string -> string.
Variable format_field : PyFormat.value -> string -> option ascii -> string -> Res string.
Variable fuel : nat.
Variable server_name : string.

Hypothesis enough : (32 <= fuel)%nat.

Lemma run_backup_container_returns image command name environment volumes w :
  exists r w' more,
    run_backup_container docker fuel image command name environment volumes w
    = Some (r, w')
    /\ calls w' = (calls w ++ more)%list.
Proof.
  destruct (run_backup_container_cases docker fuel image command name environment volumes w)
    as (w1 & Hc1 & Hk1 & Hcase).
  cbv zeta in Hcase.
  destruct (containers_run docker w1 _) as [cid|e].
  - destruct Hcase as (w2 & Hc2 & Hk2 & ->).
    destruct (wait_started_total docker name cid (clock w) fuel w2)
      as (r & w' & n & -> & Hc); [lia|lia|].
    rewrite Hc2, <- app_assoc in Hc.
    destruct r as [[]|e]; eexists _, w', _; (split; [reflexivity|exact Hc]).
  - destruct Hcase as (w2 & Hc2 & Hk2 & ->).
    destruct (is_api_error e && (status_code_of e =? 409));
      eexists _, w2, _; (split; [reflexivity|exact Hc2]).
Qed.

Lemma trigger_backup_returns container volume w :
  exists r w' more,
    _trigger_backup docker cfg md5_hexdigest format_field fuel container volume
                    server_name w = Some (r, w')
    /\ calls w' = (calls w ++ more)%list.
Proof.
  unfold _trigger_backup, bind at 1, lift.
  destruct (_get_extra_volumes_for_backup_container cfg) as [extra|e].
  - unfold bind at 1.
    destruct (PyFormat.format _ _ _) as [command|e].
    + apply run_backup_container_returns.
    + exists (Raise e), w, []. by rewrite app_nil_r.
  - exists (Raise e), w, []. by rewrite app_nil_r.
Qed.

(** A launch returns; once the volumes are parsed and the command is
    rendered, its first call is the submission. *)
Lemma launch_returns container volume ids w :
  exists r w' more,
    launch docker cfg md5_hexdigest format_field fuel container volume server_name ids w
    = Some (r, w')
    /\ calls w' = (calls w ++ more)%list
    /\ forall extra_volumes command,
         _get_extra_volumes_for_backup_container cfg = Ok extra_volumes ->
         PyFormat.format format_field
           (command_arguments container volume server_name
              (md5_hexdigest (VolumeInfo.source volume)))
           (BACKUP_CONTAINER_COMMAND cfg) = Ok command ->
         exists more',
           more = CRun (backup_request cfg md5_hexdigest container volume command
                                       extra_volumes) :: more'.
Proof.
  destruct (trigger_backup_returns container volume w) as (r & w' & more & Ht & Hc).
  assert (Hfirst : forall extra_volumes command,
             _get_extra_volumes_for_backup_container cfg = Ok extra_volumes ->
             PyFormat.format format_field
               (command_arguments container volume server_name
                  (md5_hexdigest (VolumeInfo.source volume)))
               (BACKUP_CONTAINER_COMMAND cfg) = Ok command ->
             exists more',
               more = CRun (backup_request cfg md5_hexdigest container volume command
                                           extra_volumes) :: more').
  { intros extra command Hparse Hformat.
    destruct (trigger_backup_total docker cfg md5_hexdigest format_field fuel container
                volume server_name extra command Hparse Hformat w enough)
      as (r2 & w2 & polls & Ht2 & Hc2 & _).
    rewrite Ht in Ht2. injection Ht2 as <- <-.
    exists polls. rewrite Hc in Hc2. by apply app_inv_head in Hc2. }
  rewrite (launch_of_result _ _ _ _ _ _ _ _ _ _ _ _ Ht).
  destruct r as [x|e].
  - eexists _, w', more. by split.
  - destruct (is_container_not_started e); eexists _, w', more; by split.
Qed.

(** The loop over the volumes of a container returns; its first call is
    the submission for the first volume. *)
Lemma launch_volumes_returns container volumes : forall ids w,
  exists r w' more,
    launch_volumes docker cfg md5_hexdigest format_field fuel container server_name
                   volumes ids w = Some (r, w')
    /\ calls w' = (calls w ++ more)%list
    /\ forall next rest extra_volumes command,
         volumes = next :: rest ->
         _get_extra_volumes_for_backup_container cfg = Ok extra_volumes ->
         PyFormat.format format_field
           (command_arguments container next server_name
              (md5_hexdigest (VolumeInfo.source next)))
           (BACKUP_CONTAINER_COMMAND cfg) = Ok command ->
         exists more',
           more = CRun (backup_request cfg md5_hexdigest container next command
                                       extra_volumes) :: more'.
Proof.
  induction volumes as [|v rest IH]; intros ids w.
  - exists (Ok ids), w, []. split; [reflexivity|]. split; [by rewrite app_nil_r|].
    intros ? ? ? ? [=].
  - destruct (launch_volumes_cons docker cfg md5_hexdigest format_field fuel container
                server_name v rest ids w) as (w0 & _ & Hc0 & ->).
    destruct (launch_returns container v ids w0) as (r & w1 & more1 & -> & Hc1 & Hfirst).
    rewrite Hc0 in Hc1.
    destruct r as [ids1|e].
    + destruct (IH ids1 w1) as (r' & w' & more2 & -> & Hc2 & _).
      exists r', w', (more1 ++ more2)%list. split; [reflexivity|].
      split; [by rewrite Hc2, Hc1, <- app_assoc|].
      intros next rest' extra command [= <- <-] Hparse Hformat.
      destruct (Hfirst extra command Hparse Hformat) as (more' & ->).
      by exists (more' ++ more2)%list.
    + exists (Raise e), w1, more1. split; [reflexivity|]. split; [exact Hc1|].
      intros next rest' extra command [= <- <-] Hparse Hformat.
      exact (Hfirst extra command Hparse Hformat).
Qed.

(** The selection of the volumes of a container returns after one call,
    the lookup of the container. *)
Lemma get_included_container_volumes_returns container include_bind_mount w :
  exists r w',
    get_included_container_volumes K docker container include_bind_mount w = Some (r, w')
    /\ calls w' = (calls w ++ [CGet (Some (ContainerInfo.id container))])%list.
Proof.
  unfold get_included_container_volumes, bind, get, client.
  destruct (containers_get docker w (Some (ContainerInfo.id container))) as [dc|e].
  - destruct (volumes_loop_selected container include_bind_mount
                (volume_label (ContainerInfo.labels container !! VOLUME_INCLUDE_LABEL K))
                (volume_label (ContainerInfo.labels container !! VOLUME_EXCLUDE_LABEL K))
                (c_mounts dc) []
                (after w (CGet (Some (ContainerInfo.id container)))))
      as (w' & -> & _ & Hc).
    by eexists _, w'.
  - by eexists _, _.
Qed.

(** One round of the loop over the containers: the log record, the
    selection of the volumes, their launches, then the other containers. *)
Lemma launch_containers_cons container rest ids w :
  launch_containers K docker cfg md5_hexdigest format_field fuel server_name
                    (container :: rest) ids w
  = match get_included_container_volumes K docker container
            (String.eqb
               (dict_get (ContainerInfo.labels container) (INCLUDE_BIND_MOUNTS_LABEL K)
                         "false") "true")
            (logged w DEBUG
               ("Found container '" ++ ContainerInfo.name container ++ "' in project '"
                  ++ str_of (ContainerInfo.project container) ++ "'")) with
    | Some (Ok volumes, w1) =>
        match launch_volumes docker cfg md5_hexdigest format_field fuel container
                server_name volumes ids w1 with
        | Some (Ok ids', w2) =>
            launch_containers K docker cfg md5_hexdigest format_field fuel server_name
                              rest ids' w2
        | Some (Raise e, w2) => Some (Raise e, w2)
        | None => None
        end
    | Some (Raise e, w1) => Some (Raise e, w1)
    | None => None
    end.
Proof.
  cbn [launch_containers]. unfold bind, logger.
  destruct (get_included_container_volumes _ _ _ _ _) as [[[volumes|e] w1]|]; reflexivity.
Qed.

(** The loop over the containers returns; its first call is the lookup of
    the first container. *)
Lemma launch_containers_returns containers : forall ids w,
  exists r w' more,
    launch_containers K docker cfg md5_hexdigest format_field fuel server_name
                      containers ids w = Some (r, w')
    /\ calls w' = (calls w ++ more)%list
    /\ forall next rest,
         containers = next :: rest ->
         exists more', more = CGet (Some (ContainerInfo.id next)) :: more'.
Proof.
  induction containers as [|c rest IH]; intros ids w.
  - exists (Ok ids), w, []. split; [reflexivity|]. split; [by rewrite app_nil_r|].
    intros ? ? [=].
  - rewrite launch_containers_cons.
    match goal with
    | |- context [get_included_container_volumes K docker c ?flag ?w0] =>
        destruct (get_included_container_volumes_returns c flag w0)
          as (rv & w1 & -> & Hc1)
    end.
    cbn [calls logged] in Hc1.
    destruct rv as [volumes|e].
    + destruct (launch_volumes_returns c volumes ids w1) as (r & w2 & more2 & -> & Hc2 & _).
      destruct r as [ids'|e].
      * destruct (IH ids' w2) as (r' & w' & more3 & -> & Hc3 & _).
        exists r', w', (CGet (Some (ContainerInfo.id c)) :: more2 ++ more3)%list.
        split; [reflexivity|]. split.
        -- rewrite Hc3, Hc2, Hc1, <- !app_assoc. reflexivity.
        -- intros next rest' [= <- <-]. by eexists.
      * exists (Raise e), w2, (CGet (Some (ContainerInfo.id c)) :: more2)%list.
        split; [reflexivity|]. split.
        -- rewrite Hc2, Hc1, <- !app_assoc. reflexivity.
        -- intros next rest' [= <- <-]. by eexists.
    + exists (Raise e), w1, [CGet (Some (ContainerInfo.id c))].
      split; [reflexivity|]. split; [exact Hc1|].
      intros next rest' [= <- <-]. by eexists.
Qed.

End Returns.

(** ** A job that does not start in time *)

(** C6.  A job that is submitted and is still in the state [created] at
    every poll up to 31 time units later.  The launcher polls once per
    unit, 32 times, and raises [ContainerNotStartedException]; nothing is
    removed.  The orchestrator absorbs the exception and leaves the tracked
    list as it was.  The loop over the volumes of the container then goes
    through the remaining volumes and returns: its result [r] comes from
    them alone; when it is a list, this is the tracked list followed by at
    most one entry per remaining volume; and the first call made after the
    polls is the submission for the next volume, when its command renders.
    The loop over the containers, entered at a container whose selected
    volumes are this one and the remaining ones, returns as well: when the
    loop over the volumes raised, with that exception; otherwise with the
    result of the remaining containers, the first of which is looked up
    next. *)
Theorem start_deadline_skips_the_pair
        K docker cfg md5_hexdigest format_field fuel container volume server_name
        extra_volumes command backup_container_ids rest containers cid w :
  _get_extra_volumes_for_backup_container cfg = Ok extra_volumes ->
  PyFormat.format format_field
    (command_arguments container volume server_name
       (md5_hexdigest (VolumeInfo.source volume)))
    (BACKUP_CONTAINER_COMMAND cfg) = Ok command ->
  let rq := backup_request cfg md5_hexdigest container volume command extra_volumes in
  (forall w', calls w' = calls w -> clock w' = clock w ->
              containers_run docker w' rq = Ok cid) ->
  (forall w', clock w <= clock w' <= clock w + 31 ->
              exists c, containers_get docker w' (Some cid) = Ok c
                        /\ c_status c = "created") ->
  (32 <= fuel)%nat ->
  exists w1 w2 r w3 more,
    _trigger_backup docker cfg md5_hexdigest format_field
                    fuel container volume server_name w
    = Some (Raise (ContainerNotStartedException (rq_name rq)), w1)
    /\ launch docker cfg md5_hexdigest format_field
              fuel container volume server_name backup_container_ids w
       = Some (Ok backup_container_ids, w1)
    /\ calls w1 = (calls w ++ CRun rq :: repeat (CGet (Some cid)) 32)%list
    /\ forallb (fun c => negb (is_removal c)) (CRun rq :: repeat (CGet (Some cid)) 32) = true
    /\ clock w1 = clock w + 31
    /\ launch_volumes docker cfg md5_hexdigest format_field fuel container server_name
         (volume :: rest) backup_container_ids w
       = launch_volumes docker cfg md5_hexdigest format_field fuel container server_name
           rest backup_container_ids w2
    /\ calls w2 = calls w1
    /\ clock w2 = clock w1
    /\ launch_volumes docker cfg md5_hexdigest format_field fuel container server_name
         (volume :: rest) backup_container_ids w
       = Some (r, w3)
    /\ calls w3 = (calls w ++ CRun rq :: repeat (CGet (Some cid)) 32 ++ more)%list
    /\ (forall ids, r = Ok ids ->
          exists new, ids = (backup_container_ids ++ new)%list
                      /\ (length new <= length rest)%nat)
    /\ (forall next rest' command',
          rest = next :: rest' ->
          PyFormat.format format_field
            (command_arguments container next server_name
               (md5_hexdigest (VolumeInfo.source next)))
            (BACKUP_CONTAINER_COMMAND cfg) = Ok command' ->
          exists more',
            more = CRun (backup_request cfg md5_hexdigest container next command'
                                        extra_volumes) :: more')
    /\ (forall w0,
          get_included_container_volumes K docker container
            (String.eqb
               (dict_get (ContainerInfo.labels container) (INCLUDE_BIND_MOUNTS_LABEL K)
                         "false") "true")
            (logged w0 DEBUG
               ("Found container '" ++ ContainerInfo.name container ++ "' in project '"
                  ++ str_of (ContainerInfo.project container) ++ "'"))
          = Some (Ok (volume :: rest), w) ->
          match r with
          | Ok ids =>
              exists r' w4 more',
                launch_containers K docker cfg md5_hexdigest format_field fuel server_name
                                  (container :: containers) backup_container_ids w0
                = Some (r', w4)
                /\ launch_containers K docker cfg md5_hexdigest format_field fuel
                                     server_name containers ids w3
                   = Some (r', w4)
                /\ calls w4 = (calls w3 ++ more')%list
                /\ forall next others,
                     containers = next :: others ->
                     exists more'', more' = CGet (Some (ContainerInfo.id next)) :: more''
          | Raise e =>
              launch_containers K docker cfg md5_hexdigest format_field fuel server_name
                                (container :: containers) backup_container_ids w0
              = Some (Raise e, w3)
          end).
Proof.
  intros Hparse Hformat rq Hrun Hcreated Hfuel.
  destruct (trigger_backup_not_started docker cfg md5_hexdigest format_field fuel
              container volume server_name extra_volumes command Hparse Hformat w cid
              Hrun Hcreated Hfuel)
    as (w1 & Ht & Hc & Hk).
  destruct (launch_volumes_cons docker cfg md5_hexdigest format_field fuel container
              server_name volume rest backup_container_ids w)
    as (w0 & Hclock0 & Hcalls0 & Hcons).
  destruct (trigger_backup_not_started docker cfg md5_hexdigest format_field fuel
              container volume server_name extra_volumes command Hparse Hformat w0 cid)
    as (w2 & Ht2 & Hc2 & Hk2).
  { intros w' Hc' Hk'. apply Hrun; congruence. }
  { intros w' Hw'. apply Hcreated. lia. }
  { exact Hfuel. }
  assert (Hskip :
            launch_volumes docker cfg md5_hexdigest format_field fuel container server_name
              (volume :: rest) backup_container_ids w
            = launch_volumes docker cfg md5_hexdigest format_field fuel container
                server_name rest backup_container_ids w2).
  { rewrite Hcons. unfold launch, catch, bind. rewrite Ht2. reflexivity. }
  destruct (launch_volumes_returns docker cfg md5_hexdigest format_field fuel server_name
              Hfuel container rest backup_container_ids w2)
    as (r & w3 & more & Hret & Hc3 & Hfirst).
  exists w1, w2, r, w3, more.
  split; [exact Ht|]. split; [|split; [exact Hc|]].
  { unfold launch, catch, bind. rewrite Ht. reflexivity. }
  split; [reflexivity|]. split; [exact Hk|]. split; [exact Hskip|].
  split; [congruence|]. split; [congruence|].
  split; [by rewrite Hskip|].
  split.
  { rewrite Hc3, Hc2, Hcalls0, <- app_assoc. reflexivity. }
  split.
  { intros ids ->.
    exact (launch_volumes_grows docker cfg md5_hexdigest format_field fuel container
             server_name rest _ _ _ _ Hret). }
  split.
  { intros next rest' command' Hrest Hformat'.
    exact (Hfirst next rest' extra_volumes command' Hrest Hparse Hformat'). }
  intros wc Hsel.
  rewrite launch_containers_cons, Hsel, Hskip, Hret.
  destruct r as [ids|e]; [|reflexivity].
  destruct (launch_containers_returns K docker cfg md5_hexdigest format_field fuel
              server_name Hfuel containers ids w3)
    as (r' & w4 & more' & Hret' & Hc4 & Hfirst').
  exists r', w4, more'. by repeat split.
Qed.

(** The container [web] with the volumes [shop_data] and [shop_cache],
    followed by [db]; the job [j0] is tracked already.  The daemon starts
    no job before the clock shows 32, so the job for [shop_data],
    submitted at 0, is given up at 31.  The job for [shop_cache] is
    submitted next and tracked, and the loop over the containers goes on
    to look up [db]. *)
Lemma start_deadline_skips_the_pair_witness :
  let docker := Slow.daemon [Slow.web; Example.db] in
  let cfg := Example.cfg Example.command "" in
  let container := Example.info Slow.web in
  let volume := volume_of Example.data in
  let next := volume_of Labelled.cache in
  let cid := "j:garrison_c1_md5(/var/lib/docker/volumes/shop_data/_data)" in
  let w := after (logged Example.w0 DEBUG "Found container 'web' in project 'shop'")
                 (CGet (Some "c1")) in
  let rq := backup_request cfg Example.md5 container volume
              "backup host1/shop/web/shop_data /data" ∅ in
  let rq' := backup_request cfg Example.md5 container next
               "backup host1/shop/web/shop_cache /cache" ∅ in
  exists w1 w3 w4 more more',
    launch docker cfg Example.md5 Example.format_field
           40 container volume "host1" [Some "j0"] w
    = Some (Ok [Some "j0"], w1)
    /\ calls w1 = (calls w ++ CRun rq :: repeat (CGet (Some cid)) 32)%list
    /\ clock w1 = clock w + 31
    /\ launch_volumes docker cfg Example.md5 Example.format_field 40 container "host1"
         [volume; next] [Some "j0"] w
       = Some (Ok [Some "j0";
                   Some "j:garrison_c1_md5(/var/lib/docker/volumes/shop_cache/_data)"], w3)
    /\ calls w3
       = (calls w ++ CRun rq :: repeat (CGet (Some cid)) 32 ++ CRun rq' :: more)%list
    /\ launch_containers Example.K docker cfg Example.md5 Example.format_field 40 "host1"
         [container; Example.info Example.db] [Some "j0"] Example.w0
       = Some (Ok [Some "j0";
                   Some "j:garrison_c1_md5(/var/lib/docker/volumes/shop_cache/_data)";
                   Some "j:garrison_c2_md5(/var/lib/docker/volumes/pgdata/_data)"], w4)
    /\ calls w4 = (calls w3 ++ CGet (Some "c2") :: more')%list.
Proof.
  intros docker cfg container volume next cid w rq rq'.
  destruct (start_deadline_skips_the_pair Example.K docker cfg Example.md5
              Example.format_field 40 container volume "host1" ∅
              "backup host1/shop/web/shop_data /data" [Some "j0"] [next]
              [Example.info Example.db] cid w)
    as (w1 & w2 & r & w3 & more & _ & Hlaunch & Hc1 & _ & Hk1 & _ & _ & _
        & Hret & Hc3 & _ & Hnext & Hcontainers).
  - vm_compute. reflexivity.
  - vm_compute. reflexivity.
  - intros w' _ _. reflexivity.
  - intros w' Hw'. exists (Slow.job cid "created"). split; [|reflexivity].
    change (clock w) with 0 in Hw'.
    cbn [containers_get docker Slow.daemon].
    change (PyStr.startswith cid "j:") with true. cbv iota.
    replace (clock w' <=? 31) with true by (symmetry; apply Z.leb_le; lia).
    reflexivity.
  - lia.
  - destruct (Hnext next [] "backup host1/shop/web/shop_cache /cache" eq_refl)
      as (more1 & ->); [vm_compute; reflexivity|].
    specialize (Hcontainers Example.w0).
    pose proof Hret as Hr. vm_compute in Hr. injection Hr as Hr _.
    rewrite <- Hr in Hret, Hcontainers.
    destruct Hcontainers as (r' & w4 & more' & Hrun & _ & Hc4 & Hlookup);
      [vm_compute; reflexivity|].
    destruct (Hlookup (Example.info Example.db) [] eq_refl) as (more2 & ->).
    pose proof Hrun as Hr'. vm_compute in Hr'. injection Hr' as Hr' _.
    rewrite <- Hr' in Hrun.
    exists w1, w3, w4, more1, more2.
    split; [exact Hlaunch|]. split; [exact Hc1|]. split; [exact Hk1|].
    split; [exact Hret|]. split; [exact Hc3|]. split; [exact Hrun|exact Hc4].
Defined.

(** The same run from the loop over the containers, written out: the world
    in which the volumes of [web] have been selected is the one of the
    witness; the job for [shop_data] is given up and not tracked, the jobs
    for [shop_cache] and for the volume of [db] start and are tracked
    behind [j0]. *)
Example slow_start_run :
  let docker := Slow.daemon [Slow.web; Example.db] in
  let cfg := Example.cfg Example.command "" in
  get_included_container_volumes Example.K docker (Example.info Slow.web) false
    (logged Example.w0 DEBUG "Found container 'web' in project 'shop'")
  = Some (Ok [volume_of Example.data; volume_of Labelled.cache],
          after (logged Example.w0 DEBUG "Found container 'web' in project 'shop'")
                (CGet (Some "c1")))
  /\ exists w',
      launch_containers Example.K docker cfg Example.md5 Example.format_field 40 "host1"
                        [Example.info Slow.web; Example.info Example.db] [Some "j0"]
                        Example.w0
      = Some (Ok [Some "j0";
                  Some "j:garrison_c1_md5(/var/lib/docker/volumes/shop_cache/_data)";
                  Some "j:garrison_c2_md5(/var/lib/docker/volumes/pgdata/_data)"], w')
      /\ clock w' = 32
      /\ List.filter is_removal (calls w') = []
      /\ map (fun c => match c with CRun rq => rq_name rq | _ => "" end)
             (List.filter (fun c => match c with CRun _ => true | _ => false end) (calls w'))
         = ["garrison_c1_md5(/var/lib/docker/volumes/shop_data/_data)";
            "garrison_c1_md5(/var/lib/docker/volumes/shop_cache/_data)";
            "garrison_c2_md5(/var/lib/docker/volumes/pgdata/_data)"].
Proof.
  split; [vm_compute; reflexivity|].
  eexists. split; [vm_compute; reflexivity|].
  split; [vm_compute; reflexivity|]. split; vm_compute; reflexivity.
Qed.

(** ** The cleanup of the whole tracked list *)

(** The cleanup of one job whose status query, lookup and removal are
    answered with success or [NotFound]: the calls and log records of its
    outcome, then the cleanup of the rest. *)
Lemma cleanup_step docker x rest w o :
  answered_as docker w x o ->
  cleanup docker (x :: rest) w = cleanup docker rest (handled w x o).
Proof.
  intros (c & Hget & Ho).
  cbn [cleanup]. unfold bind at 1. rewrite get_container_exit_status_eq, Hget.
  destruct o as [|cid|cid|]; cbv zeta in Ho.
  - apply Z.eqb_neq in Ho. rewrite Ho. cbn [negb]. unfold bind at 1, logger.
    reflexivity.
  - destruct Ho as (Hst & c2 & Hget2 & <- & Hremove). rewrite Hst.
    cbn [Z.eqb negb]. unfold bind at 1, remove_container.
    unfold bind at 1, logger. unfold bind at 1, catch, bind at 1, get, client.
    rewrite Hget2. unfold bind at 1. rewrite Hremove. cbn [ret].
    f_equal. unfold handled, logged, after. cbn [clock calls log outcome_calls outcome_log].
    f_equal; by rewrite <- !app_assoc.
  - destruct Ho as (Hst & c2 & Hget2 & <- & Hremove). rewrite Hst.
    cbn [Z.eqb negb]. unfold bind at 1, remove_container.
    unfold bind at 1, logger. unfold bind at 1, catch, bind at 1, get, client.
    rewrite Hget2. unfold bind at 1. rewrite Hremove.
    cbn [is_not_found]. unfold bind at 1, logger. cbn [ret].
    f_equal. unfold handled, logged, after. cbn [clock calls log outcome_calls outcome_log].
    f_equal; by rewrite <- !app_assoc.
  - destruct Ho as (Hst & Hget2). rewrite Hst.
    cbn [Z.eqb negb]. unfold bind at 1, remove_container.
    unfold bind at 1, logger. unfold bind at 1, catch, bind at 1, get, client.
    rewrite Hget2.
    cbn [is_not_found]. unfold bind at 1, logger. cbn [ret].
    f_equal. unfold handled, logged, after. cbn [clock calls log outcome_calls outcome_log].
    f_equal; by rewrite <- !app_assoc.
Qed.

(** C7, as the code has it.  When the daemon answers the status query of
    every tracked job, and every lookup and removal with success or
    [NotFound], the cleanup handles every job of the list, in order, and
    returns without an exception.  For a job with an exit status other
    than 0 it makes the status query, logs the warning and asks for no
    removal ([Kept]).  For a job with exit status 0 it looks the container
    up and asks for its removal ([Removed]); [NotFound] from the removal
    ([GoneAtRemoval]) or from the lookup ([GoneAtLookup]) is logged as a
    warning and goes no further.  The calls and the log records of the run
    are those of the jobs, one after the other, and the clock is not
    moved. *)
Theorem cleanup_handles_every_job docker backup_container_ids outcomes w :
  cleanup_answers docker backup_container_ids outcomes w ->
  exists w',
    cleanup docker backup_container_ids w = Some (Ok tt, w')
    /\ clock w' = clock w
    /\ calls w'
       = (calls w ++ concat (zip_with outcome_calls backup_container_ids outcomes))%list
    /\ log w'
       = (log w ++ concat (zip_with outcome_log backup_container_ids outcomes))%list.
Proof.
  revert outcomes w.
  induction backup_container_ids as [|x ids IH]; intros [|o os] w H; try contradiction.
  - exists w. cbn [zip_with concat]. rewrite !app_nil_r. by repeat split.
  - destruct H as [Hx Hrest].
    destruct (IH os (handled w x o) Hrest) as (w' & Hrun & Hk & Hc & Hl).
    exists w'. rewrite (cleanup_step _ _ _ _ _ Hx).
    split; [exact Hrun|]. split; [exact Hk|].
    cbn [zip_with concat]. rewrite Hc, Hl. cbn [handled calls log].
    by rewrite <- !app_assoc.
Qed.

(** Four jobs: [j2] has failed and is kept; [j1] is removed; [j3] is gone
    when it is looked up and [j4] when its removal is asked for. *)
Lemma cleanup_handles_every_job_witness :
  exists w',
    cleanup Jobs.daemon [Some "j2"; Some "j1"; Some "j3"; Some "j4"] Example.w0
    = Some (Ok tt, w')
    /\ clock w' = clock Example.w0
    /\ calls w'
       = (calls Example.w0
            ++ concat (zip_with outcome_calls
                         [Some "j2"; Some "j1"; Some "j3"; Some "j4"]
                         [Kept; Removed "j1"; GoneAtLookup; GoneAtRemoval "j4"]))%list
    /\ log w'
       = (log Example.w0
            ++ concat (zip_with outcome_log
                         [Some "j2"; Some "j1"; Some "j3"; Some "j4"]
                         [Kept; Removed "j1"; GoneAtLookup; GoneAtRemoval "j4"]))%list.
Proof.
  apply (cleanup_handles_every_job Jobs.daemon
           [Some "j2"; Some "j1"; Some "j3"; Some "j4"]
           [Kept; Removed "j1"; GoneAtLookup; GoneAtRemoval "j4"] Example.w0).
  split; [|split; [|split; [|split; [|exact I]]]].
  - exists (Jobs.job "j2" 137). split; [reflexivity|]. discriminate.
  - exists (Jobs.job "j1" 0). split; [reflexivity|]. split; [reflexivity|].
    exists (Jobs.job "j1" 0). split; [reflexivity|]. split; reflexivity.
  - exists (Jobs.job "j3" 0). split; [reflexivity|]. split; reflexivity.
  - exists (Jobs.job "j4" 0). split; [reflexivity|]. split; [reflexivity|].
    exists (Jobs.job "j4" 0). split; [reflexivity|]. split; reflexivity.
Defined.

(** The run of the four jobs, written out: one removal is done, for
    [j1]; the failed job [j2] is only queried. *)
Example cleanup_of_four_jobs :
  cleanup Jobs.daemon [Some "j2"; Some "j1"; Some "j3"; Some "j4"] Example.w0
  = Some (Ok tt,
          {| clock := 0;
             calls := [CGet (Some "j2");
                       CGet (Some "j1"); CGet (Some "j1"); CRemove "j1";
                       CGet (Some "j3"); CGet (Some "j3");
                       CGet (Some "j4"); CGet (Some "j4"); CRemove "j4"];
             log := [(WARNING,
                      "Backup container with ID j2 did not exit with a success status. Will leave container for investigation purposes.");
                     (DEBUG, "Removing container with ID j1");
                     (DEBUG, "Successfully remove container with ID j1");
                     (DEBUG, "Removing container with ID j3");
                     (WARNING,
                      "Tried to remove container with ID j3 but the container does not exist.");
                     (DEBUG, "Removing container with ID j4");
                     (WARNING,
                      "Tried to remove container with ID j4 but the container does not exist.")] |}).
Proof. vm_compute. reflexivity. Qed.

(** Not every tracked job is handled.  The job [j1] has exit status 0
    whenever it is asked for.  Tracked behind [j5], whose removal the
    daemon refuses with a conflict, it is neither queried nor removed: the
    error leaves the cleanup.  Tracked behind [j9], which no longer
    exists, it is not reached either: the status query of [j9] raises
    [NotFound], which nothing catches. *)
Lemma successful_job_left_after_an_error :
  (forall w, get_container_exit_status Jobs.daemon (Some "j1") w
             = Some (Ok 0, after w (CGet (Some "j1"))))
  /\ cleanup Jobs.daemon [Some "j5"; Some "j1"] Example.w0
     = Some (Raise (APIError 409),
             {| clock := 0;
                calls := [CGet (Some "j5"); CGet (Some "j5"); CRemove "j5"];
                log := [(DEBUG, "Removing container with ID j5")] |})
  /\ cleanup Jobs.daemon [Some "j9"; Some "j1"] Example.w0
     = Some (Raise NotFound,
             {| clock := 0; calls := [CGet (Some "j9")]; log := [] |}).
Proof.
  split; [|split]; [intros w | vm_compute | vm_compute]; reflexivity.
Qed.
